(** * Civic reports front end: session client, report filter, report renderer

    A shallow embedding of the browser scripts of the civic reports
    application (static/js/main.js, the AuthManager class and the
    CitizenDashboard class) and the properties the specification states
    about them, followed by further properties of the same scripts: the
    outcomes of the API helper, the login and registration forms, the form
    and file helpers, and the load and the views of the dashboard.

    Browser state the scripts touch (localStorage, window.location, the
    elements looked up by id, the requests handed to fetch) is an explicit
    [World]; an async function is a state transformer that either completes
    normally or throws, and [await] is sequencing. *)

From Stdlib Require Import ZArith Ascii String DecimalString.
From stdpp Require Import gmap strings list fin_maps.

Local Open Scope string_scope.
Local Open Scope list_scope.
Local Open Scope Z_scope.

(** ** JavaScript values the scripts inspect *)

(** The double quote character of the HTML templates. *)
Definition dq : string := String "034"%char EmptyString.

(** The line feed of the multi-line templates. *)
Definition nl : string := String "010"%char EmptyString.

(** An attribute value between its quotes. *)
Definition q (s : string) : string := dq +:+ s +:+ dq.

(** A thrown value: an Error object with its name and message. *)
Record JsError := { err_name : string; err_message : string }.

Definition mkError (msg : string) : JsError :=
  {| err_name := "Error"; err_message := msg |}.

Definition mkTypeError (msg : string) : JsError :=
  {| err_name := "TypeError"; err_message := msg |}.

(** What a property read gives: undefined, null, a string (the token and
    error payloads and the icon tables carry strings), or one of the members
    every object inherits from Object.prototype, named by its key. *)
Inductive jsval :=
| JUndefined
| JNull
| JString (s : string)
| JInherited (key : string).

(** [!!s] for a string. *)
Definition nonempty (s : string) : bool :=
  match s with
  | String _ _ => true
  | EmptyString => false
  end.

(** ToBoolean: a non-empty string is truthy, and so is every function and
    object. *)
Definition truthy (v : jsval) : bool :=
  match v with
  | JString s => nonempty s
  | JInherited _ => true
  | _ => false
  end.

(** The keys an object literal inherits from Object.prototype. *)
Definition object_prototype_keys : list string :=
  [ "constructor"; "hasOwnProperty"; "isPrototypeOf"; "propertyIsEnumerable";
    "toLocaleString"; "toString"; "valueOf"; "__proto__";
    "__defineGetter__"; "__defineSetter__"; "__lookupGetter__";
    "__lookupSetter__" ].

(** ToString of an inherited member: [constructor] is the function Object,
    [__proto__] is the prototype object itself, the others are built-in
    functions named by their key.  The function text is the one V8 and
    JavaScriptCore print; other engines differ in white space. *)
Definition inherited_to_string (key : string) : string :=
  if String.eqb key "__proto__" then "[object Object]"
  else "function " +:+ (if String.eqb key "constructor" then "Object" else key)
         +:+ "() { [native code] }".

(** ToString, as a template literal or [new Error(v)] applies it. *)
Definition to_string (v : jsval) : string :=
  match v with
  | JUndefined => "undefined"
  | JNull => "null"
  | JString s => s
  | JInherited key => inherited_to_string key
  end.

(** [table[key]] on an object literal with the given own string entries:
    the own entry, else the inherited member, else undefined. *)
Definition literal_get (table : gmap string string) (key : string) : jsval :=
  match table !! key with
  | Some v => JString v
  | None =>
      if bool_decide (key ∈ object_prototype_keys) then JInherited key
      else JUndefined
  end.

(** [a || b] *)
Definition js_or (a b : jsval) : jsval := if truthy a then a else b.

(** What [localStorage.getItem] and nullable string fields give: null or a
    string; [!x] holds for null and for the empty string. *)
Definition present (o : option string) : bool :=
  match o with
  | Some s => nonempty s
  | None => false
  end.

(** ** String operations of the scripts *)

(** [s.replace(c, d)] with one-character arguments: the first occurrence
    only. *)
Fixpoint replace_first (c d : ascii) (s : string) : string :=
  match s with
  | EmptyString => EmptyString
  | String a s' =>
      if Ascii.eqb a c then String d s' else String a (replace_first c d s')
  end.

(** [s.split(sep)] with a one-character separator. *)
Fixpoint split (sep : ascii) (s : string) : list string :=
  match s with
  | EmptyString => [EmptyString]
  | String a s' =>
      if Ascii.eqb a sep then EmptyString :: split sep s'
      else match split sep s' with
           | x :: xs => String a x :: xs
           | [] => [String a EmptyString]
           end
  end.

(** Texts are kept as their UTF-8 bytes.  The white space and the line
    terminators [trim] removes: U+0009 to U+000D and U+0020 in one byte,
    U+00A0 in two, and in three bytes U+1680, U+2000 to U+200A, U+2028,
    U+2029, U+202F, U+205F, U+3000 and U+FEFF. *)
Definition narrow_space (x : nat) : bool :=
  ((9 <=? x) && (x <=? 13) || (x =? 32))%nat.

Definition wide_space (x y z : nat) : bool :=
  ((x =? 225) && (y =? 154) && (z =? 128)
   || (x =? 226) && (y =? 128)
      && ((128 <=? z) && (z <=? 138) || (z =? 168) || (z =? 169) || (z =? 175))
   || (x =? 226) && (y =? 129) && (z =? 159)
   || (x =? 227) && (y =? 128) && (z =? 128)
   || (x =? 239) && (y =? 187) && (z =? 191))%nat.

(** The text after one leading white space character, if there is one. *)
Definition space_lead (s : string) : option string :=
  match s with
  | String a s1 =>
      if narrow_space (nat_of_ascii a) then Some s1
      else
        match s1 with
        | String b s2 =>
            if ((nat_of_ascii a =? 194) && (nat_of_ascii b =? 160))%nat
            then Some s2
            else
              match s2 with
              | String c s3 =>
                  if wide_space (nat_of_ascii a) (nat_of_ascii b)
                       (nat_of_ascii c)
                  then Some s3 else None
              | EmptyString => None
              end
        | EmptyString => None
        end
  | EmptyString => None
  end.

(** The same on a reversed text: the bytes of the last character come
    first, last byte first. *)
Definition space_trail (s : string) : option string :=
  match s with
  | String c s1 =>
      if narrow_space (nat_of_ascii c) then Some s1
      else
        match s1 with
        | String b s2 =>
            if ((nat_of_ascii b =? 194) && (nat_of_ascii c =? 160))%nat
            then Some s2
            else
              match s2 with
              | String a s3 =>
                  if wide_space (nat_of_ascii a) (nat_of_ascii b)
                       (nat_of_ascii c)
                  then Some s3 else None
              | EmptyString => None
              end
        | EmptyString => None
        end
  | EmptyString => None
  end.

(** Removing white space characters at the front for as long as there is
    one; [fuel] bounds the number of characters. *)
Fixpoint strip (step : string → option string) (fuel : nat) (s : string)
    : string :=
  match fuel with
  | O => s
  | S fuel' =>
      match step s with
      | Some rest => strip step fuel' rest
      | None => s
      end
  end.

Definition trim_start (s : string) : string :=
  strip space_lead (String.length s) s.

(** [s.trim()] *)
Definition trim (s : string) : string :=
  let t := trim_start s in
  String.rev (strip space_trail (String.length t) (String.rev t)).

(** [s.length]: the number of UTF-16 code units, one for a character of
    up to three bytes and two for a character of four. *)
Fixpoint utf16_length (s : string) : nat :=
  match s with
  | EmptyString => O
  | String a s' =>
      let x := nat_of_ascii a in
      ((if x <? 128 then 1 else if x <? 192 then 0
        else if x <? 240 then 1 else 2) + utf16_length s')%nat
  end.

(** [s.substring(from)] *)
Definition substring_from (from : nat) (s : string) : string :=
  substring from (String.length s) s.

(** [pieces.join('')] *)
Definition join (pieces : list string) : string :=
  fold_right String.append EmptyString pieces.

(** Decimal rendering of an integer, as a template literal prints one. *)
Definition show_Z (z : Z) : string := NilZero.string_of_int (Z.to_int z).

Definition show_nat (n : nat) : string := show_Z (Z.of_nat n).

(** ** Reports, responses and requests *)

(** A report record as the server serialises it. *)
Record Report := {
  id : Z;
  title : string;
  description : string;
  category : string;
  category_display : string;
  status : string;
  status_display : string;
  priority : string;
  priority_display : string;
  image : option string;
  address : option string;
  created_at : string
}.

(** The value [response.json()] resolves to, by the shapes the scripts tell
    apart: null (any property read throws), a scalar (property reads give
    undefined), an object with its own fields, an array of report records. *)
Inductive Data :=
| DNull
| DScalar
| DObject (fields : gmap string jsval)
| DArray (items : list Report).

(** [data.k] for the field names the scripts read (access, detail,
    message; none of them is inherited). *)
Definition prop (d : Data) (k : string) : JsError + jsval :=
  match d with
  | DNull =>
      inl (mkTypeError
             ("Cannot read properties of null (reading '" +:+ k +:+ "')"))
  | DScalar => inr JUndefined
  | DObject m => inr (default JUndefined (m !! k))
  | DArray _ => inr JUndefined
  end.

(** A response: its status code and what parsing its body as JSON gives
    ([inl] when [response.json()] rejects). *)
Record Response := {
  resp_status : Z;
  resp_json : JsError + Data
}.

(** [response.ok]: the status is in the range 200-299. *)
Definition ok (r : Response) : bool :=
  (200 <=? resp_status r) && (resp_status r <=? 299).

(** A request body: text supplied by the caller, or the JSON text of an
    object with the given string fields ([JSON.stringify] of an object
    literal; the serialisation itself is not modelled). *)
Inductive Body :=
| RawBody (s : string)
| JsonBody (fields : list (string * string)).

(** The [options] argument of the request helpers: the init fields the
    helpers pass through, and the caller's header object if any. *)
Record Options := {
  method : option string;
  headers : option (gmap string string);
  body : option Body
}.

Definition no_options : Options :=
  {| method := None; headers := None; body := None |}.

(** A request handed to [fetch]. *)
Record Request := {
  req_url : string;
  req_method : option string;
  req_headers : gmap string string;
  req_body : option Body
}.

(** How a [fetch] promise settles. *)
Inductive FetchOutcome :=
| Resolved (r : Response)
| Rejected (e : JsError).

(** Object spread [{...dst, ...src}]: every own entry of [src] is copied
    over [dst]; on an equal key the entry of [src] stays.  Spreading an
    undefined [src] copies nothing. *)
Definition spread (src : option (gmap string string))
    (dst : gmap string string) : gmap string string :=
  match src with
  | Some h => h ∪ dst
  | None => dst
  end.

(** ** The page *)

(** An element found by id: its class list and the two content properties
    the scripts assign. *)
Record Element := {
  classList : gset string;
  textContent : string;
  innerHTML : string
}.

Definition classList_add (c : string) (e : Element) : Element :=
  {| classList := {[c]} ∪ classList e;
     textContent := textContent e; innerHTML := innerHTML e |}.

Definition classList_remove (c : string) (e : Element) : Element :=
  {| classList := classList e ∖ {[c]};
     textContent := textContent e; innerHTML := innerHTML e |}.

Definition set_textContent (s : string) (e : Element) : Element :=
  {| classList := classList e; textContent := s; innerHTML := innerHTML e |}.

Definition set_innerHTML (s : string) (e : Element) : Element :=
  {| classList := classList e; textContent := textContent e; innerHTML := s |}.

(** A toast appended to the toast container. *)
Record Toast := {
  toast_message : string;
  toast_type : string;
  toast_duration : Z
}.

(** The filter selectors of the dashboard. *)
Record Filters := {
  f_status : string;
  f_category : string
}.

(** The fields of the CitizenDashboard instance.  [reports] holds whatever
    the last load assigned, array or not. *)
Record Dashboard := {
  reports : Data;
  filteredReports : list Report;
  currentFilters : Filters
}.

(** Everything the scripts read or write.  [network] is the behaviour of the
    servers: given the requests sent so far, the last one being the request
    in flight, how that fetch settles. *)
Record World := {
  localStorage : gmap string string;
  location_href : string;
  cookie : string;
  elements : gmap string Element;
  toasts : list Toast;
  console : list (string * string);
  sent : list Request;
  network : list Request → FetchOutcome;
  citizenDashboard : Dashboard
}.

Definition with_localStorage (f : gmap string string → gmap string string)
    (w : World) : World :=
  {| localStorage := f (localStorage w); location_href := location_href w;
     cookie := cookie w; elements := elements w; toasts := toasts w;
     console := console w; sent := sent w; network := network w;
     citizenDashboard := citizenDashboard w |}.

Definition with_location_href (h : string) (w : World) : World :=
  {| localStorage := localStorage w; location_href := h;
     cookie := cookie w; elements := elements w; toasts := toasts w;
     console := console w; sent := sent w; network := network w;
     citizenDashboard := citizenDashboard w |}.

Definition with_elements (f : gmap string Element → gmap string Element)
    (w : World) : World :=
  {| localStorage := localStorage w; location_href := location_href w;
     cookie := cookie w; elements := f (elements w); toasts := toasts w;
     console := console w; sent := sent w; network := network w;
     citizenDashboard := citizenDashboard w |}.

Definition with_toasts (f : list Toast → list Toast) (w : World) : World :=
  {| localStorage := localStorage w; location_href := location_href w;
     cookie := cookie w; elements := elements w; toasts := f (toasts w);
     console := console w; sent := sent w; network := network w;
     citizenDashboard := citizenDashboard w |}.

Definition with_console (f : list (string * string) → list (string * string))
    (w : World) : World :=
  {| localStorage := localStorage w; location_href := location_href w;
     cookie := cookie w; elements := elements w; toasts := toasts w;
     console := f (console w); sent := sent w; network := network w;
     citizenDashboard := citizenDashboard w |}.

Definition with_sent (f : list Request → list Request) (w : World) : World :=
  {| localStorage := localStorage w; location_href := location_href w;
     cookie := cookie w; elements := elements w; toasts := toasts w;
     console := console w; sent := f (sent w); network := network w;
     citizenDashboard := citizenDashboard w |}.

Definition with_dashboard (f : Dashboard → Dashboard) (w : World) : World :=
  {| localStorage := localStorage w; location_href := location_href w;
     cookie := cookie w; elements := elements w; toasts := toasts w;
     console := console w; sent := sent w; network := network w;
     citizenDashboard := f (citizenDashboard w) |}.

(** ** Computations: state passing with exceptions *)

(** How a function body ends: with a value, or by throwing (for an async
    function: the promise resolves or rejects). *)
Inductive Completion (A : Type) :=
| Normal (a : A)
| Throw (e : JsError).

Arguments Normal {A} a.
Arguments Throw {A} e.

Definition M (A : Type) : Type := World → Completion A * World.

Definition ret {A} (a : A) : M A := fun w => (Normal a, w).

Definition throw {A} (e : JsError) : M A := fun w => (Throw e, w).

Definition bind {A B} (c : M A) (k : A → M B) : M B :=
  fun w =>
    match c w with
    | (Normal a, w1) => k a w1
    | (Throw e, w1) => (Throw e, w1)
    end.

Notation "'let*' x ':=' c 'in' k" := (bind c (fun x => k))
  (at level 10, x name, c at level 100, k at level 200).

Notation "c ';;' k" := (bind c (fun _ => k))
  (at level 100, k at level 200, right associativity).

(** A statement that only updates the state. *)
Definition update (f : World → World) : M unit := fun w => (Normal tt, f w).

(** A read of the state. *)
Definition gets {A} (f : World → A) : M A := fun w => (Normal (f w), w).

(** Lifting a step that may throw without touching the state. *)
Definition lift {A} (r : JsError + A) : M A :=
  match r with
  | inl e => throw e
  | inr a => ret a
  end.

(** [try { b } catch (error) { h error } finally { f }]: the handler runs
    when the block throws; the finaliser runs last on every path, and the
    statement completes as the block or the handler did unless the
    finaliser itself throws. *)
Definition try_catch_finally {A} (b : M A) (h : JsError → M A)
    (f : M unit) : M A :=
  fun w =>
    let '(r, w1) :=
      match b w with
      | (Normal a, w1) => (Normal a, w1)
      | (Throw e, w1) => h e w1
      end in
    match f w1 with
    | (Normal _, w2) => (r, w2)
    | (Throw e, w2) => (Throw e, w2)
    end.

(** [try { b } catch (error) { h error }] *)
Definition try_catch {A} (b : M A) (h : JsError → M A) : M A :=
  fun w =>
    match b w with
    | (Normal a, w1) => (Normal a, w1)
    | (Throw e, w1) => h e w1
    end.

(** ** Browser primitives *)

Definition getItem (k : string) : M (option string) :=
  gets (fun w => localStorage w !! k).

Definition setItem (k v : string) : M unit :=
  update (with_localStorage (insert k v)).

Definition removeItem (k : string) : M unit :=
  update (with_localStorage (delete k)).

(** [window.location.href = h] *)
Definition navigate (h : string) : M unit := update (with_location_href h).

(** [document.getElementById(i)] *)
Definition getElementById (i : string) : M (option Element) :=
  gets (fun w => elements w !! i).

(** Assigning through an element reference obtained by id. *)
Definition modify_element (i : string) (f : Element → Element) : M unit :=
  update (with_elements (fun es =>
    match es !! i with
    | Some e => <[i := f e]> es
    | None => es
    end)).

Definition console_error (label msg : string) : M unit :=
  update (with_console (fun l => l ++ [(label, msg)])).

(** [{ ...o, headers: h }] *)
Definition with_headers (o : Options) (h : gmap string string) : Options :=
  {| method := method o; headers := Some h; body := body o |}.

(** The request [fetch(url, init)] issues. *)
Definition request_of (url : string) (init : Options) : Request :=
  {| req_url := url; req_method := method init;
     req_headers := default ∅ (headers init); req_body := body init |}.

(** [await fetch(url, init)]: the request is recorded, then the promise
    settles as the network decides. *)
Definition fetch (url : string) (init : Options) : M Response :=
  fun w =>
    let w1 := with_sent (fun l => l ++ [request_of url init]) w in
    match network w (sent w1) with
    | Resolved r => (Normal r, w1)
    | Rejected e => (Throw e, w1)
    end.

(** [await response.json()] *)
Definition json (r : Response) : M Data := lift (resp_json r).

(** ** static/js/main.js *)

Module Main.

Definition apiBaseUrl : string := "/api".

Definition getAuthToken : M (option string) := getItem "authToken".

Definition setAuthToken (token : string) : M unit := setItem "authToken" token.

Definition removeAuthToken : M unit := removeItem "authToken".

Definition showLoading : M unit :=
  let* spinner := getElementById "loading-spinner" in
  match spinner with
  | Some _ => modify_element "loading-spinner" (classList_remove "hidden")
  | None => ret tt
  end.

Definition hideLoading : M unit :=
  let* spinner := getElementById "loading-spinner" in
  match spinner with
  | Some _ => modify_element "loading-spinner" (classList_add "hidden")
  | None => ret tt
  end.

(** The toast is appended when the container exists; its markup and its
    removal after [duration] milliseconds are left out. *)
Definition showToast (message : string) (type : string) (duration : Z)
    : M unit :=
  let* container := getElementById "toast-container" in
  match container with
  | Some _ =>
      update (with_toasts (fun l => l ++
        [{| toast_message := message; toast_type := type;
            toast_duration := duration |}]))
  | None => ret tt
  end.

(** The header object [apiCall] starts from. *)
Definition defaultHeaders (token : option string) : gmap string string :=
  let h := {[ "Content-Type" := "application/json" ]} in
  if present token
  then <["Authorization" := "Bearer " +:+ default "" token]> h
  else h.

(** The [headers] of [config]: [{ ...defaultHeaders, ...options.headers }]. *)
Definition config_headers (token : option string) (options : Options)
    : gmap string string :=
  spread (headers options) (defaultHeaders token).

(** [apiCall] resolves to the parsed body, or to undefined ([None]) after a
    401.  The two property reads of the error message have no effect of
    their own, so they are written before the [||] chain. *)
Definition apiCall (endpoint : string) (options : Options)
    : M (option Data) :=
  let* token := getAuthToken in
  try_catch_finally
    (showLoading ;;
     let* response := fetch (apiBaseUrl +:+ endpoint)
                        (with_headers options (config_headers token options)) in
     if resp_status response =? 401 then
       removeAuthToken ;;
       navigate "/login/" ;;
       ret None
     else
       let* data := json response in
       if negb (ok response) then
         let* detail := lift (prop data "detail") in
         let* message := lift (prop data "message") in
         throw (mkError (to_string
           (js_or detail (js_or message (JString "API Error")))))
       else ret (Some data))
    (fun error =>
       console_error "API Error:" (err_message error) ;;
       showToast (err_message error) "error" 5000 ;;
       throw error)
    hideLoading.

End Main.

(** ** The AuthManager class *)

Module AuthManager.

Definition baseUrl : string := "/api/auth".

Definition logout : M unit :=
  removeItem "authToken" ;;
  removeItem "refreshToken" ;;
  removeItem "userInfo" ;;
  navigate "/login/".

(** The init object of the refresh request. *)
Definition refresh_init (refreshToken : string) : Options :=
  {| method := Some "POST";
     headers := Some {[ "Content-Type" := "application/json" ]};
     body := Some (JsonBody [("refresh", refreshToken)]) |}.

(** [refreshToken] resolves to null or to [data.access]. *)
Definition refreshToken : M jsval :=
  let* refreshToken := getItem "refreshToken" in
  if negb (present refreshToken) then
    logout ;;
    ret JNull
  else
    try_catch
      (let* response := fetch (baseUrl +:+ "/token/refresh/")
                          (refresh_init (default "" refreshToken)) in
       if negb (ok response) then throw (mkError "Token refresh failed")
       else
         let* data := json response in
         let* access := lift (prop data "access") in
         setItem "authToken" (to_string access) ;;
         ret access)
      (fun error =>
         console_error "Token refresh error:" (err_message error) ;;
         ret JNull).

(** [{ 'Authorization': `Bearer ${token}`, ...options.headers }] *)
Definition auth_headers (token : string) (options : Options)
    : gmap string string :=
  spread (headers options) {[ "Authorization" := "Bearer " +:+ token ]}.

(** [makeAuthenticatedRequest] resolves to a response or to null
    ([None]). *)
Definition makeAuthenticatedRequest (url : string) (options : Options)
    : M (option Response) :=
  let* token := getItem "authToken" in
  if negb (present token) then
    logout ;;
    ret None
  else
    let headers := auth_headers (default "" token) options in
    let* response := fetch url (with_headers options headers) in
    if resp_status response =? 401 then
      let* token := refreshToken in
      if truthy token then
        let headers := <["Authorization" := "Bearer " +:+ to_string token]> headers in
        let* response := fetch url (with_headers options headers) in
        ret (Some response)
      else ret None
    else ret (Some response).

End AuthManager.

(** ** The CitizenDashboard class *)

(** Services of the host the class calls: the locale formatting of the date
    a string parses to, and percent-decoding, which throws a URIError on a
    malformed sequence. *)
Record Host := {
  toLocaleDateString : string → string;
  toLocaleTimeString : string → string;
  decodeURIComponent : string → JsError + string
}.

(** The [stats] object of [updateStats]. *)
Record Stats := {
  total : nat;
  submitted : nat;
  in_progress : nat;
  resolved : nat
}.

Module CitizenDashboard.

Section WithHost.

Variable host : Host.

Definition set_reports (d : Data) (D : Dashboard) : Dashboard :=
  {| reports := d; filteredReports := filteredReports D;
     currentFilters := currentFilters D |}.

Definition set_filteredReports (l : list Report) (D : Dashboard) : Dashboard :=
  {| reports := reports D; filteredReports := l;
     currentFilters := currentFilters D |}.

Definition set_status_filter (v : string) (D : Dashboard) : Dashboard :=
  {| reports := reports D; filteredReports := filteredReports D;
     currentFilters := {| f_status := v;
                          f_category := f_category (currentFilters D) |} |}.

Definition set_category_filter (v : string) (D : Dashboard) : Dashboard :=
  {| reports := reports D; filteredReports := filteredReports D;
     currentFilters := {| f_status := f_status (currentFilters D);
                          f_category := v |} |}.

(** The state a fresh instance starts from. *)
Definition constructor : Dashboard :=
  {| reports := DArray []; filteredReports := [];
     currentFilters := {| f_status := EmptyString;
                          f_category := EmptyString |} |}.

(** [this.reports] used as an array, [reading] being the property the
    method reads first ([length] in [updateStats], [filter] in
    [applyFilters]): on null that read throws; on any other value that is
    not an array [length] is read without harm and the call of [filter]
    throws. *)
Definition reports_array (reading : string) (d : Data)
    : JsError + list Report :=
  match d with
  | DArray rs => inr rs
  | DNull =>
      inl (mkTypeError
             ("Cannot read properties of null (reading '" +:+ reading +:+ "')"))
  | _ => inl (mkTypeError "this.reports.filter is not a function")
  end.

Definition count_status (code : string) (rs : list Report) : nat :=
  length (List.filter (fun r => String.eqb (status r) code) rs).

Definition computeStats (rs : list Report) : Stats :=
  {| total := length rs;
     submitted := count_status "submitted" rs;
     in_progress := count_status "in_progress" rs;
     resolved := count_status "resolved" rs |}.

(** [document.getElementById(i).textContent = n] *)
Definition write_count (i : string) (n : nat) : M unit :=
  let* el := getElementById i in
  match el with
  | Some _ => modify_element i (set_textContent (show_nat n))
  | None =>
      throw (mkTypeError
               "Cannot set properties of null (setting 'textContent')")
  end.

Definition updateStats : M unit :=
  let* this_reports := gets (fun w => reports (citizenDashboard w)) in
  let* rs := lift (reports_array "length" this_reports) in
  let stats := computeStats rs in
  write_count "total-reports" (total stats) ;;
  write_count "pending-reports" (submitted stats) ;;
  write_count "in-progress-reports" (in_progress stats) ;;
  write_count "resolved-reports" (resolved stats).

(** The callback [applyFilters] passes to [filter]. *)
Definition passes (currentFilters : Filters) (report : Report) : bool :=
  if nonempty (f_status currentFilters)
     && negb (String.eqb (status report) (f_status currentFilters))
  then false
  else if nonempty (f_category currentFilters)
     && negb (String.eqb (category report) (f_category currentFilters))
  then false
  else true.

Definition formatDate (dateString : string) : string :=
  toLocaleDateString host dateString +:+ " "
    +:+ toLocaleTimeString host dateString.

Definition status_icons : gmap string string :=
  <["submitted" := "fas fa-clock"]>
  (<["in_progress" := "fas fa-cog"]>
  (<["resolved" := "fas fa-check-circle"]>
  (<["rejected" := "fas fa-times-circle"]> ∅))).

Definition getStatusIcon (status : string) : string :=
  "<i class="
    +:+ q (to_string (js_or (literal_get status_icons status)
                            (JString "fas fa-question-circle")))
    +:+ "></i>".

Definition priority_icons : gmap string string :=
  <["low" := "fas fa-arrow-down"]>
  (<["medium" := "fas fa-minus"]>
  (<["high" := "fas fa-arrow-up"]>
  (<["urgent" := "fas fa-exclamation"]> ∅))).

Definition getPriorityIcon (priority : string) : string :=
  "<i class="
    +:+ q (to_string (js_or (literal_get priority_icons priority)
                            (JString "fas fa-minus")))
    +:+ "></i>".

(** [report.address || 'Location provided'] *)
Definition address_text (report : Report) : string :=
  if present (address report) then default EmptyString (address report)
  else "Location provided".

(** The nested template of the image, or the empty string. *)
Definition image_block (report : Report) : string :=
  if present (image report) then
    nl +:+
    "                    <div class=" +:+ q "report-image mb-2" +:+ ">" +:+ nl +:+
    "                        <img src=" +:+ q (default EmptyString (image report))
      +:+ " alt=" +:+ q "Report image"
      +:+ " style=" +:+ q "max-width: 200px; border-radius: 8px;" +:+ ">" +:+ nl +:+
    "                    </div>" +:+ nl +:+
    "                "
  else EmptyString.

(** The edit action: the button element of the nested template. *)
Definition edit_button (report : Report) : string :=
  "<button onclick=" +:+ q ("editReport(" +:+ show_Z (id report) +:+ ")")
    +:+ " class=" +:+ q "btn btn-secondary" +:+ ">" +:+ nl +:+
  "                            <i class=" +:+ q "fas fa-edit" +:+ "></i> Edit" +:+ nl +:+
  "                        </button>".

(** The nested template of the edit button, or the empty string. *)
Definition edit_block (report : Report) : string :=
  if String.eqb (status report) "submitted" then
    nl +:+
    "                        " +:+ edit_button report +:+ nl +:+
    "                    "
  else EmptyString.

(** The template up to the actions: header, badges, description, image. *)
Definition item_upper (report : Report) : string :=
  let statusClass :=
    "status-" +:+ replace_first "_"%char "-"%char (status report) in
  let priorityClass := "priority-" +:+ priority report in
  nl +:+
  "            <div class=" +:+ q "report-item"
    +:+ " data-report-id=" +:+ q (show_Z (id report)) +:+ ">" +:+ nl +:+
  "                <div class=" +:+ q "report-header" +:+ ">" +:+ nl +:+
  "                    <div>" +:+ nl +:+
  "                        <div class=" +:+ q "report-title" +:+ ">"
    +:+ title report +:+ "</div>" +:+ nl +:+
  "                        <div class=" +:+ q "report-meta" +:+ ">" +:+ nl +:+
  "                            <span><i class=" +:+ q "fas fa-tag" +:+ "></i> "
    +:+ category_display report +:+ "</span>" +:+ nl +:+
  "                            <span><i class=" +:+ q "fas fa-calendar" +:+ "></i> "
    +:+ formatDate (created_at report) +:+ "</span>" +:+ nl +:+
  "                            <span><i class=" +:+ q "fas fa-map-marker-alt" +:+ "></i> "
    +:+ address_text report +:+ "</span>" +:+ nl +:+
  "                        </div>" +:+ nl +:+
  "                    </div>" +:+ nl +:+
  "                    <div class=" +:+ q "d-flex gap-1" +:+ " style="
    +:+ q "flex-direction: column; align-items: flex-end;" +:+ ">" +:+ nl +:+
  "                        <span class=" +:+ q ("status-badge " +:+ statusClass)
    +:+ ">" +:+ nl +:+
  "                            " +:+ getStatusIcon (status report) +:+ " "
    +:+ status_display report +:+ nl +:+
  "                        </span>" +:+ nl +:+
  "                        <span class=" +:+ q ("status-badge " +:+ priorityClass)
    +:+ ">" +:+ nl +:+
  "                            " +:+ getPriorityIcon (priority report) +:+ " "
    +:+ priority_display report +:+ nl +:+
  "                        </span>" +:+ nl +:+
  "                    </div>" +:+ nl +:+
  "                </div>" +:+ nl +:+
  "                " +:+ nl +:+
  "                <div class=" +:+ q "report-description" +:+ ">" +:+ nl +:+
  "                    " +:+ description report +:+ nl +:+
  "                </div>" +:+ nl +:+
  "                " +:+ nl +:+
  "                " +:+ image_block report +:+ nl +:+
  "                " +:+ nl.

(** The view action: the button element that is always in the template. *)
Definition view_button (report : Report) : string :=
  "<button onclick=" +:+ q ("viewReportDetails(" +:+ show_Z (id report) +:+ ")")
    +:+ " class=" +:+ q "btn btn-outline" +:+ ">" +:+ nl +:+
  "                        <i class=" +:+ q "fas fa-eye" +:+ "></i> View Details" +:+ nl +:+
  "                    </button>".

(** The actions of the template: the element of class report-actions. *)
Definition item_actions (report : Report) : string :=
  "                <div class=" +:+ q "report-actions" +:+ ">" +:+ nl +:+
  "                    " +:+ view_button report +:+ nl +:+
  "                    " +:+ edit_block report +:+ nl +:+
  "                </div>" +:+ nl.

Definition renderReportItem (report : Report) : string :=
  item_upper report +:+
  item_actions report +:+
  "            </div>" +:+ nl +:+
  "        ".

(** Hiding or showing an element the method holds a reference to, when the
    lookup found one. *)
Definition on_found (el : option Element) (i : string)
    (f : Element → Element) : M unit :=
  match el with
  | Some _ => modify_element i f
  | None => ret tt
  end.

Definition renderReports : M unit :=
  let* container := getElementById "reports-container" in
  let* noReportsEl := getElementById "no-reports" in
  match container with
  | None => ret tt
  | Some _ =>
      let* shown := gets (fun w => filteredReports (citizenDashboard w)) in
      if (length shown =? 0)%nat then
        modify_element "reports-container" (classList_add "hidden") ;;
        on_found noReportsEl "no-reports" (classList_remove "hidden")
      else
        on_found noReportsEl "no-reports" (classList_add "hidden") ;;
        modify_element "reports-container" (classList_remove "hidden") ;;
        modify_element "reports-container"
          (set_innerHTML (join (map renderReportItem shown)))
  end.

Definition applyFilters : M unit :=
  let* this := gets citizenDashboard in
  let* rs := lift (reports_array "filter" (reports this)) in
  update (with_dashboard
    (set_filteredReports (List.filter (passes (currentFilters this)) rs))) ;;
  renderReports.

(** The change listeners of the two selectors. *)
Definition on_status_change (value : string) : M unit :=
  update (with_dashboard (set_status_filter value)) ;;
  applyFilters.

Definition on_category_change (value : string) : M unit :=
  update (with_dashboard (set_category_filter value)) ;;
  applyFilters.

Definition hideLoading : M unit :=
  let* loadingEl := getElementById "reports-loading" in
  on_found loadingEl "reports-loading" (classList_add "hidden").

Definition showNoReports : M unit :=
  let* container := getElementById "reports-container" in
  let* noReportsEl := getElementById "no-reports" in
  on_found container "reports-container" (classList_add "hidden") ;;
  on_found noReportsEl "no-reports" (classList_remove "hidden").

(** The loop of [getCookie] over the split cookie string. *)
Fixpoint find_cookie (name : string) (cookies : list string)
    : JsError + option string :=
  match cookies with
  | [] => inr None
  | c :: rest =>
      let cookie := trim c in
      if String.eqb (substring 0 (String.length name + 1) cookie) (name +:+ "=")
      then
        match decodeURIComponent host
                (substring_from (String.length name + 1) cookie) with
        | inl e => inl e
        | inr v => inr (Some v)
        end
      else find_cookie name rest
  end.

Definition getCookie (name : string) : M (option string) :=
  let* document_cookie := gets cookie in
  if nonempty document_cookie then
    lift (find_cookie name (split ";"%char document_cookie))
  else ret None.

(** A null header value is sent as the text null. *)
Definition header_value (v : option string) : string := default "null" v.

Definition loadReports : M unit :=
  try_catch_finally
    (let* csrftoken := getCookie "csrftoken" in
     let* response :=
       fetch "/api/reports/user/"
         {| method := Some "GET";
            headers := Some {[ "X-CSRFToken" := header_value csrftoken ]};
            body := None |} in
     if negb (ok response) then throw (mkError "Failed to load reports")
     else
       let* data := json response in
       update (with_dashboard (set_reports data)) ;;
       updateStats ;;
       applyFilters)
    (fun error =>
       console_error "Error loading reports:" (err_message error) ;;
       Main.showToast "Failed to load reports" "error" 5000 ;;
       showNoReports)
    hideLoading.

End WithHost.

End CitizenDashboard.

(** ** The rest of the AuthManager class *)

(** The JSON services of the host the forms rely on: [JSON.stringify] and
    [JSON.parse] on parsed values, and the text that
    [Object.values(data).flat().join(', ')] gives for an error body (it
    depends on the order and the shapes of the entries, which [Data] does
    not keep; it throws on null). *)
Record Json := {
  stringify : Data → string;
  parse : string → JsError + Data;
  joined_values : Data → JsError + string
}.

(** What [formData.get] gives for the inputs of the login form: the text
    of each input. *)
Record LoginForm := {
  login_username : string;
  login_password : string
}.

(** The inputs of the registration form. *)
Record RegisterForm := {
  reg_username : string;
  reg_email : string;
  reg_password : string;
  reg_confirm_password : string;
  reg_first_name : string;
  reg_last_name : string;
  reg_phone_number : string
}.

(** A timer set with [setTimeout]: its delay in milliseconds and its
    callback. *)
Record Timer := {
  delay : Z;
  callback : M unit
}.

(** [v === s] for a string literal [s]. *)
Definition is_string (v : jsval) (s : string) : bool :=
  match v with
  | JString x => String.eqb x s
  | _ => false
  end.

Module AuthForms.

Section WithJson.

Variable codec : Json.

Definition isAuthenticated : M bool :=
  let* token := getItem "authToken" in
  ret (present token).

Definition getUserInfo : M (option Data) :=
  let* userInfo := getItem "userInfo" in
  if present userInfo then
    let* info := lift (parse codec (default "" userInfo)) in
    ret (Some info)
  else ret None.

(** The init object of the two credential requests of [handleLogin]. *)
Definition login_init (formData : LoginForm) : Options :=
  {| method := Some "POST";
     headers := Some {[ "Content-Type" := "application/json" ]};
     body := Some (JsonBody [("username", login_username formData);
                             ("password", login_password formData)]) |}.

(** The init object of the profile request. *)
Definition profile_init (access : jsval) : Options :=
  {| method := None;
     headers := Some {[ "Authorization" := "Bearer " +:+ to_string access ]};
     body := None |}.

Definition handleLogin (formData : LoginForm) : M unit :=
  try_catch_finally
    (Main.showLoading ;;
     let* sessionResponse := fetch "/auth/session-login/" (login_init formData) in
     let* sessionData := json sessionResponse in
     if negb (ok sessionResponse) then
       let* detail := lift (prop sessionData "detail") in
       throw (mkError (to_string (js_or detail (JString "Login failed"))))
     else
       let* tokenResponse :=
         fetch (AuthManager.baseUrl +:+ "/token/") (login_init formData) in
       let* tokenData := json tokenResponse in
       (if ok tokenResponse then
          let* access := lift (prop tokenData "access") in
          setItem "authToken" (to_string access) ;;
          let* refresh := lift (prop tokenData "refresh") in
          setItem "refreshToken" (to_string refresh) ;;
          let* userResponse := fetch "/api/user/profile/" (profile_init access) in
          if ok userResponse then
            let* userInfo := json userResponse in
            setItem "userInfo" (stringify codec userInfo)
          else ret tt
        else ret tt) ;;
       Main.showToast "Login successful!" "success" 5000 ;;
       let* role := lift (prop sessionData "role") in
       if is_string role "admin" then navigate "/admin/dashboard/"
       else navigate "/citizen/dashboard/")
    (fun error =>
       console_error "Login error:" (err_message error) ;;
       Main.showToast (err_message error) "error" 5000)
    Main.hideLoading.

(** The body of the registration request. *)
Definition registerData (formData : RegisterForm) : Body :=
  JsonBody [("username", reg_username formData);
            ("email", reg_email formData);
            ("password", reg_password formData);
            ("first_name", reg_first_name formData);
            ("last_name", reg_last_name formData);
            ("phone_number", reg_phone_number formData);
            ("role", "citizen")].

(** [handleRegister] yields the timers it has set. *)
Definition handleRegister (formData : RegisterForm) : M (list Timer) :=
  if negb (String.eqb (reg_password formData) (reg_confirm_password formData))
  then
    Main.showToast "Passwords do not match" "error" 5000 ;;
    ret []
  else
    try_catch_finally
      (Main.showLoading ;;
       let* response :=
         fetch "/api/register/"
           {| method := Some "POST";
              headers := Some {[ "Content-Type" := "application/json" ]};
              body := Some (registerData formData) |} in
       let* data := json response in
       if negb (ok response) then
         let* listed := lift (joined_values codec data) in
         throw (mkError (if nonempty listed then listed
                         else "Registration failed"))
       else
         Main.showToast "Registration successful! Please log in." "success" 5000 ;;
         ret [ {| delay := 2000; callback := navigate "/login/" |} ])
      (fun error =>
         console_error "Registration error:" (err_message error) ;;
         Main.showToast (err_message error) "error" 5000 ;;
         ret [])
      Main.hideLoading.

End WithJson.

End AuthForms.

(** ** The rest of static/js/main.js *)

(** [window.location.pathname] of an address kept without its origin: the
    text before the query and the fragment. *)
Fixpoint pathname (href : string) : string :=
  match href with
  | EmptyString => EmptyString
  | String a s =>
      if Ascii.eqb a "?" || Ascii.eqb a "#" then EmptyString
      else String a (pathname s)
  end.

(** A field of a form: the text of the input and its class list. *)
Record Field := {
  field_value : string;
  field_classes : gset string
}.

Definition field_add_class (c : string) (f : Field) : Field :=
  {| field_value := field_value f; field_classes := {[c]} ∪ field_classes f |}.

Definition field_remove_class (c : string) (f : Field) : Field :=
  {| field_value := field_value f; field_classes := field_classes f ∖ {[c]} |}.

(** The rules of one field as [validateForm] reads them; [pattern] is the
    [test] method of the regular expression (one without the global or the
    sticky flag, so that a test leaves no state behind). *)
Record Rule := {
  required : bool;
  label : option string;
  pattern : option (string → bool);
  minLength : option nat
}.




(** The clock of the host: the current time, and the time a date string
    parses to, both in milliseconds ([None] for an invalid date). *)
Record Clock := {
  now : Z;
  date_of : string → option Z
}.

Module AppUtils.

(** [checkAuthStatus], with the promise chain it starts run to its end:
    the [catch] callback also covers what the [then] callback throws. *)
Definition checkAuthStatus : M unit :=
  let* token := Main.getAuthToken in
  if present token then
    try_catch
      (let* response :=
         fetch "/api/auth/token/verify/"
           {| method := Some "POST";
              headers := Some {[ "Content-Type" := "application/json" ]};
              body := Some (JsonBody [("token", default "" token)]) |} in
       if negb (ok response) then
         Main.removeAuthToken ;;
         let* href := gets location_href in
         if negb (String.eqb (pathname href) "/login/") then navigate "/login/"
         else ret tt
       else ret tt)
      (fun _ => Main.removeAuthToken)
  else ret tt.

(** [fieldRules.label || fieldName] *)
Definition rule_label (fieldName : string) (fieldRules : Rule) : string :=
  if present (label fieldRules) then default "" (label fieldRules)
  else fieldName.

(** The state of the loop of [validateForm]: the fields of the form, the
    errors so far and the flag. *)
Record Validation := {
  form_fields : gmap string Field;
  errors : list string;
  isValid : bool
}.

(** One turn of the loop, for the entry [fieldName: fieldRules]. *)
Definition check_field (fieldName : string) (fieldRules : Rule)
    (st : Validation) : Validation :=
  match form_fields st !! fieldName with
  | None => st
  | Some field =>
      let value := trim (field_value field) in
      let name := rule_label fieldName fieldRules in
      let st1 :=
        if required fieldRules && negb (nonempty value) then
          {| form_fields := <[fieldName := field_add_class "error" field]>
                              (form_fields st);
             errors := errors st ++ [name +:+ " is required"];
             isValid := false |}
        else
          {| form_fields := <[fieldName := field_remove_class "error" field]>
                              (form_fields st);
             errors := errors st;
             isValid := isValid st |} in
      let mark (s : Validation) (msg : string) : Validation :=
        {| form_fields := alter (field_add_class "error") fieldName
                            (form_fields s);
           errors := errors s ++ [msg];
           isValid := false |} in
      let st2 :=
        match pattern fieldRules with
        | Some test =>
            if nonempty value && negb (test value)
            then mark st1 (name +:+ " format is invalid")
            else st1
        | None => st1
        end in
      match minLength fieldRules with
      | Some n =>
          if nonempty value && (0 <? n)%nat && (utf16_length value <? n)%nat
          then mark st2 (name +:+ " must be at least " +:+ show_nat n
                         +:+ " characters")
          else st2
      | None => st2
      end
  end.

(** [validateForm] on the form the lookup by id found, if any, with the
    entries of [rules] in their order; it yields its result and the fields
    as it leaves them. *)
Definition validateForm (form : option (gmap string Field))
    (rules : list (string * Rule)) : M (bool * option (gmap string Field)) :=
  match form with
  | None => ret (false, None)
  | Some fields =>
      let st := fold_left (fun st entry => check_field entry.1 entry.2 st) rules
                  {| form_fields := fields; errors := []; isValid := true |} in
      (if negb (isValid st)
       then Main.showToast (default "undefined" (head (errors st))) "error" 5000
       else ret tt) ;;
      ret (isValid st, Some (form_fields st))
  end.

(** [formatRelativeTime]: an invalid date makes every comparison false. *)
Definition formatRelativeTime (clock : Clock) (dateString : string) : string :=
  match date_of clock dateString with
  | None => "Just now"
  | Some date =>
      let diffMs := now clock - date in
      let diffDays := diffMs / (1000 * 60 * 60 * 24) in
      let diffHours := diffMs / (1000 * 60 * 60) in
      let diffMinutes := diffMs / (1000 * 60) in
      if 0 <? diffDays then
        show_Z diffDays +:+ " day" +:+ (if 1 <? diffDays then "s" else "")
          +:+ " ago"
      else if 0 <? diffHours then
        show_Z diffHours +:+ " hour" +:+ (if 1 <? diffHours then "s" else "")
          +:+ " ago"
      else if 0 <? diffMinutes then
        show_Z diffMinutes +:+ " minute"
          +:+ (if 1 <? diffMinutes then "s" else "") +:+ " ago"
      else "Just now"
  end.





End AppUtils.

(** ** The global functions of the dashboard script *)

Module DashboardGlobals.

Section WithHost.

Variable host : Host.

(** [refreshReports], with the dashboard instance in place; the load is
    started and not awaited by the source, here it runs to its end. *)
Definition refreshReports : M unit :=
  Main.showToast "Refreshing reports..." "info" 5000 ;;
  CitizenDashboard.loadReports host.

End WithHost.

End DashboardGlobals.

(** * Vocabulary of the properties *)

(** An indicator element is showing when it is on the page without the
    class hidden. *)
Definition showing (i : string) (w : World) : bool :=
  match elements w !! i with
  | Some e => bool_decide ("hidden" ∉ classList e)
  | None => false
  end.

(** The endpoint [refreshToken] posts to. *)
Definition refresh_url : string := "/api/auth/token/refresh/".

(** The three requests a call can issue: the first send, the refresh, and
    the retry with the refreshed token. *)
(** The caller's request under the given headers: its url, its method
    and its body are the caller's. *)
Definition caller_request (url : string) (options : Options)
    (h : gmap string string) : Request :=
  {| req_url := url; req_method := method options; req_headers := h;
     req_body := body options |}.

(** The headers of the first send: the caller's, and Authorization with
    the stored token unless the caller sets that header. *)
Definition first_headers (tok : string) (options : Options)
    : gmap string string :=
  match headers options with
  | Some own => own ∪ {[ "Authorization" := "Bearer " +:+ tok ]}
  | None => {[ "Authorization" := "Bearer " +:+ tok ]}
  end.

Definition first_request (tok url : string) (options : Options) : Request :=
  caller_request url options (first_headers tok options).

Definition refresh_request (rt : string) : Request :=
  {| req_url := "/api/auth/token/refresh/";
     req_method := Some "POST";
     req_headers := {[ "Content-Type" := "application/json" ]};
     req_body := Some (JsonBody [("refresh", rt)]) |}.

Definition retry_request (tok new url : string) (options : Options) : Request :=
  caller_request url options
    (<["Authorization" := "Bearer " +:+ new]> (first_headers tok options)).

(** The state [logout] leaves. *)
Definition logged_out (w : World) : World :=
  with_location_href "/login/"
    (with_localStorage
       (fun m => delete "userInfo" (delete "refreshToken" (delete "authToken" m)))
       w).

(** How an awaited fetch completes. *)
Definition settle (o : FetchOutcome) : Completion Response :=
  match o with
  | Resolved r => Normal r
  | Rejected e => Throw e
  end.

(** What [refreshToken] does when a refresh token is stored. *)
Definition refresh_result (rt : string) (w : World) : Completion jsval * World :=
  let w1 := with_sent (fun l => l ++ [refresh_request rt]) w in
  let failed msg :=
    (Normal JNull,
     with_console (fun l => l ++ [("Token refresh error:", msg)]) w1) in
  match network w (sent w ++ [refresh_request rt]) with
  | Rejected e => failed (err_message e)
  | Resolved rr =>
      if ok rr then
        match resp_json rr with
        | inl e => failed (err_message e)
        | inr data =>
            match prop data "access" with
            | inl e => failed (err_message e)
            | inr access =>
                (Normal access,
                 with_localStorage (insert "authToken" (to_string access)) w1)
            end
        end
      else failed "Token refresh failed"
  end.

(** The requests one call of [makeAuthenticatedRequest] can add to the log:
    nothing, the first send, the first send and a refresh, or both followed
    by the one retry.  The sends of the caller's request differ in their
    headers only. *)
Inductive call_trace (url : string) (options : Options) : list Request → Prop :=
| trace_none : call_trace url options []
| trace_first h :
    call_trace url options [caller_request url options h]
| trace_refresh h rt :
    call_trace url options [caller_request url options h; refresh_request rt]
| trace_retry h rt h' :
    call_trace url options
      [caller_request url options h; refresh_request rt;
       caller_request url options h'].

(** The requests of a log that go to [url]. *)
Definition requests_to (url : string) (t : list Request) : nat :=
  length (filter (λ r, req_url r = url) t).

(** The bound of the specification read for every url: no call adds more
    than two requests to the url it is given. *)
Definition two_to_url_as_stated : Prop :=
  ∀ w url options,
    let run := AuthManager.makeAuthenticatedRequest url options w in
    (requests_to url (drop (length (sent w)) (sent run.2)) ≤ 2)%nat.

(** The first response is a 401. *)
Definition first_is_401 (w : World) (tok url : string) (options : Options)
    : Prop :=
  ∃ r1, network w (sent w ++ [first_request tok url options]) = Resolved r1
        ∧ resp_status r1 = 401.

(** The refresh succeeds: the refresh endpoint answers the stored refresh
    token with a 2xx response whose body carries a non-empty access token. *)
Definition refresh_succeeds (w : World) (tok rt new url : string)
    (options : Options) : Prop :=
  localStorage w !! "refreshToken" = Some rt ∧ nonempty rt = true
  ∧ ∃ rr data,
      network w (sent w ++ [first_request tok url options; refresh_request rt])
        = Resolved rr
      ∧ ok rr = true ∧ resp_json rr = inr data
      ∧ prop data "access" = inr (JString new) ∧ nonempty new = true.

(** The refresh request gets no usable answer: the fetch rejects (network
    error) or resolves to a response outside 200-299. *)
Definition refresh_fails (w : World) (tok rt url : string) (options : Options)
    : Prop :=
  let log := sent w ++ [first_request tok url options; refresh_request rt] in
  (∃ e, network w log = Rejected e)
  ∨ (∃ rr, network w log = Resolved rr ∧ ok rr = false).

(** A computation that leaves the request log alone. *)
Definition silent {A} (c : M A) : Prop := ∀ w, sent (c w).2 = sent w.

(** The merge of the specification: the caller's entry where the caller
    supplies one, the default entry otherwise. *)
Definition caller_wins (defaults : gmap string string) (options : Options)
    (h : gmap string string) : Prop :=
  ∀ k, h !! k = match default ∅ (headers options) !! k with
                | Some v => Some v
                | None => defaults !! k
                end.

(** The failed-refresh rule read with a missing refresh token counted among
    the failures: no failed refresh touches the session. *)
Definition session_kept_as_stated : Prop :=
  ∀ w tok url options,
    localStorage w !! "authToken" = Some tok → nonempty tok = true →
    first_is_401 w tok url options →
    (present (localStorage w !! "refreshToken") = false
     ∨ ∃ rt, localStorage w !! "refreshToken" = Some rt ∧ nonempty rt = true
             ∧ refresh_fails w tok rt url options) →
    let run := AuthManager.makeAuthenticatedRequest url options w in
    run.1 = Normal None
    ∧ localStorage run.2 = localStorage w
    ∧ location_href run.2 = location_href w.

(** [s.includes(part)] *)
Definition includes (part s : string) : Prop :=
  ∃ pre post, s = pre +:+ part +:+ post.

(** The character [c] occurs in [s]. *)
Fixpoint occurs (c : ascii) (s : string) : bool :=
  match s with
  | EmptyString => false
  | String a s' => Ascii.eqb a c || occurs c s'
  end.



(** [s] begins with a character that is not in [part]. *)
Definition marked (part s : string) : bool :=
  match s with
  | String c _ => negb (occurs c part)
  | EmptyString => false
  end.

(** [s] ends with a character that is not in [part]. *)
Fixpoint closed (part s : string) : bool :=
  match s with
  | EmptyString => false
  | String c EmptyString => negb (occurs c part)
  | String _ s' => closed part s'
  end.



(** The markup of an action of a report: a button whose click calls
    [handler] on the id of the report, with its classes, its icon and its
    label, [indent] being the white space in front of the button. *)
Definition action_button (indent handler classes icon label : string)
    (id : Z) : string :=
  "<button onclick=" +:+ dq +:+ handler +:+ "(" +:+ show_Z id +:+ ")" +:+ dq
    +:+ " class=" +:+ dq +:+ classes +:+ dq +:+ ">" +:+ nl
    +:+ indent +:+ "    <i class=" +:+ dq +:+ icon +:+ dq +:+ "></i> "
    +:+ label +:+ nl
    +:+ indent +:+ "</button>".


Definition edit_action (id : Z) : string :=
  action_button "                        " "editReport" "btn btn-secondary"
    "fas fa-edit" "Edit" id.



(** The predicate of the specification: each selector is empty or equals
    the field of the report. *)
Definition admits (f : Filters) (r : Report) : Prop :=
  (f_status f = EmptyString ∨ status r = f_status f)
  ∧ (f_category f = EmptyString ∨ category r = f_category f).

#[local] Instance admits_dec f r : Decision (admits f r).
Proof. unfold admits. apply _. Defined.

(** The elements [updateStats] writes. *)
Definition count_ids : list string :=
  ["total-reports"; "pending-reports"; "in-progress-reports"; "resolved-reports"].

(** Replacing the selectors and the filtered list of the instance. *)
Definition refiltered (f : Filters) (shown : list Report) (w : World) : World :=
  with_dashboard (fun D =>
    {| reports := reports D; filteredReports := shown; currentFilters := f |}) w.

(** A computation that neither reads nor writes the dashboard instance
    commutes with any change of the instance. *)
Definition instance_blind {A} (c : M A) : Prop :=
  ∀ g w, c (with_dashboard g w) = ((c w).1, with_dashboard g (c w).2).

(** The icons of the two [||] fallbacks. *)
Definition fallback_status_icon : string :=
  "<i class=" +:+ q "fas fa-question-circle" +:+ "></i>".

Definition fallback_priority_icon : string :=
  "<i class=" +:+ q "fas fa-minus" +:+ "></i>".

(** The class [showLoading] removes and [hideLoading] adds on the spinner. *)
Definition spinner_shown (es : gmap string Element) : gmap string Element :=
  match es !! "loading-spinner" with
  | Some e => <["loading-spinner" := classList_remove "hidden" e]> es
  | None => es
  end.

Definition spinner_hidden (es : gmap string Element) : gmap string Element :=
  match es !! "loading-spinner" with
  | Some e => <["loading-spinner" := classList_add "hidden" e]> es
  | None => es
  end.

(** The toasts after [showToast] on a page with the given elements. *)
Definition toasted (es : gmap string Element) (message type : string)
    (l : list Toast) : list Toast :=
  match es !! "toast-container" with
  | Some _ => l ++ [{| toast_message := message; toast_type := type;
                       toast_duration := 5000 |}]
  | None => l
  end.

(** The request [apiCall] sends. *)
Definition api_request (w : World) (endpoint : string) (options : Options)
    : Request :=
  request_of (Main.apiBaseUrl +:+ endpoint)
    (with_headers options
       (Main.config_headers (localStorage w !! "authToken") options)).

(** What [apiCall] does with the response, and its catch block. *)
Definition api_rest (response : Response) : M (option Data) :=
  if resp_status response =? 401 then
    Main.removeAuthToken ;; navigate "/login/" ;; ret None
  else
    let* data := json response in
    if negb (ok response) then
      let* detail := lift (prop data "detail") in
      let* message := lift (prop data "message") in
      throw (mkError (to_string
        (js_or detail (js_or message (JString "API Error")))))
    else ret (Some data).

Definition api_catch (error : JsError) : M (option Data) :=
  console_error "API Error:" (err_message error) ;;
  Main.showToast (err_message error) "error" 5000 ;;
  throw error.

(** The state in which the answer of the server reaches [apiCall]. *)
Definition api_answered (w : World) (endpoint : string) (options : Options)
    : World :=
  with_sent (fun l => l ++ [api_request w endpoint options])
    (with_elements (fun _ => spinner_shown (elements w)) w).

(** The request of [checkAuthStatus]. *)
Definition verify_request (tok : string) : Request :=
  request_of "/api/auth/token/verify/"
    {| method := Some "POST";
       headers := Some {[ "Content-Type" := "application/json" ]};
       body := Some (JsonBody [("token", tok)]) |}.

(** The requests of [handleLogin]: the credentials of the form posted as
    JSON to the session login and to the token endpoint, and the profile
    request that carries the access value as a bearer token. *)
Definition credentials_request (url : string) (formData : LoginForm)
    : Request :=
  {| req_url := url; req_method := Some "POST";
     req_headers := {[ "Content-Type" := "application/json" ]};
     req_body := Some (JsonBody [("username", login_username formData);
                                 ("password", login_password formData)]) |}.

Definition session_request (formData : LoginForm) : Request :=
  credentials_request "/auth/session-login/" formData.

Definition token_request (formData : LoginForm) : Request :=
  credentials_request "/api/auth/token/" formData.

Definition profile_request (access : jsval) : Request :=
  {| req_url := "/api/user/profile/"; req_method := None;
     req_headers := {[ "Authorization" := "Bearer " +:+ to_string access ]};
     req_body := None |}.

(** The request of [handleRegister]. *)

Definition register_request (formData : RegisterForm) : Request :=
  request_of "/api/register/"
    {| method := Some "POST";
       headers := Some {[ "Content-Type" := "application/json" ]};
       body := Some (AuthForms.registerData formData) |}.

(** The page a role is sent to after a login. *)
Definition landing_page (role : jsval) : string :=
  if is_string role "admin" then "/admin/dashboard/" else "/citizen/dashboard/".

(** The body the session login accepted: the response was a 2xx one and its
    body parsed. *)
Definition session_accepted (w : World) (formData : LoginForm) : option Data :=
  match network w (sent w ++ [session_request formData]) with
  | Resolved r =>
      if ok r then
        match resp_json r with
        | inr data => Some data
        | inl _ => None
        end
      else None
  | Rejected _ => None
  end.

(** The registration went through: the passwords agree, the response was a
    2xx one and its body parsed. *)
Definition registered (w : World) (formData : RegisterForm) : bool :=
  String.eqb (reg_password formData) (reg_confirm_password formData)
  && match network w (sent w ++ [register_request formData]) with
     | Resolved r =>
         ok r && match resp_json r with inr _ => true | inl _ => false end
     | Rejected _ => false
     end.

(** The store once [handleLogin] has kept the two tokens. *)
Definition tokens_kept (access refresh : jsval) (store : gmap string string)
    : gmap string string :=
  <["refreshToken" := to_string refresh]>
    (<["authToken" := to_string access]> store).

(** The messages [validateForm] has for one entry of the rules, read on
    the form as it was submitted. *)
Definition field_errors (fields : gmap string Field) (entry : string * Rule)
    : list string :=
  match fields !! entry.1 with
  | None => []
  | Some field =>
      let value := trim (field_value field) in
      let name := AppUtils.rule_label entry.1 entry.2 in
      (if required entry.2 && negb (nonempty value)
       then [name +:+ " is required"] else [])
      ++ match pattern entry.2 with
         | Some test =>
             if nonempty value && negb (test value)
             then [name +:+ " format is invalid"] else []
         | None => []
         end
      ++ match minLength entry.2 with
         | Some n =>
             if nonempty value && (0 <? n)%nat
                && (utf16_length value <? n)%nat
             then [name +:+ " must be at least " +:+ show_nat n
                   +:+ " characters"]
             else []
         | None => []
         end
  end.

(** The text of every field, by name. *)
Definition field_values (fields : gmap string Field) : gmap string string :=
  field_value <$> fields.


(** The plural ending of [formatRelativeTime]. *)
Definition plural (n : Z) : string := if 1 <? n then "s" else EmptyString.

(** The text of [formatRelativeTime] for [n] units. *)
Definition ago (n : Z) (unit : string) : string :=
  show_Z n +:+ unit +:+ plural n +:+ " ago".

(** The request [loadReports] sends when [getCookie] gave [csrftoken]. *)
Definition reports_request (csrftoken : option string) : Request :=
  request_of "/api/reports/user/"
    {| method := Some "GET";
       headers := Some {[ "X-CSRFToken" :=
                            CitizenDashboard.header_value csrftoken ]};
       body := None |}.

(** What makes a load fail before the reports are stored: the cookie that
    does not decode, the request the network rejects, the response that is
    not a 2xx one, the body that does not parse. *)
Definition load_failure (host : Host) (w : World) : option JsError :=
  match (CitizenDashboard.getCookie host "csrftoken" w).1 with
  | Throw e => Some e
  | Normal csrftoken =>
      match network w (sent w ++ [reports_request csrftoken]) with
      | Rejected e => Some e
      | Resolved r =>
          if ok r then
            match resp_json r with
            | inl e => Some e
            | inr _ => None
            end
          else Some (mkError "Failed to load reports")
      end
  end.

(** The requests of a load: none when the cookie did not decode. *)
Definition load_requests (host : Host) (w : World) : list Request :=
  match (CitizenDashboard.getCookie host "csrftoken" w).1 with
  | Throw _ => []
  | Normal csrftoken => [reports_request csrftoken]
  end.

(** The access token a refresh answer issues, if any: [data.access] of the
    parsed body of an answer with a 2xx status (undefined when the body has
    no such field); none when the request fails, the status is not 2xx, the
    body is not JSON or the body is null. *)
Definition issued_access (o : FetchOutcome) : option jsval :=
  match o with
  | Rejected _ => None
  | Resolved answer =>
      if ok answer then
        match resp_json answer with
        | inl _ => None
        | inr DNull => None
        | inr (DObject fields) => Some (default JUndefined (fields !! "access"))
        | inr _ => Some JUndefined
        end
      else None
  end.

(** The TypeError of a method that uses a value that is not an array as
    the list of reports, [reading] being the property it reads first: on
    null the read itself fails; on any other value the call of [filter]
    does. *)
Definition misuse (reading : string) (data : Data) : JsError :=
  match data with
  | DNull =>
      {| err_name := "TypeError";
         err_message := "Cannot read properties of null (reading '"
                          +:+ reading +:+ "')" |}
  | _ =>
      {| err_name := "TypeError";
         err_message := "this.reports.filter is not a function" |}
  end.

(** The body a load stores in [this.reports]: the cookie decoded, the
    response was a 2xx one and its body parsed. *)
Definition loaded_body (host : Host) (w : World) : option Data :=
  match (CitizenDashboard.getCookie host "csrftoken" w).1 with
  | Throw _ => None
  | Normal csrftoken =>
      match network w (sent w ++ [reports_request csrftoken]) with
      | Rejected _ => None
      | Resolved r =>
          if ok r then
            match resp_json r with
            | inl _ => None
            | inr data => Some data
            end
          else None
      end
  end.

(** The text of [document.cookie] for the given pieces between the
    semicolons. *)
Fixpoint cookie_string (pieces : list string) : string :=
  match pieces with
  | [] => EmptyString
  | [piece] => piece
  | piece :: rest => piece +:+ ";" +:+ cookie_string rest
  end.

(** The cookie [piece], white space aside, is the pair of [name]. *)
Definition names (name piece : string) : Prop :=
  ∃ value, trim piece = name +:+ "=" +:+ value.

(** * Sample states *)

(** The responses of the sample servers. *)
Definition unauthorized : Response :=
  {| resp_status := 401;
     resp_json := inr (DObject {[ "detail" := JString "Token expired" ]}) |}.

Definition token_issued (access : string) : Response :=
  {| resp_status := 200;
     resp_json := inr (DObject {[ "access" := JString access ]}) |}.

(** A server that no longer accepts the stored access token: the refresh
    endpoint issues the token fresh, every other request is answered 401
    (the retry too). *)
Definition expired_server (log : list Request) : FetchOutcome :=
  match last log with
  | Some r =>
      if String.eqb (req_url r) refresh_url then Resolved (token_issued "fresh")
      else Resolved unauthorized
  | None => Rejected (mkTypeError "Failed to fetch")
  end.

(** A server whose refresh endpoint is down as well. *)
Definition refusing_server (log : list Request) : FetchOutcome :=
  match last log with
  | Some r =>
      if String.eqb (req_url r) refresh_url
      then Rejected (mkTypeError "Failed to fetch")
      else Resolved unauthorized
  | None => Rejected (mkTypeError "Failed to fetch")
  end.

(** A server that answers by the turn: the first request of the log is
    refused with a 401, the second is answered with a fresh token, every
    later one is refused again. *)
Definition turn_server (log : list Request) : FetchOutcome :=
  match log with
  | [_; _] => Resolved (token_issued "fresh")
  | _ => Resolved unauthorized
  end.

(** The options of a caller that posts a new report. *)
Definition new_report : Options :=
  {| method := Some "POST";
     headers := Some {[ "Content-Type" := "application/json" ]};
     body := Some (JsonBody [("title", "Pothole on Main St");
                             ("category", "pothole")]) |}.

(** A page with the given store and server, and no element of interest. *)
Definition page (store : gmap string string)
    (server : list Request → FetchOutcome) : World :=
  {| localStorage := store; location_href := "/citizen/dashboard/";
     cookie := EmptyString; elements := ∅; toasts := []; console := [];
     sent := []; network := server;
     citizenDashboard := CitizenDashboard.constructor |}.

(** The store of a logged-in citizen. *)
Definition full_store : gmap string string :=
  <["authToken" := "stale"]>
  (<["refreshToken" := "r1"]> (<["userInfo" := "citizen"]> ∅)).

(** A session whose access token expired. *)
Definition expired_session : World := page full_store expired_server.

(** The same session with an unreachable refresh endpoint. *)
Definition stranded_session : World := page full_store refusing_server.

(** A session that holds an access token and a profile but no refresh
    token. *)
Definition orphan_session : World :=
  page (<["authToken" := "stale"]> (<["userInfo" := "citizen"]> ∅))
    expired_server.

(** A page with no session at all. *)
Definition anonymous_page : World := page ∅ expired_server.

(** Options with a caller-chosen Authorization header. *)
Definition own_authorization : Options :=
  {| method := Some "GET";
     headers := Some (<["Authorization" := "Basic abc"]>
                      (<["Accept" := "application/json"]> ∅));
     body := None |}.

(** The two reports of the example of the specification. *)
Definition pothole_report : Report :=
  {| id := 1; title := "Pothole on Main St"; description := "Deep pothole";
     category := "pothole"; category_display := "Pothole";
     status := "submitted"; status_display := "Submitted";
     priority := "high"; priority_display := "High";
     image := None; address := Some "12 Main St";
     created_at := "2025-09-13T10:00:00Z" |}.

Definition trash_report : Report :=
  {| id := 2; title := "Overflowing bin"; description := "Not collected";
     category := "trash"; category_display := "Trash";
     status := "resolved"; status_display := "Resolved";
     priority := "low"; priority_display := "Low";
     image := Some "/media/bin.jpg"; address := None;
     created_at := "2025-09-12T08:30:00Z" |}.



(** A host that prints dates as they come and decodes nothing. *)
Definition plain_host : Host :=
  {| toLocaleDateString := fun s => s;
     toLocaleTimeString := fun _ => "10:00 AM";
     decodeURIComponent := fun s => inr s |}.

(** The dashboard after a load of the two reports, with the status selector
    set to submitted. *)
Definition loaded_dashboard : World :=
  with_dashboard (fun _ =>
    {| reports := DArray [pothole_report; trash_report];
       filteredReports := [];
       currentFilters := {| f_status := "submitted";
                            f_category := EmptyString |} |})
    (page full_store expired_server).

(** An element with no class and no content. *)
Definition blank : Element :=
  {| classList := ∅; textContent := EmptyString; innerHTML := EmptyString |}.

(** The elements of the citizen dashboard page, all visible. *)
Definition dashboard_elements : gmap string Element :=
  list_to_map ((fun i => (i, blank)) <$>
    [ "loading-spinner"; "toast-container"; "total-reports";
      "pending-reports"; "in-progress-reports"; "resolved-reports";
      "reports-container"; "no-reports"; "reports-loading" ]).

(** A server that answers the report list with the two sample reports and
    rejects every other request. *)
Definition reports_server (log : list Request) : FetchOutcome :=
  match last log with
  | Some r =>
      if String.eqb (req_url r) "/api/reports/user/"
      then Resolved {| resp_status := 200;
                       resp_json := inr (DArray [pothole_report; trash_report]) |}
      else Rejected (mkTypeError "Failed to fetch")
  | None => Rejected (mkTypeError "Failed to fetch")
  end.

(** The dashboard page as it is when the scripts start. *)
Definition dashboard_page : World :=
  {| localStorage := full_store; location_href := "/citizen/dashboard/";
     cookie := "sessionid=abc; csrftoken=tok123";
     elements := dashboard_elements; toasts := []; console := [];
     sent := []; network := reports_server;
     citizenDashboard := CitizenDashboard.constructor |}.

(** ** Sample states for the forms and the helpers *)

(** [pieces.join(sep)] *)
Fixpoint separated (sep : string) (pieces : list string) : string :=
  match pieces with
  | [] => EmptyString
  | [piece] => piece
  | piece :: rest => piece +:+ sep +:+ separated sep rest
  end.

(** The JSON text of a field that holds null or a string without
    characters to escape; an undefined field is left out. *)
Definition field_text (entry : string * jsval) : option string :=
  match entry.2 with
  | JString s => Some (dq +:+ entry.1 +:+ dq +:+ ":" +:+ dq +:+ s +:+ dq)
  | JNull => Some (dq +:+ entry.1 +:+ dq +:+ ":null")
  | _ => None
  end.

(** What [join] prints for a value: nothing for null and undefined. *)
Definition joined_text (v : jsval) : string :=
  match v with
  | JString s => s
  | _ => EmptyString
  end.

(** The JSON service on the values of the sample runs: null, and objects
    of at most one field that holds a string without characters to escape
    ([Data] keeps no order of insertion, so the fields of a larger object
    come in the order of their keys).  On these [stringify] prints the JSON
    text and [joined_values] joins the values; [parse] reads the texts null,
    {} and [] and refuses every other text, as JSON.parse refuses a bare
    word.  Scalars and lists of reports are not printed by any sample
    run. *)
Definition sample_codec : Json :=
  {| stringify := fun d =>
       match d with
       | DNull => "null"
       | DScalar => "0"
       | DObject fields =>
           "{" +:+ separated "," (omap field_text (map_to_list fields)) +:+ "}"
       | DArray items =>
           "[" +:+ separated "," ((fun _ => "{}") <$> items) +:+ "]"
       end;
     parse := fun text =>
       if String.eqb text "null" then inr DNull
       else if String.eqb text "{}" then inr (DObject ∅)
       else if String.eqb text "[]" then inr (DArray [])
       else inl {| err_name := "SyntaxError";
                   err_message := "Unexpected token" |};
     joined_values := fun d =>
       match d with
       | DNull => inl (mkTypeError "Cannot convert undefined or null to object")
       | DScalar => inr EmptyString
       | DObject fields =>
           inr (separated ", " (joined_text <$> (map_to_list fields).*2))
       | DArray items =>
           inr (separated ", " ((fun _ => "[object Object]") <$> items))
       end |}.

(** A server for the login form: the session login names an administrator,
    the token endpoint and the profile endpoint answer as given. *)
Definition auth_server (tokens profile : FetchOutcome) (log : list Request)
    : FetchOutcome :=
  match last log with
  | Some r =>
      if String.eqb (req_url r) "/auth/session-login/" then
        Resolved {| resp_status := 200;
                    resp_json := inr (DObject {[ "role" := JString "admin" ]}) |}
      else if String.eqb (req_url r) "/api/auth/token/" then tokens
      else if String.eqb (req_url r) "/api/user/profile/" then profile
      else Rejected (mkTypeError "Failed to fetch")
  | None => Rejected (mkTypeError "Failed to fetch")
  end.

Definition token_pair : Data :=
  DObject (<["access" := JString "a1"]> {[ "refresh" := JString "r1" ]}).

Definition tokens_issued : FetchOutcome :=
  Resolved {| resp_status := 200; resp_json := inr token_pair |}.

Definition profile_sent : Response :=
  {| resp_status := 200;
     resp_json := inr (DObject {[ "username" := JString "asha" ]}) |}.

(** A server that answers every request with the given response. *)
Definition fixed_server (r : Response) (log : list Request) : FetchOutcome :=
  Resolved r.

(** A refusal whose body is an HTML page, not JSON. *)
Definition bad_gateway : Response :=
  {| resp_status := 502;
     resp_json := inl {| err_name := "SyntaxError";
                         err_message := "Unexpected token <" |} |}.

Definition server_error : Response :=
  {| resp_status := 500;
     resp_json := inr (DObject {[ "message" := JString "Server down" ]}) |}.

(** A 2xx answer whose body is null. *)
Definition null_response : Response :=
  {| resp_status := 200; resp_json := inr DNull |}.

(** The two-letter text e-acute e-acute (four bytes). *)
Definition accented_name : string :=
  String "195" (String "169" (String "195" (String "169" EmptyString))).

(** A text that holds one no-break space (U+00A0) and nothing else. *)
Definition blank_name : string := String "194" (String "160" EmptyString).

Definition name_form (text : string) : gmap string Field :=
  {[ "name" := {| field_value := text; field_classes := ∅ |} ]}.

Definition name_rules : list (string * Rule) :=
  [("name", {| required := true; label := Some "Name"; pattern := None;
               minLength := Some 3%nat |})].

(** A body that wraps the list: not an array. *)
Definition paged_body : Data := DObject {[ "count" := JString "2" ]}.

Definition paged_response : Response :=
  {| resp_status := 200; resp_json := inr paged_body |}.

(** A refresh endpoint that answers 200 without an access entry. *)
Definition forgetful_server (log : list Request) : FetchOutcome :=
  match last log with
  | Some r =>
      if String.eqb (req_url r) refresh_url
      then Resolved {| resp_status := 200; resp_json := inr (DObject ∅) |}
      else Resolved unauthorized
  | None => Rejected (mkTypeError "Failed to fetch")
  end.

(** The login page, with the spinner and the toast container, before
    anyone signed in. *)
Definition login_page (server : list Request → FetchOutcome) : World :=
  {| localStorage := ∅; location_href := "/login/"; cookie := EmptyString;
     elements := dashboard_elements; toasts := []; console := [];
     sent := []; network := server;
     citizenDashboard := CitizenDashboard.constructor |}.

Definition asha_login : LoginForm :=
  {| login_username := "asha"; login_password := "s3cret" |}.

Definition asha_registration : RegisterForm :=
  {| reg_username := "asha"; reg_email := "asha@example.org";
     reg_password := "s3cret"; reg_confirm_password := "s3cret";
     reg_first_name := "Asha"; reg_last_name := "Rao";
     reg_phone_number := "5550100" |}.

(** The dashboard page of a signed-in citizen with the given server,
    cookie and elements, holding the two sample reports with the status
    selector on submitted. *)
Definition dashboard_with (server : list Request → FetchOutcome)
    (cookies : string) (es : gmap string Element) : World :=
  {| localStorage := full_store; location_href := "/citizen/dashboard/";
     cookie := cookies; elements := es; toasts := []; console := [];
     sent := []; network := server;
     citizenDashboard :=
       {| reports := DArray [pothole_report; trash_report];
          filteredReports := [];
          currentFilters := {| f_status := "submitted";
                               f_category := EmptyString |} |} |}.

Definition session_cookies : string := "sessionid=abc; csrftoken=tok123".

(** * Properties *)

(** ** Computations *)

Lemma bind_normal {A B} (c : M A) (k : A → M B) w a w1 :
  c w = (Normal a, w1) → bind c k w = k a w1.
Proof. intros H. unfold bind. by rewrite H. Qed.

(** Whatever the block and the handler do, the state a try statement ends
    in is one its finaliser produced. *)
Lemma try_catch_finally_state {A} (b : M A) (h : JsError → M A) (f : M unit) w :
  ∃ w1, (try_catch_finally b h f w).2 = (f w1).2.
Proof.
  unfold try_catch_finally.
  destruct (b w) as [[a|e] w1]; simpl.
  - exists w1. by destruct (f w1) as [[[]|e] w2].
  - destruct (h e w1) as [r w2]. exists w2. by destruct (f w2) as [[[]|e'] w3].
Qed.

(** ** The loading indicators *)

Lemma hide_element i w :
  showing i (with_elements (fun es =>
    match es !! i with
    | Some e => <[i := classList_add "hidden" e]> es
    | None => es
    end) w) = false.
Proof.
  unfold showing. simpl.
  destruct (elements w !! i) as [e|] eqn:He.
  - rewrite lookup_insert_eq. simpl.
    apply bool_decide_eq_false. set_solver.
  - by rewrite He.
Qed.

Lemma main_hideLoading_clears w :
  showing "loading-spinner" (Main.hideLoading w).2 = false.
Proof.
  unfold Main.hideLoading, bind, getElementById, gets. simpl.
  destruct (elements w !! "loading-spinner") as [e|] eqn:He.
  - unfold modify_element, update. simpl. apply hide_element.
  - unfold ret, showing. simpl. by rewrite He.
Qed.

Lemma dashboard_hideLoading_clears w :
  showing "reports-loading" (CitizenDashboard.hideLoading w).2 = false.
Proof.
  unfold CitizenDashboard.hideLoading, CitizenDashboard.on_found, bind,
    getElementById, gets. simpl.
  destruct (elements w !! "reports-loading") as [e|] eqn:He.
  - unfold modify_element, update. simpl. apply hide_element.
  - unfold ret, showing. simpl. by rewrite He.
Qed.

(** C9.  Whatever the outcome of [apiCall] (a parsed body, the 401 redirect,
    a network error, a body that does not parse, an error response) and of
    [loadReports], the loading indicator of the operation is hidden in the
    state the operation ends in. *)
Theorem loading_indicator_cleared (host : Host) (w : World)
    (endpoint : string) (options : Options) :
  showing "loading-spinner" (Main.apiCall endpoint options w).2 = false
  ∧ showing "reports-loading" (CitizenDashboard.loadReports host w).2 = false.
Proof.
  split.
  - unfold Main.apiCall, Main.getAuthToken, getItem, gets, bind at 1.
    cbv beta iota.
    match goal with
    | |- context [try_catch_finally ?b ?h ?f w] =>
        destruct (try_catch_finally_state b h f w) as [w1 ->]
    end.
    apply main_hideLoading_clears.
  - unfold CitizenDashboard.loadReports.
    match goal with
    | |- context [try_catch_finally ?b ?h ?f w] =>
        destruct (try_catch_finally_state b h f w) as [w1 ->]
    end.
    apply dashboard_hideLoading_clears.
Qed.

(** ** The authenticated request client *)

(** The steps of the client, as equations on runs. *)
Lemma fetch_run url init w :
  fetch url init w =
    (settle (network w (sent w ++ [request_of url init])),
     with_sent (fun l => l ++ [request_of url init]) w).
Proof. unfold fetch. simpl. by destruct (network w _). Qed.

(** The spread of the caller's headers over the defaults is the merge of
    the specification. *)
Lemma spread_caller_wins defaults options :
  caller_wins defaults options (spread (headers options) defaults).
Proof.
  intros k. unfold spread. destruct (headers options) as [h|]; simpl.
  - rewrite lookup_union. by destruct (h !! k), (defaults !! k).
  - by rewrite lookup_empty.
Qed.

Lemma present_Some s : present (Some s) = nonempty s.
Proof. reflexivity. Qed.

Lemma refreshToken_absent w :
  present (localStorage w !! "refreshToken") = false →
  AuthManager.refreshToken w = (Normal JNull, logged_out w).
Proof.
  intros H. unfold AuthManager.refreshToken, bind, getItem, gets. simpl.
  rewrite H. reflexivity.
Qed.

Lemma refreshToken_stored w rt :
  localStorage w !! "refreshToken" = Some rt → nonempty rt = true →
  AuthManager.refreshToken w = refresh_result rt w.
Proof.
  intros H Hne. unfold AuthManager.refreshToken, bind at 1, getItem, gets.
  rewrite H, present_Some, Hne. cbn [negb default].
  unfold try_catch, bind at 1. cbv beta. rewrite fetch_run. unfold refresh_result.
  unfold refresh_request, refresh_url.
  destruct (network w _) as [rr|e]; simpl; [|done].
  destruct (ok rr); simpl; [|done].
  unfold bind, json, lift.
  destruct (resp_json rr) as [e|data]; simpl; [done|].
  destruct (prop data "access") as [e|access]; simpl; done.
Qed.

(** [refreshToken] never rejects: every failure ends in null. *)
Lemma refreshToken_normal w : ∃ v, (AuthManager.refreshToken w).1 = Normal v.
Proof.
  destruct (present (localStorage w !! "refreshToken")) eqn:Hp.
  - destruct (localStorage w !! "refreshToken") as [rt|] eqn:Hrt; [|done].
    rewrite (refreshToken_stored w rt) by done. unfold refresh_result.
    destruct (network w _) as [rr|e]; [|by eexists].
    destruct (ok rr); [|by eexists].
    destruct (resp_json rr) as [e|data]; [by eexists|].
    destruct (prop data "access"); by eexists.
  - rewrite refreshToken_absent by done. by eexists.
Qed.

(** With a token in the store the call sends the request and, on a 401,
    goes on to the refresh. *)
Lemma first_send w tok url options :
  localStorage w !! "authToken" = Some tok → nonempty tok = true →
  AuthManager.makeAuthenticatedRequest url options w =
    (let w1 := with_sent (fun l => l ++ [first_request tok url options]) w in
     match network w (sent w ++ [first_request tok url options]) with
     | Rejected e => (Throw e, w1)
     | Resolved response =>
         if resp_status response =? 401 then
           (let* token := AuthManager.refreshToken in
            if truthy token then
              let* response := fetch url (with_headers options
                (<["Authorization" := "Bearer " +:+ to_string token]>
                   (AuthManager.auth_headers tok options))) in
              ret (Some response)
            else ret None) w1
         else (Normal (Some response), w1)
     end).
Proof.
  intros Htok Hne.
  unfold AuthManager.makeAuthenticatedRequest, bind at 1, getItem, gets.
  rewrite Htok, present_Some, Hne. cbn [negb default].
  unfold bind at 1. cbv beta. rewrite fetch_run. unfold first_request.
  destruct (network w _) as [r1|e]; simpl; [|done].
  by destruct (resp_status r1 =? 401).
Qed.

Section ExpiredToken.

Variables (w : World) (tok rt new url : string) (options : Options).

Hypothesis token_stored : localStorage w !! "authToken" = Some tok.
Hypothesis token_nonempty : nonempty tok = true.
Hypothesis first_refused : first_is_401 w tok url options.
Hypothesis refreshed : refresh_succeeds w tok rt new url options.

(** The run of a call whose first response is a 401 and whose refresh
    succeeds. *)
Lemma refreshed_run :
  let trace := [first_request tok url options; refresh_request rt;
                retry_request tok new url options] in
  AuthManager.makeAuthenticatedRequest url options w =
    (match network w (sent w ++ trace) with
     | Resolved r2 => Normal (Some r2)
     | Rejected e => Throw e
     end,
     with_sent (fun l => l ++ [retry_request tok new url options])
       (with_localStorage (insert "authToken" new)
          (with_sent (fun l => l ++ [refresh_request rt])
             (with_sent (fun l => l ++ [first_request tok url options]) w)))).
Proof.
  destruct first_refused as (r1 & Hr1 & H401).
  destruct refreshed
    as (Hrt & Hrtne & rr & data & Hrr & Hok & Hjson & Hacc & Hnew).
  cbv zeta. rewrite (first_send w tok) by done. cbv zeta.
  rewrite Hr1, H401. cbn [Z.eqb Pos.eqb].
  unfold bind at 1. cbv beta.
  rewrite (refreshToken_stored _ rt) by done.
  unfold refresh_result. cbn [sent network with_sent].
  rewrite <- app_assoc. cbn [app].
  rewrite Hrr, Hok, Hjson, Hacc. cbn [truthy]. rewrite Hnew.
  unfold bind. rewrite fetch_run. cbn [sent network with_sent with_localStorage].
  rewrite <- !app_assoc. cbn [app to_string].
  unfold retry_request.
  destruct (network w (sent w ++ [_; _; _])) as [r2|e]; reflexivity.
Qed.

(** C10.  After a 401 and a successful refresh the retried request carries
    Authorization: Bearer and the refreshed token even when the caller
    supplied an Authorization header of their own, which the first send
    did use; every other header of the retry is that of the first send. *)
Theorem retry_uses_refreshed_token :
  let first := first_request tok url options in
  let retry := retry_request tok new url options in
  sent (AuthManager.makeAuthenticatedRequest url options w).2
    = sent w ++ [first; refresh_request rt; retry]
  ∧ req_headers retry !! "Authorization" = Some ("Bearer " +:+ new)
  ∧ (∀ own, default ∅ (headers options) !! "Authorization" = Some own →
       req_headers first !! "Authorization" = Some own)
  ∧ (∀ k, k ≠ "Authorization" → req_headers retry !! k = req_headers first !! k).
Proof.
  cbv zeta. rewrite refreshed_run. cbn.
  rewrite <- !app_assoc. repeat split; try done.
  - apply lookup_insert_eq.
  - intros own Hown.
    unfold first_headers. destruct (headers options) as [own_headers|];
      cbn in Hown |- *.
    + by apply lookup_union_Some_l.
    + by rewrite lookup_empty in Hown.
  - intros k Hk. by rewrite lookup_insert_ne.
Qed.

End ExpiredToken.

(** Without a token the call is a logout. *)
Lemma no_token_run w url options :
  present (localStorage w !! "authToken") = false →
  AuthManager.makeAuthenticatedRequest url options w = (Normal None, logged_out w).
Proof.
  intros H.
  unfold AuthManager.makeAuthenticatedRequest, bind at 1, getItem, gets.
  by rewrite H.
Qed.

(** Once the token is found, the call logs its first send, and after it at
    most a refresh and one retry. *)
Lemma sends_after_first w tok url options :
  localStorage w !! "authToken" = Some tok → nonempty tok = true →
  ∃ rest,
    sent (AuthManager.makeAuthenticatedRequest url options w).2
      = sent w ++ first_request tok url options :: rest
    ∧ (rest = []
       ∨ ∃ rt, rest = [refresh_request rt]
               ∨ ∃ h', rest = [refresh_request rt;
                               caller_request url options h']).
Proof.
  intros Htok Hne. rewrite (first_send w tok) by done. cbv zeta.
  destruct (network w _) as [r1|e]; [|by exists []; auto].
  destruct (resp_status r1 =? 401); [|by exists []; auto].
  unfold bind at 1. cbv beta.
  set (w1 := with_sent _ w).
  destruct (present (localStorage w1 !! "refreshToken")) eqn:Hp.
  - destruct (localStorage w1 !! "refreshToken") as [rt|] eqn:Hrt; [|done].
    rewrite (refreshToken_stored w1 rt) by done. unfold refresh_result.
    assert (∀ v w2 h',
      sent w2 = (sent w ++ [first_request tok url options]) ++ [refresh_request rt] →
      ∃ rest,
        sent ((if truthy v
               then let* response := fetch url (with_headers options h') in
                    ret (Some response)
               else ret None) w2).2
          = sent w ++ first_request tok url options :: rest
        ∧ (rest = []
           ∨ ∃ rt, rest = [refresh_request rt]
                   ∨ ∃ h', rest = [refresh_request rt;
                                   caller_request url options h']))
      as Hk.
    { intros v w2 h' Hs. destruct (truthy v).
      - unfold bind. rewrite fetch_run.
        destruct (network w2 _); cbn; rewrite Hs, <- !app_assoc; cbn;
          (eexists; split; [reflexivity|]); right; exists rt; right; by exists h'.
      - cbn. rewrite Hs, <- !app_assoc. cbn.
        eexists; split; [reflexivity|]. right; exists rt; by left. }
    destruct (network w1 _) as [rr|e]; [|by apply (Hk JNull)].
    destruct (ok rr); [|by apply (Hk JNull)].
    destruct (resp_json rr) as [e|data]; [by apply (Hk JNull)|].
    destruct (prop data "access") as [e|access]; [by apply (Hk JNull)|].
    by apply Hk.
  - rewrite refreshToken_absent by done. cbn. exists []. auto.
Qed.

(** Counted by target: at most three requests in all, and at most two to
    [url] unless the caller aims the helper at the refresh endpoint itself,
    where the refresh request goes as well. *)
Lemma call_trace_bound url options t :
  call_trace url options t →
  (length t ≤ 3)%nat ∧ (url ≠ refresh_url → (requests_to url t ≤ 2)%nat).
Proof.
  intros Ht. split.
  - destruct Ht; simpl; lia.
  - intros Hne.
    assert (req_url_refresh : ∀ rt, req_url (refresh_request rt) ≠ url).
    { intros rt Heq. apply Hne. rewrite <- Heq. reflexivity. }
    unfold requests_to.
    destruct Ht; rewrite ?filter_cons, ?filter_nil;
      repeat case_decide; simpl; try lia;
      exfalso; eapply req_url_refresh; eassumption.
Qed.

(** C1.  A call that finds an access token, gets a 401 as its first
    response and whose refresh succeeds stores the new access token and
    sends the caller's request exactly once more: the same url, method and
    body, and the headers of the first send with Authorization set to
    Bearer and the new token.  It settles as that second send does: its
    response is returned whatever its status, a second 401 included (a
    rejected fetch is rethrown).  In every execution the log grows by
    nothing, by the first send, by the first send and one refresh request,
    or by these two and the one retry: at most three requests, of which at
    most two go to the url of the caller unless that url is the refresh
    endpoint itself. *)
Theorem retry_once_after_refresh (w : World) (url : string) (options : Options) :
  let run := AuthManager.makeAuthenticatedRequest url options w in
  (∀ tok rt new,
     localStorage w !! "authToken" = Some tok → nonempty tok = true →
     first_is_401 w tok url options →
     refresh_succeeds w tok rt new url options →
     let first := first_request tok url options in
     let retry := retry_request tok new url options in
     let trace := [first; refresh_request rt; retry] in
     localStorage run.2 = <["authToken" := new]> (localStorage w)
     ∧ sent run.2 = sent w ++ trace
     ∧ req_url retry = url
     ∧ req_method retry = method options
     ∧ req_body retry = body options
     ∧ req_headers retry !! "Authorization" = Some ("Bearer " +:+ new)
     ∧ (∀ k, k ≠ "Authorization" →
             req_headers retry !! k = req_headers first !! k)
     ∧ run.1 = match network w (sent w ++ trace) with
               | Resolved r2 => Normal (Some r2)
               | Rejected e => Throw e
               end)
  ∧ ∃ t, sent run.2 = sent w ++ t
         ∧ call_trace url options t
         ∧ (length t ≤ 3)%nat
         ∧ (url ≠ refresh_url → (requests_to url t ≤ 2)%nat).
Proof.
  cbv zeta. split.
  - intros tok rt new Htok Hne H401 Hok.
    rewrite (refreshed_run w tok rt new) by done. cbn.
    rewrite <- !app_assoc. repeat split; try done.
    + apply lookup_insert_eq.
    + intros k Hk. by rewrite lookup_insert_ne.
  - assert (∃ t, sent (AuthManager.makeAuthenticatedRequest url options w).2
                 = sent w ++ t ∧ call_trace url options t)
      as (t & Hsent & Ht).
    { destruct (present (localStorage w !! "authToken")) eqn:Hp.
      - destruct (localStorage w !! "authToken") as [tok|] eqn:Htok; [|done].
        destruct (sends_after_first w tok url options) as (rest & -> & Hrest);
          [done..|].
        eexists. split; [reflexivity|].
        destruct Hrest as [->|(rt & [->|(h' & ->)])]; unfold first_request;
          constructor.
      - rewrite no_token_run by done. exists []. split; [|constructor].
        cbn. by rewrite app_nil_r. }
    exists t. destruct (call_trace_bound url options t Ht) as [Hlen Hurl].
    by repeat split.
Qed.

(** C5.  When no access token is stored (the entry is absent or empty) the
    call returns null after a logout: the access token, the refresh token
    and the cached profile are removed, the location becomes /login/, and
    no request is sent. *)
Theorem no_token_no_request (w : World) (url : string) (options : Options) :
  present (localStorage w !! "authToken") = false →
  let run := AuthManager.makeAuthenticatedRequest url options w in
  run.1 = Normal None
  ∧ localStorage run.2 =
      delete "userInfo" (delete "refreshToken" (delete "authToken" (localStorage w)))
  ∧ localStorage run.2 !! "authToken" = None
  ∧ localStorage run.2 !! "refreshToken" = None
  ∧ localStorage run.2 !! "userInfo" = None
  ∧ location_href run.2 = "/login/"
  ∧ sent run.2 = sent w.
Proof.
  intros H. cbv zeta. rewrite no_token_run by done.
  unfold logged_out. cbn [fst snd localStorage location_href sent
    with_location_href with_localStorage].
  repeat split.
  - rewrite lookup_delete_ne, lookup_delete_ne by done. apply lookup_delete_eq.
  - rewrite lookup_delete_ne by done. apply lookup_delete_eq.
  - apply lookup_delete_eq.
Qed.

(** C2, as amended.  After a 401 as first response: if a refresh token is
    stored and the refresh request fails, by a network error or by a
    response outside 200-299, the call returns null and leaves the store
    and the location as they were; if no refresh token is stored, the call
    returns null as well, but [refreshToken] has logged out: the three
    entries are removed and the location is /login/, and no refresh request
    was sent. *)
Theorem failed_refresh_keeps_session (w : World) (tok url : string)
    (options : Options) :
  localStorage w !! "authToken" = Some tok → nonempty tok = true →
  first_is_401 w tok url options →
  let run := AuthManager.makeAuthenticatedRequest url options w in
  (∀ rt, localStorage w !! "refreshToken" = Some rt → nonempty rt = true →
     refresh_fails w tok rt url options →
     run.1 = Normal None
     ∧ localStorage run.2 = localStorage w
     ∧ location_href run.2 = location_href w
     ∧ sent run.2 = sent w ++ [first_request tok url options; refresh_request rt])
  ∧ (present (localStorage w !! "refreshToken") = false →
     run.1 = Normal None
     ∧ localStorage run.2 =
         delete "userInfo" (delete "refreshToken" (delete "authToken" (localStorage w)))
     ∧ location_href run.2 = "/login/"
     ∧ sent run.2 = sent w ++ [first_request tok url options]).
Proof.
  intros Htok Hne (r1 & Hr1 & H401). cbv zeta.
  rewrite (first_send w tok) by done. cbv zeta.
  rewrite Hr1, H401. cbn [Z.eqb Pos.eqb]. unfold bind. split.
  - intros rt Hrt Hrtne Hfail.
    rewrite (refreshToken_stored _ rt) by done.
    unfold refresh_result. cbn [sent network with_sent].
    rewrite <- app_assoc. cbn [app].
    destruct Hfail as [[e He]|(rr & Hrr & Hok)].
    + rewrite He. cbn. by rewrite <- app_assoc.
    + rewrite Hrr, Hok. cbn. by rewrite <- app_assoc.
  - intros Hrt. rewrite refreshToken_absent by done. by cbn.
Qed.

(** X30.  A 2xx refresh response whose body has no access entry is no
    success either: after the 401 and the refresh request the call returns
    null without a retry, and [setItem] has stored the text undefined as the
    access token. *)
Lemma refresh_without_access w tok rt url options rr data :
  localStorage w !! "authToken" = Some tok → nonempty tok = true →
  first_is_401 w tok url options →
  localStorage w !! "refreshToken" = Some rt → nonempty rt = true →
  network w (sent w ++ [first_request tok url options; refresh_request rt])
    = Resolved rr →
  ok rr = true → resp_json rr = inr data →
  prop data "access" = inr JUndefined →
  let run := AuthManager.makeAuthenticatedRequest url options w in
  run.1 = Normal None
  ∧ localStorage run.2 = <["authToken" := "undefined"]> (localStorage w)
  ∧ sent run.2 = sent w ++ [first_request tok url options; refresh_request rt].
Proof.
  intros Htok Hne (r1 & Hr1 & H401) Hrt Hrtne Hrr Hok Hjson Hacc. cbv zeta.
  rewrite (first_send w tok) by done. cbv zeta.
  rewrite Hr1, H401. cbn [Z.eqb Pos.eqb]. unfold bind.
  rewrite (refreshToken_stored _ rt) by done.
  unfold refresh_result. cbn [sent network with_sent].
  rewrite <- app_assoc. cbn [app].
  rewrite Hrr, Hok, Hjson, Hacc. cbn. by rewrite <- app_assoc.
Qed.

(** ** Computations that send nothing *)

Create HintDb silent.

Lemma silent_ret {A} (a : A) : silent (ret a).
Proof. by intros w. Qed.

Lemma silent_throw {A} e : silent (@throw A e).
Proof. by intros w. Qed.

Lemma silent_gets {A} (f : World → A) : silent (gets f).
Proof. by intros w. Qed.

Lemma silent_lift {A} (r : JsError + A) : silent (lift r).
Proof. destruct r; by intros w. Qed.

Lemma silent_update f : (∀ w, sent (f w) = sent w) → silent (update f).
Proof. intros H w. apply H. Qed.

Lemma silent_bind {A B} (c : M A) (k : A → M B) :
  silent c → (∀ a, silent (k a)) → silent (bind c k).
Proof.
  intros Hc Hk w. unfold bind. specialize (Hc w).
  destruct (c w) as [[a|e] w1]; simpl in *; [|done].
  by rewrite Hk.
Qed.

Lemma silent_try_catch_finally {A} (b : M A) h f w :
  (∀ e, silent (h e)) → silent f →
  sent (try_catch_finally b h f w).2 = sent (b w).2.
Proof.
  intros Hh Hf. unfold try_catch_finally.
  destruct (b w) as [[a|e] w1]; simpl.
  - specialize (Hf w1). by destruct (f w1) as [[[]|e] w2].
  - specialize (Hh e w1). destruct (h e w1) as [r w2].
    specialize (Hf w2). simpl in *. destruct (f w2) as [[[]|e'] w3]; simpl in *; congruence.
Qed.

#[local] Hint Resolve silent_ret silent_throw silent_gets silent_lift
  silent_bind : silent.

Lemma silent_modify_element i f : silent (modify_element i f).
Proof. by apply silent_update. Qed.

Lemma silent_getElementById i : silent (getElementById i).
Proof. apply silent_gets. Qed.

Lemma silent_removeItem k : silent (removeItem k).
Proof. by apply silent_update. Qed.

Lemma silent_navigate h : silent (navigate h).
Proof. by apply silent_update. Qed.

Lemma silent_console_error l m : silent (console_error l m).
Proof. by apply silent_update. Qed.

Lemma silent_json r : silent (json r).
Proof. apply silent_lift. Qed.

Lemma silent_removeAuthToken : silent Main.removeAuthToken.
Proof. apply silent_removeItem. Qed.

#[local] Hint Resolve silent_modify_element silent_getElementById
  silent_removeItem silent_navigate silent_console_error silent_json
  silent_removeAuthToken : silent.

Lemma silent_showLoading : silent Main.showLoading.
Proof.
  unfold Main.showLoading. apply silent_bind; [auto with silent|].
  intros [e|]; auto with silent.
Qed.

Lemma silent_hideLoading : silent Main.hideLoading.
Proof.
  unfold Main.hideLoading. apply silent_bind; [auto with silent|].
  intros [e|]; auto with silent.
Qed.

Lemma silent_showToast m t d : silent (Main.showToast m t d).
Proof.
  unfold Main.showToast. apply silent_bind; [auto with silent|].
  intros [e|]; [by apply silent_update|auto with silent].
Qed.

#[local] Hint Resolve silent_showLoading silent_hideLoading silent_showToast
  : silent.

(** ** The headers of the requests *)

Lemma showLoading_normal w : (Main.showLoading w).1 = Normal tt.
Proof.
  unfold Main.showLoading, bind, getElementById, gets. simpl.
  by destruct (elements w !! "loading-spinner").
Qed.

(** [apiCall] sends exactly one request: the endpoint under the API base,
    with the merged headers. *)
Lemma apiCall_sent w endpoint options :
  sent (Main.apiCall endpoint options w).2 =
    sent w ++ [request_of (Main.apiBaseUrl +:+ endpoint)
                 (with_headers options
                    (Main.config_headers (localStorage w !! "authToken") options))].
Proof.
  unfold Main.apiCall, Main.getAuthToken, getItem, gets, bind at 1.
  rewrite silent_try_catch_finally; [| |auto with silent].
  2:{ intros e. auto 6 with silent. }
  unfold bind at 1.
  pose proof (showLoading_normal w) as Hn.
  pose proof (silent_showLoading w) as Hs.
  destruct (Main.showLoading w) as [c w1]. simpl in Hn, Hs. subst c.
  unfold bind at 1. rewrite fetch_run. rewrite Hs.
  destruct (settle _) as [r|e]; [|simpl; by rewrite Hs].
  assert (∀ A (c : M A), silent c →
    sent (c (with_sent (fun l => l ++ [request_of (Main.apiBaseUrl +:+ endpoint)
      (with_headers options
        (Main.config_headers (localStorage w !! "authToken") options))]) w1)).2
    = sent w ++ [request_of (Main.apiBaseUrl +:+ endpoint)
      (with_headers options
        (Main.config_headers (localStorage w !! "authToken") options))]) as Hk.
  { intros A c Hc. rewrite Hc. simpl. by rewrite Hs. }
  apply Hk.
  destruct (resp_status r =? 401); [auto 6 with silent|].
  apply silent_bind; [auto with silent|].
  intros data. destruct (negb (ok r)); auto 8 with silent.
Qed.

(** C6.  The header object of the request [makeAuthenticatedRequest]
    builds and sends first, and of the one request [apiCall] sends, is the
    merge of the default headers with the caller's headers in which the
    caller's entry wins on every common key.  The defaults are Authorization
    with the bearer token for [makeAuthenticatedRequest], and Content-Type
    plus, when a token is stored, the same Authorization for [apiCall]. *)
Theorem caller_headers_win (w : World) (url : string) (options : Options) :
  (∀ tok, localStorage w !! "authToken" = Some tok → nonempty tok = true →
     ∃ rest,
       sent (AuthManager.makeAuthenticatedRequest url options w).2
         = sent w ++ first_request tok url options :: rest
       ∧ caller_wins {[ "Authorization" := "Bearer " +:+ tok ]} options
           (req_headers (first_request tok url options)))
  ∧ (let token := localStorage w !! "authToken" in
     ∃ req,
       sent (Main.apiCall url options w).2 = sent w ++ [req]
       ∧ caller_wins (Main.defaultHeaders token) options (req_headers req)
       ∧ Main.defaultHeaders token !! "Content-Type" = Some "application/json"
       ∧ ∀ tok, token = Some tok → nonempty tok = true →
           Main.defaultHeaders token !! "Authorization"
             = Some ("Bearer " +:+ tok)).
Proof.
  split.
  - intros tok Htok Hne.
    destruct (sends_after_first w tok url options) as (rest & Hs & _); [done..|].
    exists rest. split; [done|]. apply spread_caller_wins.
  - cbv zeta. eexists. split; [apply apiCall_sent|].
    split; [apply spread_caller_wins|].
    unfold Main.defaultHeaders. split.
    + destruct (present _); [by rewrite lookup_insert_ne|done].
    + intros tok -> Hne. rewrite present_Some, Hne. apply lookup_insert_eq.
Qed.

(** ** Witnesses on the sample sessions *)

(** On the expired session the refresh succeeds and the retry is answered
    401 again: that second response is what the call returns, after three
    requests, the third being the POST of the caller with its body and the
    new token. *)
Lemma retry_once_after_refresh_witness :
  let run := AuthManager.makeAuthenticatedRequest "/api/reports/"
               new_report expired_session in
  localStorage run.2 !! "authToken" = Some "fresh"
  ∧ map req_url (sent run.2)
      = ["/api/reports/"; "/api/auth/token/refresh/"; "/api/reports/"]
  ∧ map req_method (sent run.2) = [Some "POST"; Some "POST"; Some "POST"]
  ∧ last (map req_body (sent run.2)) = Some (body new_report)
  ∧ run.1 = Normal (Some unauthorized).
Proof.
  destruct (retry_once_after_refresh expired_session "/api/reports/"
              new_report) as [H _].
  destruct (H "stale" "r1" "fresh")
    as (Hstore & Hsent & _ & _ & _ & _ & _ & Hres).
  - reflexivity.
  - reflexivity.
  - exists unauthorized. split; reflexivity.
  - split; [reflexivity|]. split; [reflexivity|].
    exists (token_issued "fresh"), (DObject {[ "access" := JString "fresh" ]}).
    repeat split; reflexivity.
  - cbv zeta. rewrite Hstore, Hsent, Hres. repeat split; vm_compute; reflexivity.
Defined.

(** C1 as stated fails in its bound when the caller aims the helper at
    the refresh endpoint: after a 401 the refresh request goes to that url
    as well, and with the retry three requests reach it. *)
Lemma refresh_endpoint_reached_thrice :
  let w := page full_store turn_server in
  let run := AuthManager.makeAuthenticatedRequest refresh_url no_options w in
  map req_url (sent run.2) = [refresh_url; refresh_url; refresh_url]
  ∧ requests_to refresh_url (sent run.2) = 3%nat
  ∧ ¬ two_to_url_as_stated.
Proof.
  cbv zeta. split; [vm_compute; reflexivity|]. split; [vm_compute; reflexivity|].
  intros Hclaim.
  specialize (Hclaim (page full_store turn_server) refresh_url no_options).
  vm_compute in Hclaim. lia.
Qed.

(** On a page without a session the call redirects and sends nothing. *)
Lemma no_token_no_request_witness :
  let run := AuthManager.makeAuthenticatedRequest "/api/reports/user/"
               no_options anonymous_page in
  run.1 = Normal None ∧ location_href run.2 = "/login/" ∧ sent run.2 = [].
Proof.
  destruct (no_token_no_request anonymous_page "/api/reports/user/" no_options)
    as (H1 & _ & _ & _ & _ & H2 & H3); [reflexivity|].
  repeat split; assumption.
Defined.

(** With the refresh endpoint unreachable the session is kept. *)
Lemma failed_refresh_keeps_session_witness :
  let run := AuthManager.makeAuthenticatedRequest "/api/reports/user/"
               no_options stranded_session in
  run.1 = Normal None
  ∧ localStorage run.2 = full_store
  ∧ location_href run.2 = "/citizen/dashboard/".
Proof.
  destruct (failed_refresh_keeps_session stranded_session "stale"
              "/api/reports/user/" no_options) as [H _].
  - reflexivity.
  - reflexivity.
  - exists unauthorized. split; reflexivity.
  - destruct (H "r1") as (H1 & H2 & H3 & _).
    + reflexivity.
    + reflexivity.
    + left. eexists. reflexivity.
    + repeat split; assumption.
Defined.

(** C2 as stated fails when the refresh token is absent: on a session that
    holds an access token and a profile but no refresh token, a 401 ends in
    a logout, so the rule does not hold with a missing refresh token
    counted among the failures. *)
Lemma absent_refresh_token_logs_out :
  let run := AuthManager.makeAuthenticatedRequest "/api/reports/user/"
               no_options orphan_session in
  first_is_401 orphan_session "stale" "/api/reports/user/" no_options
  ∧ localStorage orphan_session !! "refreshToken" = None
  ∧ run.1 = Normal None
  ∧ localStorage orphan_session !! "authToken" = Some "stale"
  ∧ localStorage run.2 !! "authToken" = None
  ∧ localStorage orphan_session !! "userInfo" = Some "citizen"
  ∧ localStorage run.2 !! "userInfo" = None
  ∧ location_href run.2 = "/login/"
  ∧ ¬ session_kept_as_stated.
Proof.
  assert (first_is_401 orphan_session "stale" "/api/reports/user/" no_options)
    as H401 by (exists unauthorized; split; reflexivity).
  cbv zeta. split; [exact H401|].
  repeat (split; [vm_compute; reflexivity|]).
  intros Hclaim.
  destruct (Hclaim orphan_session "stale" "/api/reports/user/" no_options)
    as (_ & _ & Hhref); [reflexivity|reflexivity|exact H401|left; reflexivity|].
  vm_compute in Hhref. discriminate Hhref.
Qed.

(** A caller that sets Authorization and Accept gets both on the first
    send. *)
Lemma caller_headers_win_witness :
  ∃ first rest,
    sent (AuthManager.makeAuthenticatedRequest "/api/reports/user/"
            own_authorization expired_session).2 = first :: rest
    ∧ req_headers first !! "Authorization" = Some "Basic abc"
    ∧ req_headers first !! "Accept" = Some "application/json".
Proof.
  destruct (caller_headers_win expired_session "/api/reports/user/"
              own_authorization) as [H _].
  destruct (H "stale") as (rest & Hs & Hw); [reflexivity|reflexivity|].
  exists (first_request "stale" "/api/reports/user/" own_authorization), rest.
  split; [exact Hs|].
  rewrite (Hw "Authorization"), (Hw "Accept"). split; reflexivity.
Defined.

(** The same caller after a refresh: the retry carries the refreshed token
    and the caller's Accept. *)
Lemma retry_uses_refreshed_token_witness :
  ∃ first refresh retry,
    sent (AuthManager.makeAuthenticatedRequest "/api/reports/user/"
            own_authorization expired_session).2 = [first; refresh; retry]
    ∧ req_headers first !! "Authorization" = Some "Basic abc"
    ∧ req_headers retry !! "Authorization" = Some "Bearer fresh"
    ∧ req_headers retry !! "Accept" = Some "application/json".
Proof.
  destruct (retry_uses_refreshed_token expired_session "stale" "r1" "fresh"
              "/api/reports/user/" own_authorization)
    as (Hs & Hretry & Hfirst & Hrest).
  - reflexivity.
  - reflexivity.
  - exists unauthorized. split; reflexivity.
  - split; [reflexivity|]. split; [reflexivity|].
    exists (token_issued "fresh"), (DObject {[ "access" := JString "fresh" ]}).
    repeat split; reflexivity.
  - do 3 eexists. split; [exact Hs|]. split; [|split].
    + by apply Hfirst.
    + exact Hretry.
    + rewrite Hrest by done. reflexivity.
Defined.

(** ** Strings *)

Lemma app_cons x (s t : string) : String x s +:+ t = String x (s +:+ t).
Proof. reflexivity. Qed.


Lemma app_assoc_s (a b c : string) : (a +:+ b) +:+ c = a +:+ b +:+ c.
Proof. induction a as [|x a IH]; [done|]. by rewrite !app_cons, IH. Qed.

Lemma includes_here part post : includes part (part +:+ post).
Proof. by exists EmptyString, post. Qed.


Lemma includes_app_l part a b : includes part a → includes part (a +:+ b).
Proof.
  intros (pre & post & ->). exists pre, (post +:+ b).
  by rewrite !app_assoc_s.
Qed.

Lemma includes_app_r part a b : includes part b → includes part (a +:+ b).
Proof.
  intros (pre & post & ->). exists (a +:+ pre), post.
  by rewrite !app_assoc_s.
Qed.

Lemma occurs_app c a b : occurs c (a +:+ b) = occurs c a || occurs c b.
Proof.
  induction a as [|x a IH]; [done|]. rewrite app_cons. cbn. by rewrite IH, orb_assoc.
Qed.

Lemma occurs_includes c part s :
  includes part s → occurs c part = true → occurs c s = true.
Proof.
  intros (pre & post & ->) H. rewrite !occurs_app, H.
  by rewrite orb_true_r.
Qed.



(** *** Texts that hold no occurrence of a part *)
























(** *** The markup of the actions *)




Lemma edit_action_handler n : includes "editReport(" (edit_action n).
Proof.
  unfold edit_action, action_button.
  do 2 apply includes_app_r. rewrite <- app_assoc_s. apply includes_here.
Qed.






Section Dashboard.

Variable host : Host.

(** ** The report filter *)

Lemma nonempty_false s : nonempty s = false ↔ s = EmptyString.
Proof. by destruct s. Qed.

Lemma passes_admits f r : CitizenDashboard.passes f r = true ↔ admits f r.
Proof.
  unfold CitizenDashboard.passes, admits.
  destruct f as [fs fc]. cbn [f_status f_category].
  destruct (String.eqb_spec (status r) fs) as [Es|Es];
    destruct (String.eqb_spec (category r) fc) as [Ec|Ec];
    destruct fs as [|a fs'], fc as [|b fc']; cbn [nonempty andb negb];
    split; intros H; try done; try (split; auto; fail);
    destruct H as [[H1|H1] [H2|H2]]; done.
Qed.

Lemma filter_passes f rs :
  List.filter (CitizenDashboard.passes f) rs = filter (admits f) rs.
Proof.
  induction rs as [|r rs IH]; [done|].
  rewrite filter_cons. cbn [List.filter]. rewrite IH.
  destruct (decide (admits f r)) as [H|H].
  - apply passes_admits in H. by rewrite H.
  - destruct (CitizenDashboard.passes f r) eqn:Hp; [|done].
    by apply passes_admits in Hp.
Qed.

Lemma lookup_modified (j i : string) (f : Element → Element)
    (es : gmap string Element) :
  j ≠ i →
  (match es !! i with Some e => <[i := f e]> es | None => es end) !! j = es !! j.
Proof. intros H. destruct (es !! i); [by rewrite lookup_insert_ne|done]. Qed.

(** [renderReports] completes, leaves the instance alone and touches only
    the container and the empty-state element. *)
Lemma renderReports_run w :
  let run := CitizenDashboard.renderReports host w in
  run.1 = Normal tt
  ∧ citizenDashboard run.2 = citizenDashboard w
  ∧ ∀ i, i ≠ "reports-container" → i ≠ "no-reports" →
      elements run.2 !! i = elements w !! i.
Proof.
  cbv zeta.
  unfold CitizenDashboard.renderReports, CitizenDashboard.on_found, bind,
    getElementById, gets, modify_element, update, ret.
  cbn [fst snd elements citizenDashboard with_elements].
  destruct (elements w !! "reports-container") as [c|]; [|done].
  cbn.
  destruct (length (filteredReports (citizenDashboard w)) =? 0)%nat;
    destruct (elements w !! "no-reports") as [n|]; cbn;
    (split; [done|]); (split; [done|]); intros i H1 H2;
    rewrite ?lookup_modified by done; done.
Qed.

Lemma applyFilters_run w rs :
  reports (citizenDashboard w) = DArray rs →
  CitizenDashboard.applyFilters host w =
    CitizenDashboard.renderReports host
      (with_dashboard (CitizenDashboard.set_filteredReports
         (List.filter (CitizenDashboard.passes (currentFilters (citizenDashboard w))) rs)) w).
Proof.
  intros H. unfold CitizenDashboard.applyFilters, bind at 1, gets.
  rewrite H. reflexivity.
Qed.

Lemma applyFilters_shown w rs :
  reports (citizenDashboard w) = DArray rs →
  let run := CitizenDashboard.applyFilters host w in
  run.1 = Normal tt
  ∧ filteredReports (citizenDashboard run.2)
      = filter (admits (currentFilters (citizenDashboard w))) rs
  ∧ ∀ i, i ≠ "reports-container" → i ≠ "no-reports" →
      elements run.2 !! i = elements w !! i.
Proof.
  intros H. cbv zeta. rewrite (applyFilters_run w rs) by done.
  destruct (renderReports_run
    (with_dashboard (CitizenDashboard.set_filteredReports
       (List.filter (CitizenDashboard.passes (currentFilters (citizenDashboard w))) rs)) w))
    as (H1 & H2 & H3).
  split; [done|]. split; [|done].
  rewrite H2. cbn. apply filter_passes.
Qed.

(** C3.  With a list of reports loaded, [applyFilters] leaves in
    [filteredReports] exactly the reports that the predicate of the
    specification admits (each selector empty or equal to the field), in the
    order of the full list; so do the two change listeners with the changed
    selector.  Hence after a change of one selector every report shown
    satisfies the other selector, and a report whose visibility changed
    satisfies it too. *)
Theorem filter_is_exact (w : World) (rs : list Report) :
  reports (citizenDashboard w) = DArray rs →
  let f := currentFilters (citizenDashboard w) in
  let shown c := filteredReports (citizenDashboard (c w).2) in
  (CitizenDashboard.applyFilters host w).1 = Normal tt
  ∧ shown (CitizenDashboard.applyFilters host) = filter (admits f) rs
  ∧ shown (CitizenDashboard.applyFilters host) `sublist_of` rs
  ∧ (∀ r, r ∈ shown (CitizenDashboard.applyFilters host) ↔ r ∈ rs ∧ admits f r)
  ∧ (∀ v, shown (CitizenDashboard.on_status_change host v)
          = filter (admits {| f_status := v; f_category := f_category f |}) rs)
  ∧ (∀ v, shown (CitizenDashboard.on_category_change host v)
          = filter (admits {| f_status := f_status f; f_category := v |}) rs)
  ∧ (∀ v r, r ∈ shown (CitizenDashboard.on_status_change host v) →
            f_category f = EmptyString ∨ category r = f_category f)
  ∧ (∀ v r, r ∈ shown (CitizenDashboard.on_category_change host v) →
            f_status f = EmptyString ∨ status r = f_status f)
  ∧ (∀ v r, r ∈ rs →
       ¬ (r ∈ shown (CitizenDashboard.applyFilters host)
          ↔ r ∈ shown (CitizenDashboard.on_status_change host v)) →
       f_category f = EmptyString ∨ category r = f_category f)
  ∧ (∀ v r, r ∈ rs →
       ¬ (r ∈ shown (CitizenDashboard.applyFilters host)
          ↔ r ∈ shown (CitizenDashboard.on_category_change host v)) →
       f_status f = EmptyString ∨ status r = f_status f).
Proof.
  intros H. cbv zeta.
  destruct (applyFilters_shown w rs H) as (Hn & Hs & _).
  assert (∀ v, filteredReports (citizenDashboard
            (CitizenDashboard.on_status_change host v w).2)
          = filter (admits {| f_status := v;
               f_category := f_category (currentFilters (citizenDashboard w)) |}) rs)
    as Hst.
  { intros v. unfold CitizenDashboard.on_status_change, bind, update.
    by destruct (applyFilters_shown
      (with_dashboard (CitizenDashboard.set_status_filter v) w) rs) as (_ & -> & _). }
  assert (∀ v, filteredReports (citizenDashboard
            (CitizenDashboard.on_category_change host v w).2)
          = filter (admits {| f_status := f_status (currentFilters (citizenDashboard w));
               f_category := v |}) rs)
    as Hcat.
  { intros v. unfold CitizenDashboard.on_category_change, bind, update.
    by destruct (applyFilters_shown
      (with_dashboard (CitizenDashboard.set_category_filter v) w) rs) as (_ & -> & _). }
  rewrite Hs.
  split; [done|]. split; [done|]. split; [apply sublist_filter|].
  split; [intros r; rewrite list_elem_of_filter; tauto|].
  split; [done|]. split; [done|].
  split; [intros v r; rewrite Hst, list_elem_of_filter; by intros [[_ ?] _]|].
  split; [intros v r; rewrite Hcat, list_elem_of_filter; by intros [[? _] _]|].
  split.
  - intros v r Hr. rewrite Hst, !list_elem_of_filter. unfold admits. cbn.
    destruct (decide (f_category (currentFilters (citizenDashboard w)) = EmptyString
                      ∨ category r = f_category (currentFilters (citizenDashboard w))))
      as [?|Hno]; [done|].
    intros Hd. exfalso. apply Hd. split; intros [[_ ?] _]; done.
  - intros v r Hr. rewrite Hcat, !list_elem_of_filter. unfold admits. cbn.
    destruct (decide (f_status (currentFilters (citizenDashboard w)) = EmptyString
                      ∨ status r = f_status (currentFilters (citizenDashboard w))))
      as [?|Hno]; [done|].
    intros Hd. exfalso. apply Hd. split; intros [[? _] _]; done.
Qed.

(** ** The aggregate counts *)

Lemma blind_ret {A} (a : A) : instance_blind (ret a).
Proof. by intros g w. Qed.

Lemma blind_throw {A} e : instance_blind (@throw A e).
Proof. by intros g w. Qed.

Lemma blind_lift {A} (r : JsError + A) : instance_blind (lift r).
Proof. destruct r; by intros g w. Qed.

Lemma blind_bind {A B} (c : M A) (k : A → M B) :
  instance_blind c → (∀ a, instance_blind (k a)) → instance_blind (bind c k).
Proof.
  intros Hc Hk g w. unfold bind. rewrite Hc.
  destruct (c w) as [[a|e] w1]; cbn [fst snd]; [|done].
  by rewrite Hk.
Qed.

Lemma blind_getElementById i : instance_blind (getElementById i).
Proof. by intros g w. Qed.

Lemma blind_modify_element i f : instance_blind (modify_element i f).
Proof. by intros g w. Qed.

Lemma blind_write_count i n : instance_blind (CitizenDashboard.write_count i n).
Proof.
  unfold CitizenDashboard.write_count.
  apply blind_bind; [apply blind_getElementById|].
  intros [e|]; [apply blind_modify_element|apply blind_throw].
Qed.

Lemma updateStats_refiltered f shown w :
  (CitizenDashboard.updateStats (refiltered f shown w)).1
    = (CitizenDashboard.updateStats w).1
  ∧ elements (CitizenDashboard.updateStats (refiltered f shown w)).2
    = elements (CitizenDashboard.updateStats w).2.
Proof.
  pose (tail := fun d : Data =>
    let* rs := lift (CitizenDashboard.reports_array "length" d) in
    let stats := CitizenDashboard.computeStats rs in
    CitizenDashboard.write_count "total-reports" (total stats) ;;
    CitizenDashboard.write_count "pending-reports" (submitted stats) ;;
    CitizenDashboard.write_count "in-progress-reports" (in_progress stats) ;;
    CitizenDashboard.write_count "resolved-reports" (resolved stats)).
  assert (∀ w0, CitizenDashboard.updateStats w0
                = tail (reports (citizenDashboard w0)) w0) as Hu by reflexivity.
  assert (∀ d, instance_blind (tail d)) as Hb.
  { intros d. unfold tail. apply blind_bind; [apply blind_lift|].
    intros rs. cbv zeta.
    repeat (apply blind_bind; [apply blind_write_count|intros _]).
    apply blind_write_count. }
  rewrite !Hu. unfold refiltered.
  cbn [citizenDashboard with_dashboard reports]. by rewrite Hb.
Qed.

Lemma write_count_run i n w e :
  elements w !! i = Some e →
  CitizenDashboard.write_count i n w =
    (Normal tt, with_elements (insert i (set_textContent (show_nat n) e)) w).
Proof.
  intros H.
  unfold CitizenDashboard.write_count, bind, getElementById, gets,
    modify_element, update.
  rewrite H. unfold with_elements. by rewrite H.
Qed.

(** With the four count elements on the page, [updateStats] writes the
    counts of the full list into them. *)
Lemma updateStats_writes w rs e1 e2 e3 e4 :
  reports (citizenDashboard w) = DArray rs →
  elements w !! "total-reports" = Some e1 →
  elements w !! "pending-reports" = Some e2 →
  elements w !! "in-progress-reports" = Some e3 →
  elements w !! "resolved-reports" = Some e4 →
  let run := CitizenDashboard.updateStats w in
  let stats := CitizenDashboard.computeStats rs in
  let text i := textContent <$> elements run.2 !! i in
  run.1 = Normal tt
  ∧ text "total-reports" = Some (show_nat (total stats))
  ∧ text "pending-reports" = Some (show_nat (submitted stats))
  ∧ text "in-progress-reports" = Some (show_nat (in_progress stats))
  ∧ text "resolved-reports" = Some (show_nat (resolved stats)).
Proof.
  intros Hr H1 H2 H3 H4. cbv zeta.
  assert (CitizenDashboard.updateStats w =
    (Normal tt,
     with_elements (insert "resolved-reports" (set_textContent
         (show_nat (resolved (CitizenDashboard.computeStats rs))) e4))
     (with_elements (insert "in-progress-reports" (set_textContent
         (show_nat (in_progress (CitizenDashboard.computeStats rs))) e3))
     (with_elements (insert "pending-reports" (set_textContent
         (show_nat (submitted (CitizenDashboard.computeStats rs))) e2))
     (with_elements (insert "total-reports" (set_textContent
         (show_nat (total (CitizenDashboard.computeStats rs))) e1)) w)))))
    as ->.
  { unfold CitizenDashboard.updateStats, bind at 1, gets. rewrite Hr.
    cbn [CitizenDashboard.reports_array]. unfold bind at 1, lift, ret.
    cbv zeta.
    erewrite bind_normal; [|by apply write_count_run].
    erewrite bind_normal;
      [|apply write_count_run; cbn; by rewrite lookup_insert_ne].
    erewrite bind_normal;
      [|apply write_count_run; cbn; by rewrite !lookup_insert_ne].
    apply write_count_run. cbn. by rewrite !lookup_insert_ne. }
  cbn [fst snd elements with_elements].
  split; [done|].
  rewrite lookup_insert_eq.
  rewrite !(lookup_insert_ne _ "resolved-reports") by done.
  rewrite lookup_insert_eq.
  rewrite !(lookup_insert_ne _ "in-progress-reports") by done.
  rewrite lookup_insert_eq.
  rewrite !(lookup_insert_ne _ "pending-reports") by done.
  rewrite lookup_insert_eq. done.
Qed.

Lemma change_keeps_counts w rs i :
  reports (citizenDashboard w) = DArray rs → i ∈ count_ids →
  (∀ v, elements (CitizenDashboard.on_status_change host v w).2 !! i
        = elements w !! i)
  ∧ (∀ v, elements (CitizenDashboard.on_category_change host v w).2 !! i
          = elements w !! i).
Proof.
  intros Hr Hi.
  assert (i ≠ "reports-container" ∧ i ≠ "no-reports") as [H1 H2].
  { unfold count_ids in Hi.
    repeat (apply elem_of_cons in Hi as [->|Hi]; [done|]).
    by apply elem_of_nil in Hi. }
  split; intros v.
  - unfold CitizenDashboard.on_status_change, bind, update.
    destruct (applyFilters_shown
      (with_dashboard (CitizenDashboard.set_status_filter v) w) rs) as (_ & _ & H);
      [done|]. by rewrite H.
  - unfold CitizenDashboard.on_category_change, bind, update.
    destruct (applyFilters_shown
      (with_dashboard (CitizenDashboard.set_category_filter v) w) rs) as (_ & _ & H);
      [done|]. by rewrite H.
Qed.

(** C4.  The counts depend on the full list only: replacing the selectors
    and the filtered list changes neither the outcome of [updateStats] nor
    what it writes, which is the total and the per-status counts of
    [this.reports]; the change listeners of the selectors leave the four
    count elements as they are; and for a list of one submitted and one
    resolved report the counts are 2, 1, 0 and 1. *)
Theorem counts_ignore_filters (w : World) :
  (∀ f shown,
     (CitizenDashboard.updateStats (refiltered f shown w)).1
       = (CitizenDashboard.updateStats w).1
     ∧ elements (CitizenDashboard.updateStats (refiltered f shown w)).2
       = elements (CitizenDashboard.updateStats w).2)
  ∧ (∀ rs e1 e2 e3 e4,
       reports (citizenDashboard w) = DArray rs →
       elements w !! "total-reports" = Some e1 →
       elements w !! "pending-reports" = Some e2 →
       elements w !! "in-progress-reports" = Some e3 →
       elements w !! "resolved-reports" = Some e4 →
       let text i :=
         textContent <$> elements (CitizenDashboard.updateStats w).2 !! i in
       text "total-reports" = Some (show_nat (length rs))
       ∧ text "pending-reports"
           = Some (show_nat (CitizenDashboard.count_status "submitted" rs))
       ∧ text "in-progress-reports"
           = Some (show_nat (CitizenDashboard.count_status "in_progress" rs))
       ∧ text "resolved-reports"
           = Some (show_nat (CitizenDashboard.count_status "resolved" rs)))
  ∧ (∀ rs i, reports (citizenDashboard w) = DArray rs → i ∈ count_ids →
       (∀ v, elements (CitizenDashboard.on_status_change host v w).2 !! i
             = elements w !! i)
       ∧ (∀ v, elements (CitizenDashboard.on_category_change host v w).2 !! i
               = elements w !! i))
  ∧ (∀ a b, status a = "submitted" → status b = "resolved" →
       CitizenDashboard.computeStats [a; b]
         = {| total := 2; submitted := 1; in_progress := 0; resolved := 1 |}).
Proof.
  split; [intros f shown; apply updateStats_refiltered|].
  split.
  { intros rs e1 e2 e3 e4 Hr H1 H2 H3 H4.
    by destruct (updateStats_writes w rs e1 e2 e3 e4) as (_ & ? & ? & ? & ?). }
  split; [intros rs i; apply change_keeps_counts|].
  intros a b Ha Hb.
  unfold CitizenDashboard.computeStats, CitizenDashboard.count_status.
  cbn [List.filter length]. rewrite Ha, Hb. reflexivity.
Qed.

(** ** The rendered fragment *)









(** ** The icon tables *)

(** A code that is neither in the table nor a key inherited from
    Object.prototype gets the fallback icon. *)
Lemma unknown_status_icon code :
  CitizenDashboard.status_icons !! code = None →
  code ∉ object_prototype_keys →
  CitizenDashboard.getStatusIcon code = fallback_status_icon.
Proof.
  intros Hown Hproto.
  unfold CitizenDashboard.getStatusIcon, literal_get. rewrite Hown.
  by rewrite bool_decide_eq_false_2.
Qed.

Lemma unknown_priority_icon code :
  CitizenDashboard.priority_icons !! code = None →
  code ∉ object_prototype_keys →
  CitizenDashboard.getPriorityIcon code = fallback_priority_icon.
Proof.
  intros Hown Hproto.
  unfold CitizenDashboard.getPriorityIcon, literal_get. rewrite Hown.
  by rewrite bool_decide_eq_false_2.
Qed.

Lemma includes_here3 a b c rest :
  includes (a +:+ b +:+ c) (a +:+ b +:+ c +:+ rest).
Proof. exists EmptyString, rest. by rewrite !app_assoc_s. Qed.

(** The fragment of a report shows the icon of its status followed by the
    display label as the server sent it. *)
Lemma status_badge_in_fragment r :
  includes (CitizenDashboard.getStatusIcon (status r) +:+ " " +:+ status_display r)
    (CitizenDashboard.renderReportItem host r).
Proof.
  unfold CitizenDashboard.renderReportItem. apply includes_app_l.
  unfold CitizenDashboard.item_upper.
  repeat first [ apply includes_here3 | apply includes_app_r ].
Qed.

(** The example of the specification: the unknown status archived. *)
Lemma archived_status_renders r :
  status r = "archived" →
  includes (fallback_status_icon +:+ " " +:+ status_display r)
    (CitizenDashboard.renderReportItem host r).
Proof.
  intros H. pose proof (status_badge_in_fragment r) as Hin.
  by rewrite H in Hin.
Qed.

(** C8.  An unknown code such as archived gets the fallback icon, but a
    code that names a member inherited from Object.prototype does not: the
    lookup finds the member, which is truthy, and the icon class becomes
    its text.  Nothing throws. *)
Theorem inherited_key_gets_no_fallback :
  CitizenDashboard.getStatusIcon "archived" = fallback_status_icon
  ∧ CitizenDashboard.getStatusIcon "constructor"
      = "<i class=" +:+ q "function Object() { [native code] }" +:+ "></i>"
  ∧ CitizenDashboard.getStatusIcon "constructor" ≠ fallback_status_icon
  ∧ CitizenDashboard.getPriorityIcon "toString"
      = "<i class=" +:+ q "function toString() { [native code] }" +:+ "></i>"
  ∧ CitizenDashboard.getPriorityIcon "toString" ≠ fallback_priority_icon.
Proof. repeat split; done. Qed.

End Dashboard.

(** ** Witnesses on the sample dashboard *)

(** The example of the specification: with the status selector on
    submitted only the first report is shown; adding the category trash
    leaves none. *)
Lemma filter_is_exact_witness :
  filteredReports (citizenDashboard
    (CitizenDashboard.applyFilters plain_host loaded_dashboard).2)
    = [pothole_report]
  ∧ filteredReports (citizenDashboard
      (CitizenDashboard.on_category_change plain_host "trash" loaded_dashboard).2)
    = [].
Proof.
  destruct (filter_is_exact plain_host loaded_dashboard
              [pothole_report; trash_report])
    as (_ & Hshown & _ & _ & _ & Hcat & _); [reflexivity|].
  rewrite Hshown, Hcat. split; vm_compute; reflexivity.
Defined.



(** ** Runs on the sample dashboard page *)

(** A load that succeeds: the CSRF cookie is sent, the counts are written,
    both reports are shown and the loading element ends hidden. *)
Example loadReports_succeeds :
  let run := CitizenDashboard.loadReports plain_host dashboard_page in
  let text i := textContent <$> elements run.2 !! i in
  run.1 = Normal tt
  ∧ (λ r, (req_url r, req_headers r !! "X-CSRFToken")) <$> sent run.2
      = [("/api/reports/user/", Some "tok123")]
  ∧ text "total-reports" = Some "2"
  ∧ text "pending-reports" = Some "1"
  ∧ text "in-progress-reports" = Some "0"
  ∧ text "resolved-reports" = Some "1"
  ∧ filteredReports (citizenDashboard run.2) = [pothole_report; trash_report]
  ∧ innerHTML <$> elements run.2 !! "reports-container"
      = Some (CitizenDashboard.renderReportItem plain_host pothole_report
              +:+ CitizenDashboard.renderReportItem plain_host trash_report)
  ∧ showing "reports-loading" dashboard_page = true
  ∧ showing "reports-loading" run.2 = false
  ∧ showing "no-reports" run.2 = false.
Proof. cbv zeta. repeat split; vm_compute; reflexivity. Qed.

(** A call that fails on the network: the error is rethrown after a toast,
    and the spinner ends hidden. *)
Example apiCall_fails :
  let run := Main.apiCall "/reports/" no_options dashboard_page in
  run.1 = Throw (mkTypeError "Failed to fetch")
  ∧ req_url <$> sent run.2 = ["/api/reports/"]
  ∧ toasts run.2 = [{| toast_message := "Failed to fetch";
                       toast_type := "error"; toast_duration := 5000 |}]
  ∧ showing "loading-spinner" dashboard_page = true
  ∧ showing "loading-spinner" run.2 = false.
Proof. cbv zeta. repeat split; vm_compute; reflexivity. Qed.

(** * Further properties of the scripts *)

(** Reducing the projections of an updated state. *)
Ltac simpl_world :=
  cbn [fst snd localStorage location_href cookie elements toasts console sent
       network citizenDashboard with_localStorage with_location_href
       with_elements with_toasts with_console with_sent with_dashboard].

Ltac simpl_world_in H :=
  cbn [fst snd localStorage location_href cookie elements toasts console sent
       network citizenDashboard with_localStorage with_location_href
       with_elements with_toasts with_console with_sent with_dashboard] in H.

(** ** Runs of the page helpers *)

Lemma with_elements_id w f :
  f (elements w) = elements w → with_elements f w = w.
Proof. intros H. destruct w. unfold with_elements. simpl in *. by rewrite H. Qed.

Lemma with_toasts_id w f : f (toasts w) = toasts w → with_toasts f w = w.
Proof. intros H. destruct w. unfold with_toasts. simpl in *. by rewrite H. Qed.

Lemma showLoading_run w :
  Main.showLoading w = (Normal tt, with_elements (fun _ => spinner_shown (elements w)) w).
Proof.
  unfold Main.showLoading, bind, getElementById, gets, modify_element, update,
    ret, spinner_shown.
  destruct (elements w !! "loading-spinner") as [e|] eqn:He; simpl.
  - unfold with_elements. by rewrite He.
  - by rewrite with_elements_id.
Qed.

Lemma hideLoading_run w :
  Main.hideLoading w = (Normal tt, with_elements (fun _ => spinner_hidden (elements w)) w).
Proof.
  unfold Main.hideLoading, bind, getElementById, gets, modify_element, update,
    ret, spinner_hidden.
  destruct (elements w !! "loading-spinner") as [e|] eqn:He; simpl.
  - unfold with_elements. by rewrite He.
  - by rewrite with_elements_id.
Qed.

Lemma showToast_run message type w :
  Main.showToast message type 5000 w =
    (Normal tt, with_toasts (fun _ => toasted (elements w) message type (toasts w)) w).
Proof.
  unfold Main.showToast, bind, getElementById, gets, update, ret, toasted.
  destruct (elements w !! "toast-container") as [e|] eqn:He; simpl.
  - done.
  - by rewrite with_toasts_id.
Qed.

Lemma try_finally_normal {A} (b : M A) h f w a w1 w2 :
  b w = (Normal a, w1) → f w1 = (Normal tt, w2) →
  try_catch_finally b h f w = (Normal a, w2).
Proof. intros Hb Hf. unfold try_catch_finally. by rewrite Hb, Hf. Qed.

Lemma try_finally_caught {A} (b : M A) h f w e w1 r w2 w3 :
  b w = (Throw e, w1) → h e w1 = (r, w2) → f w2 = (Normal tt, w3) →
  try_catch_finally b h f w = (r, w3).
Proof. intros Hb Hh Hf. unfold try_catch_finally. by rewrite Hb, Hh, Hf. Qed.

(** ** More on the authenticated request client *)

(** X1.  With a non-empty access token stored, a first response that is
    not a 401 is all there is to [makeAuthenticatedRequest]: the call settles
    as [fetch] did (the response returned, whatever its status, or the
    network error thrown), one request is sent, and the store and the address
    are as before: no refresh, no retry, no logout. *)
Theorem other_outcomes_pass_through (w : World) (tok url : string)
    (options : Options) :
  localStorage w !! "authToken" = Some tok → nonempty tok = true →
  (∀ r, network w (sent w ++ [first_request tok url options]) = Resolved r →
        resp_status r ≠ 401) →
  let run := AuthManager.makeAuthenticatedRequest url options w in
  run.1 = match network w (sent w ++ [first_request tok url options]) with
          | Resolved r => Normal (Some r)
          | Rejected e => Throw e
          end
  ∧ localStorage run.2 = localStorage w
  ∧ location_href run.2 = location_href w
  ∧ sent run.2 = sent w ++ [first_request tok url options].
Proof.
  intros Htok Hne Hnot. cbv zeta. rewrite (first_send w tok) by done. cbv zeta.
  destruct (network w _) as [r|e] eqn:Hnet; [|done].
  specialize (Hnot r eq_refl). apply Z.eqb_neq in Hnot. by rewrite Hnot.
Qed.

(** X2.  [refreshToken] never rejects.  Without a refresh token it
    sends nothing, removes authToken, refreshToken and userInfo from the
    store, goes to /login/ and returns null.  With a refresh token [rt] it
    sends exactly one request, the POST of the JSON object with the one
    field refresh = [rt] and the content type application/json to
    /api/auth/token/refresh/, and stays on the page; when the answer issues
    an access value, that value is returned and its text is stored under
    authToken, nothing else of the store changing; otherwise null is
    returned and the store is unchanged. *)
Theorem refreshToken_result (w : World) :
  let run := AuthManager.refreshToken w in
  (present (localStorage w !! "refreshToken") = false →
   run.1 = Normal JNull
   ∧ sent run.2 = sent w
   ∧ localStorage run.2
     = delete "userInfo" (delete "refreshToken" (delete "authToken" (localStorage w)))
   ∧ location_href run.2 = "/login/")
  ∧ (∀ rt,
     localStorage w !! "refreshToken" = Some rt → rt ≠ EmptyString →
     let request :=
       {| req_url := "/api/auth/token/refresh/";
          req_method := Some "POST";
          req_headers := {[ "Content-Type" := "application/json" ]};
          req_body := Some (JsonBody [("refresh", rt)]) |} in
     sent run.2 = sent w ++ [request]
     ∧ location_href run.2 = location_href w
     ∧ match issued_access (network w (sent w ++ [request])) with
       | Some access =>
           run.1 = Normal access
           ∧ localStorage run.2
             = <["authToken" := to_string access]> (localStorage w)
       | None => run.1 = Normal JNull ∧ localStorage run.2 = localStorage w
       end).
Proof.
  cbv zeta. split.
  - intros Hp. rewrite refreshToken_absent by done. by simpl_world.
  - intros rt Hrt Hne.
    rewrite (refreshToken_stored w rt) by (done || by destruct rt).
    unfold refresh_result, refresh_request, issued_access.
    destruct (network w _) as [rr|e];
      [destruct (ok rr);
       [destruct (resp_json rr) as [e|[| |fields|items]]|]|];
      by simpl_world.
Qed.

Lemma logged_out_twice w : logged_out (logged_out w) = logged_out w.
Proof.
  unfold logged_out, with_location_href, with_localStorage. simpl. f_equal.
  apply map_eq. intros k. rewrite !lookup_delete.
  repeat case_decide; done.
Qed.

(** X3.  [logout] removes exactly the three keys authToken,
    refreshToken and userInfo, keeps every other entry of the store, goes to
    the login page and sends nothing; a second logout changes nothing more,
    and afterwards [isAuthenticated] is false and [getUserInfo] is null. *)
Theorem logout_clears_session_only (w : World) :
  let run := AuthManager.logout w in
  run.1 = Normal tt
  ∧ (∀ k, localStorage run.2 !! k
          = if bool_decide (k ∈ ["authToken"; "refreshToken"; "userInfo"])
            then None else localStorage w !! k)
  ∧ location_href run.2 = "/login/"
  ∧ sent run.2 = sent w
  ∧ AuthManager.logout run.2 = run
  ∧ (AuthForms.isAuthenticated run.2).1 = Normal false
  ∧ (∀ codec, (AuthForms.getUserInfo codec run.2).1 = Normal None).
Proof.
  cbv zeta. change (AuthManager.logout w) with (Normal tt, logged_out w).
  simpl_world. split; [done|]. split.
  { intros k. unfold logged_out. simpl_world. rewrite !lookup_delete.
    case_bool_decide as Hk.
    - set_unfold in Hk. destruct Hk as [->|[->|[->|[]]]];
        repeat case_decide; done.
    - repeat case_decide; subst; try done; exfalso; apply Hk;
        repeat constructor. }
  split; [done|]. split; [done|]. split.
  { change (AuthManager.logout (logged_out w))
      with (Normal tt, logged_out (logged_out w)).
    by rewrite logged_out_twice. }
  split.
  - unfold AuthForms.isAuthenticated, bind, getItem, gets, ret, logged_out.
    simpl_world. rewrite !lookup_delete. by repeat case_decide.
  - intros codec.
    unfold AuthForms.getUserInfo, bind at 1, getItem, gets, logged_out.
    simpl_world. by rewrite lookup_delete_eq.
Qed.

(** ** The outcomes of apiCall *)

(** The run of [apiCall] up to the answer of the server. *)
Lemma apiCall_run w endpoint options :
  Main.apiCall endpoint options w
  = match network w (sent w ++ [api_request w endpoint options]) with
    | Resolved r =>
        try_catch_finally (api_rest r) api_catch Main.hideLoading
          (api_answered w endpoint options)
    | Rejected e =>
        try_catch_finally (throw e) api_catch Main.hideLoading
          (api_answered w endpoint options)
    end.
Proof.
  unfold Main.apiCall, Main.getAuthToken, getItem, gets, bind at 1.
  cbv beta iota. unfold try_catch_finally, bind at 1.
  rewrite showLoading_run. unfold bind at 1. rewrite fetch_run. simpl_world.
  unfold api_request, api_answered. by destruct (network w _).
Qed.

(** The catch block of [apiCall] followed by its finaliser. *)
Lemma api_caught (b : M (option Data)) w1 e :
  b w1 = (Throw e, w1) →
  try_catch_finally b api_catch Main.hideLoading w1
  = (Throw e,
     with_elements (fun _ => spinner_hidden (elements w1))
       (with_toasts (fun _ => toasted (elements w1) (err_message e) "error"
                                (toasts w1))
          (with_console (fun l => l ++ [("API Error:", err_message e)]) w1))).
Proof.
  intros Hb. erewrite try_finally_caught; [|exact Hb| |apply hideLoading_run].
  2:{ unfold api_catch, bind at 1, console_error, update. unfold bind at 1.
      rewrite showToast_run. reflexivity. }
  reflexivity.
Qed.

Lemma toasted_spinner_shown es message type l :
  toasted (spinner_shown es) message type l = toasted es message type l.
Proof.
  unfold toasted, spinner_shown.
  destruct (es !! "loading-spinner") as [e|] eqn:He; [|done].
  by rewrite lookup_insert_ne.
Qed.

(** X4.  On a 401 [apiCall] returns undefined instead of throwing: the
    access token alone is removed from the store, the page goes to the login
    page, nothing is shown or logged, and the spinner ends hidden. *)
Theorem apiCall_unauthorized (w : World) (endpoint : string)
    (options : Options) (r : Response) :
  network w (sent w ++ [api_request w endpoint options]) = Resolved r →
  resp_status r = 401 →
  let run := Main.apiCall endpoint options w in
  run.1 = Normal None
  ∧ localStorage run.2 = delete "authToken" (localStorage w)
  ∧ location_href run.2 = "/login/"
  ∧ toasts run.2 = toasts w
  ∧ console run.2 = console w
  ∧ elements run.2 = spinner_hidden (spinner_shown (elements w)).
Proof.
  intros Hnet H401. cbv zeta. rewrite apiCall_run, Hnet.
  erewrite try_finally_normal; [| |apply hideLoading_run].
  2:{ unfold api_rest. rewrite H401. reflexivity. }
  unfold api_answered. by simpl_world.
Qed.

(** X5.  On any other response outside 200-299 whose body parses,
    [apiCall] throws an Error whose message is the detail of the body, else
    its message, else the text API Error; the message is shown as an error
    toast and logged, and the store and the address are untouched. *)
Theorem apiCall_error_response (w : World) (endpoint : string)
    (options : Options) (r : Response) (data : Data) (detail message : jsval) :
  network w (sent w ++ [api_request w endpoint options]) = Resolved r →
  resp_status r ≠ 401 → ok r = false →
  resp_json r = inr data →
  prop data "detail" = inr detail → prop data "message" = inr message →
  let text := to_string (js_or detail (js_or message (JString "API Error"))) in
  let run := Main.apiCall endpoint options w in
  run.1 = Throw (mkError text)
  ∧ toasts run.2 = toasted (elements w) text "error" (toasts w)
  ∧ console run.2 = console w ++ [("API Error:", text)]
  ∧ localStorage run.2 = localStorage w
  ∧ location_href run.2 = location_href w.
Proof.
  intros Hnet H401 Hok Hjson Hd Hm. cbv zeta. apply Z.eqb_neq in H401.
  rewrite apiCall_run, Hnet. erewrite api_caught.
  2:{ unfold api_rest, bind, json, lift, ret, throw. rewrite H401, Hjson.
      cbv beta iota. rewrite Hok. cbn [negb]. cbv beta iota.
      rewrite Hd. cbv beta iota. rewrite Hm. reflexivity. }
  unfold api_answered. simpl_world. by rewrite toasted_spinner_shown.
Qed.

(** X6.  On a 2xx response whose body parses, [apiCall] returns the
    parsed body after one request, with no toast, no log entry and no change
    of the store or the address. *)
Theorem apiCall_success (w : World) (endpoint : string)
    (options : Options) (r : Response) (data : Data) :
  network w (sent w ++ [api_request w endpoint options]) = Resolved r →
  ok r = true → resp_json r = inr data →
  let run := Main.apiCall endpoint options w in
  run.1 = Normal (Some data)
  ∧ toasts run.2 = toasts w
  ∧ console run.2 = console w
  ∧ localStorage run.2 = localStorage w
  ∧ location_href run.2 = location_href w
  ∧ sent run.2 = sent w ++ [api_request w endpoint options].
Proof.
  intros Hnet Hok Hjson. cbv zeta.
  assert ((resp_status r =? 401) = false) as H401.
  { unfold ok in Hok. apply andb_true_iff in Hok as [_ H].
    apply Z.eqb_neq. lia. }
  rewrite apiCall_run, Hnet.
  erewrite try_finally_normal; [| |apply hideLoading_run].
  2:{ unfold api_rest, bind, json, lift, ret, throw. rewrite H401, Hjson.
      cbv beta iota. rewrite Hok. reflexivity. }
  unfold api_answered. by simpl_world.
Qed.

(** X7.  When the network rejects the request, or the body of a
    response other than a 401 does not parse, [apiCall] rethrows that very
    error after showing its message as an error toast; the store and the
    address are untouched. *)
Theorem apiCall_rethrows_failures (w : World) (endpoint : string)
    (options : Options) (e : JsError) :
  network w (sent w ++ [api_request w endpoint options]) = Rejected e
  ∨ (∃ r, network w (sent w ++ [api_request w endpoint options]) = Resolved r
          ∧ resp_status r ≠ 401 ∧ resp_json r = inl e) →
  let run := Main.apiCall endpoint options w in
  run.1 = Throw e
  ∧ toasts run.2 = toasted (elements w) (err_message e) "error" (toasts w)
  ∧ localStorage run.2 = localStorage w
  ∧ location_href run.2 = location_href w.
Proof.
  intros Hfail. cbv zeta. rewrite apiCall_run.
  destruct Hfail as [Hnet|(r & Hnet & H401 & Hjson)]; rewrite Hnet;
    erewrite api_caught.
  - unfold api_answered. simpl_world. by rewrite toasted_spinner_shown.
  - reflexivity.
  - unfold api_answered. simpl_world. by rewrite toasted_spinner_shown.
  - apply Z.eqb_neq in H401.
    unfold api_rest, bind, json, lift. by rewrite H401, Hjson.
Qed.

(** ** The token check at page load *)

(** X8.  [checkAuthStatus], with its promise chain run to the end,
    never throws and touches no key but authToken.  Without a token it does
    nothing at all.  With one it sends the one verify request; a 2xx answer
    changes nothing, any other answer removes the token and goes to the login
    page unless the page is already there, and a network error removes the
    token without leaving the page. *)
Theorem checkAuthStatus_effect (w : World) :
  let run := AppUtils.checkAuthStatus w in
  let token := localStorage w !! "authToken" in
  let request := verify_request (default "" token) in
  run.1 = Normal tt
  ∧ (∀ k, k ≠ "authToken" → localStorage run.2 !! k = localStorage w !! k)
  ∧ (present token = false → run.2 = w)
  ∧ (present token = true →
     sent run.2 = sent w ++ [request]
     ∧ match network w (sent w ++ [request]) with
       | Resolved r =>
           if ok r then
             localStorage run.2 = localStorage w
             ∧ location_href run.2 = location_href w
           else
             localStorage run.2 = delete "authToken" (localStorage w)
             ∧ location_href run.2
               = if String.eqb (pathname (location_href w)) "/login/"
                 then location_href w else "/login/"
       | Rejected _ =>
           localStorage run.2 = delete "authToken" (localStorage w)
           ∧ location_href run.2 = location_href w
       end).
Proof.
  cbv zeta.
  unfold AppUtils.checkAuthStatus, Main.getAuthToken, getItem, gets, bind,
    try_catch, Main.removeAuthToken, removeItem, navigate, update, ret.
  cbv beta iota.
  destruct (present (localStorage w !! "authToken")) eqn:Hp.
  2:{ repeat split; done. }
  rewrite !fetch_run. unfold verify_request.
  destruct (network w _) as [r|e]; cbn [settle]; simpl_world.
  - destruct (ok r); cbn [negb]; simpl_world.
    + repeat split; done.
    + destruct (String.eqb (pathname (location_href w)) "/login/");
        cbn [negb]; simpl_world; repeat split; try done;
        intros k Hk; rewrite lookup_delete; case_decide; congruence.
  - repeat split; try done.
    intros k Hk. rewrite lookup_delete. case_decide; congruence.
Qed.

(** ** Running a script step by step *)

Lemma bind_run {A B} (c : M A) (k : A → M B) w :
  bind c k w = match c w with
               | (Normal a, w1) => k a w1
               | (Throw e, w1) => (Throw e, w1)
               end.
Proof. done. Qed.

Lemma ret_run {A} (a : A) w : ret a w = (Normal a, w).
Proof. done. Qed.

Lemma throw_run {A} e w : @throw A e w = (Throw e, w).
Proof. done. Qed.

Lemma setItem_run k v w :
  setItem k v w = (Normal tt, with_localStorage (insert k v) w).
Proof. done. Qed.

Lemma navigate_run h w : navigate h w = (Normal tt, with_location_href h w).
Proof. done. Qed.

Lemma console_error_run l m w :
  console_error l m w = (Normal tt, with_console (fun c => c ++ [(l, m)]) w).
Proof. done. Qed.

Create Rewrite HintDb run.

#[local] Hint Rewrite @bind_run @ret_run @throw_run setItem_run navigate_run
  console_error_run showLoading_run hideLoading_run showToast_run fetch_run
  : run.

(** Runs the script of the equation [H] as far as its branches are
    decided. *)
Ltac run_in H :=
  repeat (progress (autorewrite with run in H; cbv beta iota zeta in H;
                    cbn [lift settle negb] in H; simpl_world_in H)).

(** ** Signing in *)

(** The requests of the login form are the ones the script hands to
    [fetch]. *)
Lemma session_request_sent formData :
  session_request formData
  = request_of "/auth/session-login/" (AuthForms.login_init formData).
Proof. reflexivity. Qed.

Lemma token_request_sent formData :
  token_request formData
  = request_of (AuthManager.baseUrl +:+ "/token/")
      (AuthForms.login_init formData).
Proof. reflexivity. Qed.

Lemma profile_request_sent access :
  profile_request access
  = request_of "/api/user/profile/" (AuthForms.profile_init access).
Proof. reflexivity. Qed.

Lemma spinner_hidden_clears es w :
  elements w = spinner_hidden es → showing "loading-spinner" w = false.
Proof.
  intros Hw. unfold showing. rewrite Hw. unfold spinner_hidden.
  destruct (es !! "loading-spinner") as [e|] eqn:He.
  - rewrite lookup_insert_eq. simpl. apply bool_decide_eq_false. set_solver.
  - by rewrite He.
Qed.

Section Forms.

Variable codec : Json.

(** X9.  Unless the session login is answered 2xx with a body that
    parses, [handleLogin] stops after that one request: nothing is stored,
    the page stays, the spinner ends hidden, and one error toast shows the
    message that is also logged; for a parsed body that message is its
    detail, else the text Login failed. *)
Theorem failed_login_changes_nothing (formData : LoginForm) (w : World) :
  session_accepted w formData = None →
  let run := AuthForms.handleLogin codec formData w in
  run.1 = Normal tt
  ∧ localStorage run.2 = localStorage w
  ∧ location_href run.2 = location_href w
  ∧ sent run.2 = sent w ++ [session_request formData]
  ∧ elements run.2 = spinner_hidden (spinner_shown (elements w))
  ∧ ∃ message,
      toasts run.2 = toasted (elements w) message "error" (toasts w)
      ∧ console run.2 = console w ++ [("Login error:", message)]
      ∧ ∀ r data detail,
          network w (sent w ++ [session_request formData]) = Resolved r →
          resp_json r = inr data → prop data "detail" = inr detail →
          message = to_string (js_or detail (JString "Login failed")).
Proof.
  intros Hacc. cbv zeta.
  destruct (AuthForms.handleLogin codec formData w) as [c wf] eqn:Hrun.
  unfold AuthForms.handleLogin, try_catch_finally, json in Hrun.
  unfold session_accepted in Hacc. rewrite ?session_request_sent in *.
  run_in Hrun.
  destruct (network w _) as [r|e] eqn:Hnet; run_in Hrun.
  - destruct (resp_json r) as [e|data] eqn:Hj; run_in Hrun.
    + injection Hrun as <- <-. simpl_world. rewrite toasted_spinner_shown.
      repeat split; try done. exists (err_message e). repeat split; try done.
      intros r' data detail [= <-]. congruence.
    + destruct (ok r); [done|]. run_in Hrun.
      destruct (prop data "detail") as [e|detail] eqn:Hd; run_in Hrun.
      * injection Hrun as <- <-. simpl_world. rewrite toasted_spinner_shown.
        repeat split; try done. exists (err_message e).
        repeat split; try done.
        intros r' data' detail [= <-]. congruence.
      * injection Hrun as <- <-. simpl_world. rewrite toasted_spinner_shown.
        repeat split; try done.
        exists (to_string (js_or detail (JString "Login failed"))).
        repeat split; try done.
        intros r' data' detail' [= <-]. congruence.
  - injection Hrun as <- <-. simpl_world. rewrite toasted_spinner_shown.
    repeat split; try done. exists (err_message e). repeat split; try done.
Qed.

(** X10.  A login the three endpoints accept: after the session login,
    the token request and the profile request, in this order, the access
    token and the refresh token are stored as the token response gave them,
    the profile is stored under userInfo when the profile response is a 2xx
    one (and left alone otherwise), the success toast is shown, nothing is
    logged, and the page goes to the admin dashboard when the session body
    has the role admin, to the citizen dashboard otherwise. *)
Theorem login_stores_session (formData : LoginForm) (w : World)
    (sessionData tokenData : Data) (tokenResponse userResponse : Response)
    (access refresh role : jsval) (userInfo : Data) :
  let requests := [session_request formData; token_request formData;
                   profile_request access] in
  session_accepted w formData = Some sessionData →
  prop sessionData "role" = inr role →
  network w (sent w ++ take 2 requests) = Resolved tokenResponse →
  ok tokenResponse = true →
  resp_json tokenResponse = inr tokenData →
  prop tokenData "access" = inr access →
  prop tokenData "refresh" = inr refresh →
  network w (sent w ++ requests) = Resolved userResponse →
  (ok userResponse = true → resp_json userResponse = inr userInfo) →
  let run := AuthForms.handleLogin codec formData w in
  run.1 = Normal tt
  ∧ localStorage run.2
    = (if ok userResponse then <["userInfo" := stringify codec userInfo]>
       else fun store => store)
        (tokens_kept access refresh (localStorage w))
  ∧ location_href run.2 = landing_page role
  ∧ sent run.2 = sent w ++ requests
  ∧ toasts run.2
    = toasted (elements w) "Login successful!" "success" (toasts w)
  ∧ console run.2 = console w.
Proof.
  intros requests Hacc Hrole Ht Htok Htj Ha Hr Hu Huj. subst requests.
  cbv zeta. cbn [take] in Ht.
  destruct (AuthForms.handleLogin codec formData w) as [c wf] eqn:Hrun.
  unfold AuthForms.handleLogin, try_catch_finally, json in Hrun.
  unfold session_accepted in Hacc.
  rewrite ?session_request_sent, ?token_request_sent, ?profile_request_sent in *.
  run_in Hrun.
  destruct (network w _) as [r|e] eqn:Hnet; [|done].
  destruct (ok r) eqn:Hok; [|done].
  destruct (resp_json r) as [e|data] eqn:Hj; [done|].
  injection Hacc as ->. run_in Hrun. rewrite Hj in Hrun. run_in Hrun.
  rewrite Hok in Hrun. run_in Hrun.
  rewrite <- !app_assoc in Hrun. cbn [app] in Hrun.
  rewrite Ht in Hrun. run_in Hrun. rewrite Htj in Hrun. run_in Hrun.
  rewrite Htok in Hrun. run_in Hrun. rewrite Ha in Hrun. run_in Hrun.
  rewrite Hr in Hrun. run_in Hrun.
  rewrite <- !app_assoc in Hrun. cbn [app] in Hrun.
  rewrite Hu in Hrun. run_in Hrun.
  destruct (ok userResponse) eqn:Huok.
  - rewrite Huj in Hrun by done. run_in Hrun. rewrite Hrole in Hrun.
    run_in Hrun. unfold landing_page, tokens_kept.
    destruct (is_string role "admin"); run_in Hrun;
      injection Hrun as <- <-; simpl_world; rewrite toasted_spinner_shown;
      rewrite <- !app_assoc; by repeat split.
  - run_in Hrun. rewrite Hrole in Hrun.
    run_in Hrun. unfold landing_page, tokens_kept.
    destruct (is_string role "admin"); run_in Hrun;
      injection Hrun as <- <-; simpl_world; rewrite toasted_spinner_shown;
      rewrite <- !app_assoc; by repeat split.
Qed.

(** X11.  When the profile request fails on the network after the
    tokens were issued, [handleLogin] has already stored both tokens: it
    shows the error and stays on the page, yet [isAuthenticated] now answers
    by the stored access token. *)
Theorem lost_profile_keeps_tokens (formData : LoginForm) (w : World)
    (sessionData tokenData : Data) (tokenResponse : Response)
    (access refresh : jsval) (e : JsError) :
  let requests := [session_request formData; token_request formData;
                   profile_request access] in
  session_accepted w formData = Some sessionData →
  network w (sent w ++ take 2 requests) = Resolved tokenResponse →
  ok tokenResponse = true →
  resp_json tokenResponse = inr tokenData →
  prop tokenData "access" = inr access →
  prop tokenData "refresh" = inr refresh →
  network w (sent w ++ requests) = Rejected e →
  let run := AuthForms.handleLogin codec formData w in
  run.1 = Normal tt
  ∧ localStorage run.2 = tokens_kept access refresh (localStorage w)
  ∧ location_href run.2 = location_href w
  ∧ toasts run.2 = toasted (elements w) (err_message e) "error" (toasts w)
  ∧ (AuthForms.isAuthenticated run.2).1 = Normal (nonempty (to_string access)).
Proof.
  intros requests Hacc Ht Htok Htj Ha Hr Hu. subst requests.
  cbv zeta. cbn [take] in Ht.
  destruct (AuthForms.handleLogin codec formData w) as [c wf] eqn:Hrun.
  unfold AuthForms.handleLogin, try_catch_finally, json in Hrun.
  unfold session_accepted in Hacc.
  rewrite ?session_request_sent, ?token_request_sent, ?profile_request_sent in *.
  run_in Hrun.
  destruct (network w _) as [r|e'] eqn:Hnet; [|done].
  destruct (ok r) eqn:Hok; [|done].
  destruct (resp_json r) as [e'|data] eqn:Hj; [done|].
  injection Hacc as ->. run_in Hrun. rewrite Hj in Hrun. run_in Hrun.
  rewrite Hok in Hrun. run_in Hrun.
  rewrite <- !app_assoc in Hrun. cbn [app] in Hrun.
  rewrite Ht in Hrun. run_in Hrun. rewrite Htj in Hrun. run_in Hrun.
  rewrite Htok in Hrun. run_in Hrun. rewrite Ha in Hrun. run_in Hrun.
  rewrite Hr in Hrun. run_in Hrun.
  rewrite <- !app_assoc in Hrun. cbn [app] in Hrun.
  rewrite Hu in Hrun. run_in Hrun.
  injection Hrun as <- <-. simpl_world. rewrite toasted_spinner_shown.
  unfold tokens_kept. repeat split; try done.
  unfold AuthForms.isAuthenticated, bind, getItem, gets, ret. simpl_world.
  rewrite lookup_insert_ne by done. by rewrite lookup_insert_eq.
Qed.

(** X12.  When the session login is accepted and the token endpoint
    answers outside 200-299, [handleLogin] never rejects, stores nothing and
    sends exactly the two credential requests.  The body of the token answer
    is parsed before its status is looked at: when it is not JSON, the
    message of the parse error is shown as an error toast and the page
    stays.  When it is JSON, the success toast is shown and the page goes to
    the dashboard of the role of the session body (the admin dashboard for
    the role admin, the citizen dashboard otherwise); with a null session
    body the read of the role throws after the success toast, an error toast
    follows it and the page stays. *)
Theorem login_with_refused_tokens (formData : LoginForm) (w : World)
    (sessionData : Data) (tokenResponse : Response) :
  session_accepted w formData = Some sessionData →
  network w (sent w ++ [session_request formData; token_request formData])
    = Resolved tokenResponse →
  ok tokenResponse = false →
  let run := AuthForms.handleLogin codec formData w in
  let welcomed :=
    toasted (elements w) "Login successful!" "success" (toasts w) in
  run.1 = Normal tt
  ∧ localStorage run.2 = localStorage w
  ∧ sent run.2 = sent w ++ [session_request formData; token_request formData]
  ∧ match resp_json tokenResponse, sessionData with
    | inl e, _ =>
        location_href run.2 = location_href w
        ∧ toasts run.2 = toasted (elements w) (err_message e) "error" (toasts w)
    | inr _, DNull =>
        location_href run.2 = location_href w
        ∧ toasts run.2
          = toasted (elements w)
              "Cannot read properties of null (reading 'role')" "error"
              welcomed
    | inr _, DObject fields =>
        location_href run.2
        = landing_page (default JUndefined (fields !! "role"))
        ∧ toasts run.2 = welcomed
    | inr _, _ =>
        location_href run.2 = "/citizen/dashboard/" ∧ toasts run.2 = welcomed
    end.
Proof.
  intros Hacc Ht Htok. cbv zeta.
  destruct (AuthForms.handleLogin codec formData w) as [c wf] eqn:Hrun.
  unfold AuthForms.handleLogin, try_catch_finally, json in Hrun.
  unfold session_accepted in Hacc.
  rewrite ?session_request_sent, ?token_request_sent in *.
  run_in Hrun.
  destruct (network w _) as [r|e'] eqn:Hnet; [|done].
  destruct (ok r) eqn:Hok; [|done].
  destruct (resp_json r) as [e'|data] eqn:Hj; [done|].
  injection Hacc as ->. run_in Hrun. rewrite Hj in Hrun. run_in Hrun.
  rewrite Hok in Hrun. run_in Hrun.
  rewrite <- !app_assoc in Hrun. cbn [app] in Hrun.
  rewrite Ht in Hrun. run_in Hrun.
  destruct (resp_json tokenResponse) as [e|tokenData] eqn:Htj; run_in Hrun.
  - injection Hrun as <- <-. simpl_world. rewrite toasted_spinner_shown.
    rewrite <- !app_assoc. by repeat split.
  - rewrite Htok in Hrun. run_in Hrun.
    destruct sessionData as [| |fields|items]; cbn [prop] in Hrun;
      run_in Hrun; cbn [is_string] in Hrun; try run_in Hrun.
    + injection Hrun as <- <-. simpl_world. rewrite !toasted_spinner_shown.
      rewrite <- !app_assoc. by repeat split.
    + injection Hrun as <- <-. simpl_world. rewrite !toasted_spinner_shown.
      rewrite <- !app_assoc. by repeat split.
    + unfold landing_page.
      destruct (is_string (default JUndefined (fields !! "role")) "admin");
        run_in Hrun; injection Hrun as <- <-; simpl_world;
        rewrite !toasted_spinner_shown; rewrite <- !app_assoc;
        by repeat split.
    + injection Hrun as <- <-. simpl_world. rewrite !toasted_spinner_shown.
      rewrite <- !app_assoc. by repeat split.
Qed.

(** X13.  Whatever the server does, [handleLogin] never rejects, ends
    with the spinner hidden, writes no key but authToken, refreshToken and
    userInfo, leaves the page where it is or goes to one of the two
    dashboards, and sends the session login followed by at most two more
    requests. *)
Theorem handleLogin_contained (formData : LoginForm) (w : World) :
  let run := AuthForms.handleLogin codec formData w in
  run.1 = Normal tt
  ∧ showing "loading-spinner" run.2 = false
  ∧ (∀ k, k ∉ ["authToken"; "refreshToken"; "userInfo"] →
          localStorage run.2 !! k = localStorage w !! k)
  ∧ location_href run.2
    ∈ [location_href w; "/admin/dashboard/"; "/citizen/dashboard/"]
  ∧ ∃ rest, sent run.2 = sent w ++ session_request formData :: rest
            ∧ (length rest ≤ 2)%nat.
Proof.
  cbv zeta.
  destruct (AuthForms.handleLogin codec formData w) as [c wf] eqn:Hrun.
  unfold AuthForms.handleLogin, try_catch_finally, json in Hrun.
  rewrite session_request_sent.
  repeat (run_in Hrun;
          match type of Hrun with
          | context [lift ?x] => destruct x
          | context [settle (network w ?l)] => destruct (network w l)
          | context [if ?b then _ else _] => destruct b
          end).
  all: run_in Hrun.
  all: injection Hrun as <- <-; simpl_world.
  all: split; [done|].
  all: split; [apply (spinner_hidden_clears (spinner_shown (elements w))); done|].
  all: split;
    [intros k Hk; rewrite ?lookup_insert_ne; [done|set_solver..]|].
  all: split; [set_solver|].
  all: rewrite <- ?app_assoc; cbn [app]; eexists; split; [reflexivity|].
  all: cbn [length]; lia.
Qed.

(** ** Registering *)

(** X14.  [handleRegister] never rejects, never writes to the store
    and never leaves the page itself.  When the two passwords differ it sends
    nothing, leaves the spinner alone and shows the mismatch toast; otherwise
    it sends exactly one request.  The redirect to the login page is only
    scheduled, 2000 ms ahead, and only when the passwords agree and the
    response is a 2xx one with a body that parses. *)
Theorem handleRegister_outcome (formData : RegisterForm) (w : World) :
  let run := AuthForms.handleRegister codec formData w in
  let redirect := {| delay := 2000; callback := navigate "/login/" |} in
  let agree :=
    String.eqb (reg_password formData) (reg_confirm_password formData) in
  run.1 = Normal (if registered w formData then [redirect] else [])
  ∧ localStorage run.2 = localStorage w
  ∧ location_href run.2 = location_href w
  ∧ sent run.2
    = (if agree then sent w ++ [register_request formData] else sent w)
  ∧ (registered w formData = true →
     toasts run.2
     = toasted (elements w) "Registration successful! Please log in."
         "success" (toasts w)
     ∧ location_href (callback redirect run.2).2 = "/login/")
  ∧ (agree = false →
     elements run.2 = elements w
     ∧ toasts run.2
       = toasted (elements w) "Passwords do not match" "error" (toasts w)).
Proof.
  cbv zeta.
  destruct (AuthForms.handleRegister codec formData w) as [c wf] eqn:Hrun.
  unfold AuthForms.handleRegister, try_catch_finally, json in Hrun.
  unfold registered, register_request.
  destruct (String.eqb (reg_password formData) (reg_confirm_password formData));
    run_in Hrun.
  2:{ injection Hrun as <- <-. by simpl_world. }
  destruct (network w _) as [r|e]; run_in Hrun.
  2:{ injection Hrun as <- <-. by simpl_world. }
  destruct (resp_json r) as [e|data]; run_in Hrun.
  { injection Hrun as <- <-. simpl_world. rewrite andb_false_r.
    by repeat split. }
  destruct (ok r); run_in Hrun.
  - injection Hrun as <- <-. simpl_world. rewrite toasted_spinner_shown.
    by repeat split.
  - destruct (joined_values codec data) as [e|listed]; run_in Hrun;
      injection Hrun as <- <-; by simpl_world.
Qed.

End Forms.

(** ** Validating a form *)

Lemma field_values_insert fields name field field' :
  fields !! name = Some field → field_value field' = field_value field →
  field_values (<[name := field']> fields) = field_values fields.
Proof.
  intros Hf Hv. unfold field_values. apply map_eq. intros k.
  rewrite !lookup_fmap. destruct (decide (k = name)) as [->|Hk].
  - rewrite lookup_insert_eq, Hf. simpl. by rewrite Hv.
  - by rewrite lookup_insert_ne.
Qed.

Lemma field_values_alter f fields name :
  (∀ field, field_value (f field) = field_value field) →
  field_values (alter f name fields) = field_values fields.
Proof.
  intros Hv. unfold field_values. apply map_eq. intros k.
  rewrite !lookup_fmap. destruct (decide (k = name)) as [->|Hk].
  - rewrite lookup_alter_eq. destruct (fields !! name); simpl; by rewrite ?Hv.
  - by rewrite lookup_alter_ne.
Qed.

Lemma field_values_lookup fields fields0 name :
  field_values fields = field_values fields0 →
  field_value <$> (fields !! name) = field_value <$> (fields0 !! name).
Proof.
  intros H. unfold field_values in H.
  by rewrite <- !lookup_fmap, H.
Qed.

(** One turn of the loop adds the messages of its entry, read on the form
    as submitted. *)
Lemma check_field_spec fields0 name rule st :
  field_values (AppUtils.form_fields st) = field_values fields0 →
  let st1 := AppUtils.check_field name rule st in
  field_values (AppUtils.form_fields st1) = field_values fields0
  ∧ AppUtils.errors st1 = AppUtils.errors st ++ field_errors fields0 (name, rule)
  ∧ AppUtils.isValid st1
    = AppUtils.isValid st && bool_decide (field_errors fields0 (name, rule) = [])
  ∧ ∀ k, k ≠ name → AppUtils.form_fields st1 !! k = AppUtils.form_fields st !! k.
Proof.
  intros Hv. cbv zeta. pose proof (field_values_lookup _ _ name Hv) as Hl.
  unfold AppUtils.check_field, field_errors. cbn [fst snd].
  destruct (AppUtils.form_fields st !! name) as [field|] eqn:Hf;
    destruct (fields0 !! name) as [field0|] eqn:Hf0; try done.
  2:{ rewrite app_nil_r, andb_true_r. by repeat split. }
  injection Hl as Hl. rewrite <- Hl.
  destruct (required rule && negb (nonempty (trim (field_value field))));
    destruct (pattern rule) as [test|];
    try destruct (nonempty (trim (field_value field))
                  && negb (test (trim (field_value field))));
    destruct (minLength rule) as [n|];
    try destruct (nonempty (trim (field_value field)) && (0 <? n)%nat
                  && (utf16_length (trim (field_value field)) <? n)%nat);
    cbn [AppUtils.form_fields AppUtils.errors AppUtils.isValid app];
    rewrite ?field_values_alter by done;
    (erewrite field_values_insert; [|exact Hf|done]);
    rewrite ?app_nil_r, ?andb_true_r, ?andb_false_r, <- ?app_assoc;
    (split; [done|]); (split; [done|]); (split; [done|]);
    intros k Hk; rewrite ?lookup_alter_ne by done;
    by rewrite lookup_insert_ne.
Qed.

(** The loop over the rules. *)
Lemma check_fields_spec fields0 rules st :
  field_values (AppUtils.form_fields st) = field_values fields0 →
  let st1 := fold_left (fun st entry =>
               AppUtils.check_field entry.1 entry.2 st) rules st in
  field_values (AppUtils.form_fields st1) = field_values fields0
  ∧ AppUtils.errors st1 = AppUtils.errors st ++ flat_map (field_errors fields0) rules
  ∧ AppUtils.isValid st1
    = AppUtils.isValid st && bool_decide (flat_map (field_errors fields0) rules = [])
  ∧ ∀ k, k ∉ rules.*1 → AppUtils.form_fields st1 !! k = AppUtils.form_fields st !! k.
Proof.
  revert st. induction rules as [|[name rule] rules IH]; intros st Hv; cbv zeta.
  - cbn. rewrite app_nil_r, andb_true_r. by repeat split.
  - cbn [fold_left flat_map fst snd].
    destruct (check_field_spec fields0 name rule st Hv) as (Hv1 & He1 & Hi1 & Hk1).
    destruct (IH _ Hv1) as (Hv2 & He2 & Hi2 & Hk2). cbv zeta in *.
    split; [done|]. split; [by rewrite He2, He1, <- app_assoc|]. split.
    + rewrite Hi2, Hi1, <- andb_assoc. f_equal.
      destruct (field_errors fields0 (name, rule)); [|done].
      by rewrite andb_true_l.
    + intros k Hk. rewrite fmap_cons in Hk. cbn in Hk.
      apply not_elem_of_cons in Hk as [Hn Hk]. by rewrite Hk2, Hk1.
Qed.

(** X16.  On an existing form [validateForm] returns true exactly when
    no check of a rule on a field of the form fails, the checks being read
    on the trimmed text the fields had at the call ([trim] removes the white
    space and the line terminators of Unicode): a required field is empty,
    a pattern does not match a non-empty text, or a non-empty text has fewer
    UTF-16 code units than a positive minimum length.  It changes no text,
    touches no field the rules do not name, and shows one toast, the message
    of the first failed check in the order of the rules, when there is
    one. *)
Theorem validateForm_verdict (fields : gmap string Field)
    (rules : list (string * Rule)) (w : World) :
  let run := AppUtils.validateForm (Some fields) rules w in
  let found := flat_map (field_errors fields) rules in
  ∃ marked,
    run.1 = Normal (bool_decide (found = []), Some marked)
    ∧ field_values marked = field_values fields
    ∧ (∀ k, k ∉ rules.*1 → marked !! k = fields !! k)
    ∧ run.2 = with_toasts (fun l =>
                match found with
                | [] => l
                | first :: _ => toasted (elements w) first "error" l
                end) w.
Proof.
  cbv zeta. unfold AppUtils.validateForm.
  set (st0 := {| AppUtils.form_fields := fields; AppUtils.errors := []; AppUtils.isValid := true |}).
  destruct (check_fields_spec fields rules st0 eq_refl) as (Hv & He & Hi & Hk).
  cbv zeta in *. cbn [AppUtils.errors AppUtils.isValid AppUtils.form_fields st0 app andb] in *.
  set (st1 := fold_left _ rules st0) in *.
  exists (AppUtils.form_fields st1). rewrite bind_run. rewrite Hi, He.
  destruct (flat_map (field_errors fields) rules) as [|first rest].
  - rewrite bool_decide_eq_true_2 by done. cbn [negb].
    rewrite ret_run, ret_run. cbn [fst snd].
    repeat split; try done. by rewrite with_toasts_id.
  - rewrite bool_decide_eq_false_2 by done. cbn [negb head default].
    rewrite showToast_run, ret_run. by cbn [fst snd].
Qed.

(** X17.  [validateForm] returns false without a toast when the form
    does not exist, and true without touching anything when none of the
    fields the rules name is in the form, required or not. *)
Theorem validateForm_skips_missing (rules : list (string * Rule)) (w : World) :
  AppUtils.validateForm None rules w = (Normal (false, None), w)
  ∧ ∀ fields,
      (∀ entry, entry ∈ rules → fields !! entry.1 = None) →
      AppUtils.validateForm (Some fields) rules w
      = (Normal (true, Some fields), w).
Proof.
  split; [done|]. intros fields Hmiss. unfold AppUtils.validateForm.
  assert (fold_left (fun st entry => AppUtils.check_field entry.1 entry.2 st)
            rules {| AppUtils.form_fields := fields; AppUtils.errors := []; AppUtils.isValid := true |}
          = {| AppUtils.form_fields := fields; AppUtils.errors := []; AppUtils.isValid := true |}) as ->.
  { induction rules as [|entry rules IH]; [done|]. cbn [fold_left].
    unfold AppUtils.check_field at 2. cbn [AppUtils.form_fields].
    rewrite (Hmiss entry) by set_solver. apply IH.
    intros e He. apply Hmiss. set_solver. }
  done.
Qed.

(** ** Picking a file *)


(** ** Relative times *)

(** X19.  [formatRelativeTime] by the time elapsed: under one minute
    (a date in the future included) and for an invalid date the text is Just
    now; from one minute it counts whole minutes, from one hour whole hours,
    from one day whole days, with the plural ending from 2 on. *)
Theorem formatRelativeTime_ranges (clock : Clock) (dateString : string) :
  AppUtils.formatRelativeTime clock dateString
  = match date_of clock dateString with
    | None => "Just now"
    | Some date =>
        let elapsed := now clock - date in
        if elapsed <? 60000 then "Just now"
        else if elapsed <? 3600000 then ago (elapsed / 60000) " minute"
        else if elapsed <? 86400000 then ago (elapsed / 3600000) " hour"
        else ago (elapsed / 86400000) " day"
    end.
Proof.
  unfold AppUtils.formatRelativeTime, ago, plural.
  destruct (date_of clock dateString) as [date|]; [|done]. cbv zeta.
  change (1000 * 60 * 60 * 24) with 86400000.
  change (1000 * 60 * 60) with 3600000. change (1000 * 60) with 60000.
  set (elapsed := now clock - date).
  destruct (Z.ltb_spec 0 (elapsed / 86400000));
    destruct (Z.ltb_spec 0 (elapsed / 3600000));
    destruct (Z.ltb_spec 0 (elapsed / 60000));
    destruct (Z.ltb_spec elapsed 60000);
    destruct (Z.ltb_spec elapsed 3600000);
    destruct (Z.ltb_spec elapsed 86400000);
    try done; exfalso; Z.to_euclidean_division_equations; lia.
Qed.

(** ** The views of the dashboard *)

Lemma gets_run {A} (f : World → A) w : gets f w = (Normal (f w), w).
Proof. done. Qed.

Lemma update_run f w : update f w = (Normal tt, f w).
Proof. done. Qed.

Lemma getElementById_run i w :
  getElementById i w = (Normal (elements w !! i), w).
Proof. done. Qed.

Lemma modify_element_run i f w e :
  elements w !! i = Some e →
  modify_element i f w = (Normal tt, with_elements (insert i (f e)) w).
Proof.
  intros H. unfold modify_element, update, with_elements. by rewrite H.
Qed.

#[local] Hint Rewrite @gets_run update_run getElementById_run : run.

(** Runs the script of the goal as far as its branches are decided. *)
Ltac run_goal :=
  repeat (progress (autorewrite with run; cbv beta iota zeta;
                    cbn [lift settle negb]; simpl_world)).

Lemma show_hide_element i w e :
  elements w !! i = Some e →
  (showing i w = true ↔ "hidden" ∉ classList e).
Proof. intros H. unfold showing. rewrite H. apply bool_decide_eq_true. Qed.

Lemma showing_removed i w e :
  elements w !! i = Some (classList_remove "hidden" e) → showing i w = true.
Proof.
  intros H. apply (show_hide_element _ _ _ H). cbn. set_unfold. tauto.
Qed.

Lemma showing_added i w e :
  elements w !! i = Some (classList_add "hidden" e) → showing i w = false.
Proof.
  intros H. unfold showing. rewrite H. apply bool_decide_eq_false.
  cbn. set_unfold. tauto.
Qed.

Section Views.

Variable host : Host.

(** X20.  With a list loaded and both elements on the page,
    [applyFilters] shows one of two views.  When no report passes the
    selectors the container is hidden with its markup left as it was and the
    empty-state element is shown; otherwise the container is shown with the
    fragments of the passing reports, in the order of the list, as its markup
    and the empty-state element is hidden. *)
Theorem applyFilters_view (w : World) (rs : list Report) (c n : Element) :
  reports (citizenDashboard w) = DArray rs →
  elements w !! "reports-container" = Some c →
  elements w !! "no-reports" = Some n →
  let run := CitizenDashboard.applyFilters host w in
  let shown := filter (admits (currentFilters (citizenDashboard w))) rs in
  let markup := innerHTML <$> elements run.2 !! "reports-container" in
  match shown with
  | [] =>
      showing "reports-container" run.2 = false
      ∧ showing "no-reports" run.2 = true
      ∧ markup = Some (innerHTML c)
  | _ :: _ =>
      showing "reports-container" run.2 = true
      ∧ showing "no-reports" run.2 = false
      ∧ markup = Some (join (map (CitizenDashboard.renderReportItem host) shown))
  end.
Proof.
  intros Hr Hc Hn. cbv zeta. rewrite (applyFilters_run host w rs) by done.
  rewrite filter_passes.
  set (shown := filter (admits (currentFilters (citizenDashboard w))) rs).
  destruct (CitizenDashboard.renderReports host _) as [r wf] eqn:Hrun.
  unfold CitizenDashboard.renderReports, CitizenDashboard.on_found in Hrun.
  run_in Hrun. rewrite Hc, Hn in Hrun. run_in Hrun.
  cbn [citizenDashboard with_dashboard filteredReports
       CitizenDashboard.set_filteredReports] in Hrun.
  destruct shown as [|r1 shown]; cbn [length Nat.eqb] in Hrun; run_in Hrun.
  - erewrite modify_element_run in Hrun by (simpl_world; exact Hc).
    run_in Hrun.
    erewrite modify_element_run in Hrun
      by (simpl_world; rewrite lookup_insert_ne by done; exact Hn).
    injection Hrun as <- <-. simpl_world. split; [|split].
    + eapply showing_added. simpl_world.
      rewrite lookup_insert_ne by done. apply lookup_insert_eq.
    + eapply showing_removed. simpl_world. apply lookup_insert_eq.
    + rewrite lookup_insert_ne by done. by rewrite lookup_insert_eq.
  - erewrite modify_element_run in Hrun by (simpl_world; exact Hn).
    run_in Hrun.
    erewrite modify_element_run in Hrun
      by (simpl_world; rewrite lookup_insert_ne by done; exact Hc).
    run_in Hrun.
    erewrite modify_element_run in Hrun
      by (simpl_world; apply lookup_insert_eq).
    injection Hrun as <- <-. simpl_world. split; [|split].
    + unfold showing. simpl_world. rewrite lookup_insert_eq.
      apply bool_decide_eq_true. cbn. set_unfold. tauto.
    + eapply showing_added. simpl_world.
      rewrite !lookup_insert_ne by done. apply lookup_insert_eq.
    + by rewrite lookup_insert_eq.
Qed.

(** ** The counts *)

Lemma count_status_cons code r rs :
  CitizenDashboard.count_status code (r :: rs)
  = ((if String.eqb (status r) code then 1 else 0)
     + CitizenDashboard.count_status code rs)%nat.
Proof.
  unfold CitizenDashboard.count_status. cbn [List.filter].
  by destruct (String.eqb (status r) code).
Qed.

Lemma count_status_length code rs :
  CitizenDashboard.count_status code rs
  = length (filter (λ r, status r = code) rs).
Proof.
  induction rs as [|r rs IH]; [done|].
  rewrite count_status_cons, filter_cons, IH.
  destruct (String.eqb_spec (status r) code); by case_decide.
Qed.

(** The three counts never add up to more than the total; what is missing
    are the reports in any other state. *)
Lemma counts_split rs :
  let stats := CitizenDashboard.computeStats rs in
  total stats
  = (submitted stats + in_progress stats + resolved stats
     + length (filter (λ r, status r ∉ ["submitted"; "in_progress"; "resolved"])
                 rs))%nat.
Proof.
  cbv zeta. unfold CitizenDashboard.computeStats. cbn [total submitted
    in_progress resolved].
  induction rs as [|r rs IH]; [done|].
  rewrite !count_status_cons, filter_cons. cbn [length]. rewrite IH.
  destruct (String.eqb_spec (status r) "submitted") as [E1|E1];
    destruct (String.eqb_spec (status r) "in_progress") as [E2|E2];
    destruct (String.eqb_spec (status r) "resolved") as [E3|E3];
    try congruence;
    case_decide as Hd; cbn [length]; try lia;
    exfalso; set_unfold; intuition congruence.
Qed.

(** X21.  With the four count elements on the page, [updateStats]
    writes the number of submitted, in-progress and resolved reports, and as
    the total their sum plus the number of reports in any other state: a
    rejected report counts in the total only. *)
Theorem updateStats_totals (w : World) (rs : list Report)
    (e1 e2 e3 e4 : Element) :
  reports (citizenDashboard w) = DArray rs →
  elements w !! "total-reports" = Some e1 →
  elements w !! "pending-reports" = Some e2 →
  elements w !! "in-progress-reports" = Some e3 →
  elements w !! "resolved-reports" = Some e4 →
  let run := CitizenDashboard.updateStats w in
  let text i := textContent <$> elements run.2 !! i in
  let others :=
    filter (λ r, status r ∉ ["submitted"; "in_progress"; "resolved"]) rs in
  ∃ pending started closed : nat,
    text "total-reports"
    = Some (show_nat (pending + started + closed + length others))
    ∧ text "pending-reports" = Some (show_nat pending)
    ∧ text "in-progress-reports" = Some (show_nat started)
    ∧ text "resolved-reports" = Some (show_nat closed)
    ∧ pending = length (filter (λ r, status r = "submitted") rs)
    ∧ started = length (filter (λ r, status r = "in_progress") rs)
    ∧ closed = length (filter (λ r, status r = "resolved") rs).
Proof.
  intros Hr H1 H2 H3 H4. cbv zeta.
  destruct (updateStats_writes w rs e1 e2 e3 e4 Hr H1 H2 H3 H4)
    as (_ & T1 & T2 & T3 & T4). cbv zeta in *.
  exists (submitted (CitizenDashboard.computeStats rs)),
    (in_progress (CitizenDashboard.computeStats rs)),
    (resolved (CitizenDashboard.computeStats rs)).
  rewrite T1, T2, T3, T4, (counts_split rs).
  repeat split; apply count_status_length.
Qed.

(** ** Loading the reports *)

Lemma getCookie_run name w :
  CitizenDashboard.getCookie host name w
  = ((CitizenDashboard.getCookie host name w).1, w).
Proof.
  unfold CitizenDashboard.getCookie. rewrite bind_run, gets_run.
  destruct (nonempty (cookie w)); [|done].
  by destruct (CitizenDashboard.find_cookie host name _).
Qed.

Lemma with_elements_twice f g w :
  with_elements f (with_elements g w) = with_elements (fun es => f (g es)) w.
Proof. done. Qed.

Lemma with_elements_ext f w es :
  f (elements w) = es → with_elements f w = with_elements (fun _ => es) w.
Proof. by intros <-. Qed.

Lemma with_elements_const f w :
  with_elements f w = with_elements (fun _ => f (elements w)) w.
Proof. done. Qed.

(** [renderReports] changes the page only, and there the container and the
    empty-state element only. *)
Lemma renderReports_frame w :
  ∃ es, CitizenDashboard.renderReports host w
        = (Normal tt, with_elements (fun _ => es) w)
        ∧ ∀ i, i ≠ "reports-container" → i ≠ "no-reports" →
               es !! i = elements w !! i.
Proof.
  destruct (renderReports_run host w) as (_ & _ & Hframe). cbv zeta in Hframe.
  exists (elements (CitizenDashboard.renderReports host w).2).
  split; [|done]. clear Hframe.
  unfold CitizenDashboard.renderReports, CitizenDashboard.on_found,
    modify_element.
  run_goal.
  destruct (elements w !! "reports-container") as [c|]; run_goal.
  2:{ by rewrite with_elements_id. }
  destruct (length (filteredReports (citizenDashboard w)) =? 0)%nat;
    destruct (elements w !! "no-reports") as [n|];
    run_goal; rewrite ?with_elements_twice; by rewrite with_elements_const.
Qed.

(** [showNoReports] hides the container and shows the empty-state
    element, where they exist. *)
Lemma showNoReports_frame w :
  ∃ es, CitizenDashboard.showNoReports w
        = (Normal tt, with_elements (fun _ => es) w)
        ∧ es !! "reports-container"
          = classList_add "hidden" <$> elements w !! "reports-container"
        ∧ es !! "no-reports"
          = classList_remove "hidden" <$> elements w !! "no-reports"
        ∧ ∀ i, i ≠ "reports-container" → i ≠ "no-reports" →
               es !! i = elements w !! i.
Proof.
  exists (elements (CitizenDashboard.showNoReports w).2).
  unfold CitizenDashboard.showNoReports, CitizenDashboard.on_found,
    modify_element.
  run_goal.
  destruct (elements w !! "reports-container") as [c|] eqn:Hc;
    destruct (elements w !! "no-reports") as [n|] eqn:Hn;
    run_goal; rewrite ?Hc, ?Hn; (rewrite ?lookup_insert_ne by done);
    rewrite ?Hn; rewrite ?with_elements_twice;
    (split; [first [ by rewrite with_elements_id
                   | f_equal; apply with_elements_ext; rewrite ?Hc;
                     (rewrite ?lookup_insert_ne by done); by rewrite ?Hn ]|]);
    rewrite ?lookup_insert_eq; (rewrite ?lookup_insert_ne by done);
    rewrite ?lookup_insert_eq, ?Hc, ?Hn;
    (split; [done|]); (split; [done|]); intros i H1 H2;
    (rewrite ?lookup_insert_ne by done); done.
Qed.

Lemma dashboard_hideLoading_run w :
  CitizenDashboard.hideLoading w
  = (Normal tt,
     with_elements (fun es =>
       match es !! "reports-loading" with
       | Some e => <["reports-loading" := classList_add "hidden" e]> es
       | None => es
       end) w).
Proof.
  unfold CitizenDashboard.hideLoading, CitizenDashboard.on_found,
    modify_element.
  autorewrite with run.
  destruct (elements w !! "reports-loading") as [e|] eqn:He;
    autorewrite with run; [done|].
  rewrite with_elements_id; [done|]. by rewrite He.
Qed.

Lemma toasted_ext es1 es2 message type l :
  es1 !! "toast-container" = es2 !! "toast-container" →
  toasted es1 message type l = toasted es2 message type l.
Proof. intros H. unfold toasted. by rewrite H. Qed.

(** The catch block of [loadReports] followed by its finaliser. *)
Lemma load_caught (b : M unit) w e w1 :
  b w = (Throw e, w1) →
  (∀ i, i ∉ count_ids → elements w1 !! i = elements w !! i) →
  toasts w1 = toasts w → console w1 = console w →
  let run :=
    try_catch_finally b
      (fun error =>
         console_error "Error loading reports:" (err_message error) ;;
         Main.showToast "Failed to load reports" "error" 5000 ;;
         CitizenDashboard.showNoReports)
      CitizenDashboard.hideLoading w in
  run.1 = Normal tt
  ∧ citizenDashboard run.2 = citizenDashboard w1
  ∧ sent run.2 = sent w1
  ∧ toasts run.2
    = toasted (elements w) "Failed to load reports" "error" (toasts w)
  ∧ console run.2
    = console w ++ [("Error loading reports:", err_message e)]
  ∧ showing "reports-loading" run.2 = false
  ∧ showing "reports-container" run.2 = false
  ∧ (is_Some (elements w !! "no-reports") → showing "no-reports" run.2 = true).
Proof.
  intros Hb He Ht Hc. cbv zeta. unfold try_catch_finally. rewrite Hb.
  autorewrite with run. cbv beta iota. simpl_world.
  destruct (showNoReports_frame
    (with_toasts (λ _, toasted (elements w1) "Failed to load reports" "error"
                         (toasts w1))
       (with_console (λ c, c ++ [("Error loading reports:", err_message e)]) w1)))
    as (es & -> & Hcont & Hnone & Hrest).
  simpl_world_in Hcont. simpl_world_in Hnone. simpl_world_in Hrest.
  rewrite dashboard_hideLoading_run. simpl_world.
  rewrite Ht, Hc. repeat split.
  - apply toasted_ext, He. unfold count_ids. set_unfold. intuition discriminate.
  - apply hide_element.
  - unfold showing. simpl_world. rewrite lookup_modified by done.
    rewrite Hcont, He by (unfold count_ids; set_unfold; intuition discriminate).
    destruct (elements w !! "reports-container"); [|done].
    apply bool_decide_eq_false. cbn. set_unfold. tauto.
  - intros [n Hn]. unfold showing. simpl_world.
    rewrite lookup_modified by done.
    rewrite Hnone, He, Hn by (unfold count_ids; set_unfold; intuition discriminate).
    apply bool_decide_eq_true. cbn. set_unfold. tauto.
Qed.

(** X22.  A load that fails before the body is read (the cookie does
    not decode, the network rejects, the response is outside 200-299, the
    body does not parse) never rejects: the dashboard instance keeps the
    reports and the filtered list it had, the toast always reads Failed to
    load reports while the log has the message of the error, the container
    ends hidden, the empty-state element shown and the loading element
    hidden. *)
Theorem failed_load_shows_empty_state (w : World) (e : JsError) :
  load_failure host w = Some e →
  let run := CitizenDashboard.loadReports host w in
  run.1 = Normal tt
  ∧ citizenDashboard run.2 = citizenDashboard w
  ∧ sent run.2 = sent w ++ load_requests host w
  ∧ toasts run.2
    = toasted (elements w) "Failed to load reports" "error" (toasts w)
  ∧ console run.2
    = console w ++ [("Error loading reports:", err_message e)]
  ∧ showing "reports-loading" run.2 = false
  ∧ showing "reports-container" run.2 = false
  ∧ (is_Some (elements w !! "no-reports") → showing "no-reports" run.2 = true).
Proof.
  intros Hfail. cbv zeta. unfold CitizenDashboard.loadReports.
  match goal with
  | |- context [try_catch_finally ?b _ _ w] =>
      assert (∃ w1, b w = (Throw e, w1)
                    ∧ elements w1 = elements w ∧ toasts w1 = toasts w
                    ∧ console w1 = console w
                    ∧ citizenDashboard w1 = citizenDashboard w
                    ∧ sent w1 = sent w ++ load_requests host w)
        as (w1 & Hb & He & Ht & Hc & Hd & Hs)
  end.
  { unfold load_failure, load_requests, reports_request in *.
    rewrite bind_run, getCookie_run.
    destruct (CitizenDashboard.getCookie host "csrftoken" w).1
      as [csrftoken|e1] eqn:Hcookie; cbv beta iota.
    2:{ injection Hfail as ->. exists w. by rewrite app_nil_r. }
    rewrite bind_run, fetch_run.
    destruct (network w _) as [r|e1] eqn:Hnet; cbn [settle]; cbv beta iota.
    2:{ injection Hfail as ->. by eexists. }
    destruct (ok r); cbn [negb].
    - unfold json. rewrite bind_run.
      destruct (resp_json r) as [e1|data]; [|done].
      injection Hfail as ->. by eexists.
    - injection Hfail as <-. by eexists. }
  destruct (load_caught _ w e w1 Hb) as (H1 & H2 & H3 & H4);
    [by intros; rewrite He|done..|].
  split; [done|]. split; [by rewrite H2|]. split; [by rewrite H3|]. done.
Qed.

(** The run of [loadReports] up to the assignment of [this.reports]. *)
Lemma load_stored w data (rest : M unit) :
  loaded_body host w = Some data →
  ∃ csrftoken r,
    (CitizenDashboard.getCookie host "csrftoken" w).1 = Normal csrftoken
    ∧ network w (sent w ++ [reports_request csrftoken]) = Resolved r
    ∧ ok r = true ∧ resp_json r = inr data
    ∧ (let* csrftoken := CitizenDashboard.getCookie host "csrftoken" in
       let* response :=
         fetch "/api/reports/user/"
           {| method := Some "GET";
              headers := Some {[ "X-CSRFToken" :=
                                   CitizenDashboard.header_value csrftoken ]};
              body := None |} in
       if negb (ok response) then throw (mkError "Failed to load reports")
       else
         let* data := json response in
         update (with_dashboard (CitizenDashboard.set_reports data)) ;;
         rest) w
      = rest (with_dashboard (CitizenDashboard.set_reports data)
                (with_sent (fun l => l ++ [reports_request csrftoken]) w)).
Proof.
  intros Hbody. unfold loaded_body in Hbody.
  destruct (CitizenDashboard.getCookie host "csrftoken" w).1
    as [csrftoken|e1] eqn:Hcookie; [|done].
  destruct (network w _) as [r|e1] eqn:Hnet; [|done].
  destruct (ok r) eqn:Hok; [|done].
  destruct (resp_json r) as [e1|data1] eqn:Hj; [done|].
  injection Hbody as ->. exists csrftoken, r. repeat split; try done.
  rewrite bind_run, getCookie_run, Hcookie. cbv beta iota.
  unfold reports_request in Hnet.
  rewrite bind_run, fetch_run, Hnet. cbn [settle]. cbv beta iota.
  rewrite Hok. cbn [negb]. unfold json. rewrite bind_run, Hj. cbn [lift].
  rewrite ret_run. cbv beta iota. rewrite bind_run, update_run. done.
Qed.

(** X23.  A 2xx body that is not an array is assigned to
    [this.reports] before anything checks it: the load ends in the failure
    toast with the container hidden, after logging the TypeError of
    [updateStats], and from then on every change of a selector throws the
    TypeError of [applyFilters].  For a body null the two errors name the
    property read, length and filter; for any other body both say that
    filter is not a function. *)
Theorem stored_non_array_breaks_filters (w : World) (data : Data) :
  loaded_body host w = Some data →
  (∀ rs, data ≠ DArray rs) →
  let run := CitizenDashboard.loadReports host w in
  run.1 = Normal tt
  ∧ reports (citizenDashboard run.2) = data
  ∧ toasts run.2
    = toasted (elements w) "Failed to load reports" "error" (toasts w)
  ∧ console run.2
    = console w ++ [("Error loading reports:",
                     err_message (misuse "length" data))]
  ∧ showing "reports-container" run.2 = false
  ∧ (∀ value,
       (CitizenDashboard.on_status_change host value run.2).1
       = Throw (misuse "filter" data)
       ∧ (CitizenDashboard.on_category_change host value run.2).1
         = Throw (misuse "filter" data)).
Proof.
  intros Hbody Hdata. cbv zeta. unfold CitizenDashboard.loadReports.
  assert (∀ reading, CitizenDashboard.reports_array reading data
                     = inl (misuse reading data)) as Harr.
  { intros reading. destruct data as [| |fields|rs]; try done.
    by destruct (Hdata rs). }
  destruct (load_stored w data
              (CitizenDashboard.updateStats ;; CitizenDashboard.applyFilters host)
              Hbody) as (csrftoken & r & _ & _ & _ & _ & Hrun).
  match goal with
  | |- context [try_catch_finally ?b ?h ?f w] =>
      destruct (load_caught b w (misuse "length" data)
        (with_dashboard (CitizenDashboard.set_reports data)
           (with_sent (fun l => l ++ [reports_request csrftoken]) w)))
        as (H1 & H2 & H3 & H4 & H5 & H6 & H7 & H8); [|done..|]
  end.
  { rewrite Hrun. unfold CitizenDashboard.updateStats.
    run_goal. cbn [reports CitizenDashboard.set_reports]. by rewrite Harr. }
  cbv zeta in *.
  destruct (try_catch_finally _ _ _ w) as [c wf].
  cbn [fst snd] in *. simpl_world_in H2.
  repeat split; try done.
  - by rewrite H2.
  - unfold CitizenDashboard.on_status_change, CitizenDashboard.applyFilters.
    run_goal. rewrite H2.
    cbn [reports CitizenDashboard.set_reports CitizenDashboard.set_status_filter].
    by rewrite Harr.
  - unfold CitizenDashboard.on_category_change, CitizenDashboard.applyFilters.
    run_goal. rewrite H2.
    cbn [reports CitizenDashboard.set_reports
         CitizenDashboard.set_category_filter].
    by rewrite Harr.
Qed.

(** With a list loaded and the four count elements on the page,
    [updateStats] changes their text and nothing else. *)
Lemma updateStats_run w rs e1 e2 e3 e4 :
  reports (citizenDashboard w) = DArray rs →
  elements w !! "total-reports" = Some e1 →
  elements w !! "pending-reports" = Some e2 →
  elements w !! "in-progress-reports" = Some e3 →
  elements w !! "resolved-reports" = Some e4 →
  ∃ es, CitizenDashboard.updateStats w
        = (Normal tt, with_elements (fun _ => es) w)
        ∧ textContent <$> es !! "total-reports" = Some (show_nat (length rs))
        ∧ ∀ i, i ∉ count_ids → es !! i = elements w !! i.
Proof.
  intros Hr H1 H2 H3 H4.
  set (stats := CitizenDashboard.computeStats rs).
  exists (<["resolved-reports" := set_textContent (show_nat (resolved stats)) e4]>
         (<["in-progress-reports" :=
              set_textContent (show_nat (in_progress stats)) e3]>
         (<["pending-reports" :=
              set_textContent (show_nat (submitted stats)) e2]>
         (<["total-reports" := set_textContent (show_nat (total stats)) e1]>
            (elements w))))).
  split; [|split].
  - unfold CitizenDashboard.updateStats. rewrite bind_run, gets_run.
    cbv beta iota. rewrite Hr. cbn [CitizenDashboard.reports_array].
    rewrite bind_run. cbn [lift]. rewrite ret_run. cbv beta iota zeta.
    rewrite bind_run. erewrite write_count_run by done. cbv beta iota.
    rewrite bind_run.
    erewrite write_count_run
      by (simpl_world; rewrite lookup_insert_ne by done; exact H2).
    cbv beta iota. rewrite bind_run.
    erewrite write_count_run
      by (simpl_world; rewrite !lookup_insert_ne by done; exact H3).
    cbv beta iota.
    erewrite write_count_run
      by (simpl_world; rewrite !lookup_insert_ne by done; exact H4).
    rewrite !with_elements_twice. by rewrite with_elements_const.
  - rewrite !lookup_insert_ne by done. by rewrite lookup_insert_eq.
  - intros i Hi. unfold count_ids in Hi.
    rewrite !lookup_insert_ne; [done|set_unfold; intuition congruence..].
Qed.

(** X24.  A load answered 2xx with an array, on a page with the four
    count elements: the array becomes [this.reports], the filtered list is
    the part of it the selectors in force admit (the selectors are kept), the
    total is written, nothing is shown as a toast or logged, one request is
    sent and the loading element ends hidden. *)
Theorem loadReports_shows_reports (w : World) (rs : list Report)
    (e1 e2 e3 e4 : Element) :
  loaded_body host w = Some (DArray rs) →
  elements w !! "total-reports" = Some e1 →
  elements w !! "pending-reports" = Some e2 →
  elements w !! "in-progress-reports" = Some e3 →
  elements w !! "resolved-reports" = Some e4 →
  let run := CitizenDashboard.loadReports host w in
  run.1 = Normal tt
  ∧ reports (citizenDashboard run.2) = DArray rs
  ∧ filteredReports (citizenDashboard run.2)
    = filter (admits (currentFilters (citizenDashboard w))) rs
  ∧ currentFilters (citizenDashboard run.2)
    = currentFilters (citizenDashboard w)
  ∧ textContent <$> elements run.2 !! "total-reports"
    = Some (show_nat (length rs))
  ∧ toasts run.2 = toasts w
  ∧ console run.2 = console w
  ∧ showing "reports-loading" run.2 = false
  ∧ sent run.2 = sent w ++ load_requests host w.
Proof.
  intros Hbody H1 H2 H3 H4. cbv zeta. unfold CitizenDashboard.loadReports.
  destruct (load_stored w (DArray rs)
              (CitizenDashboard.updateStats ;; CitizenDashboard.applyFilters host)
              Hbody) as (csrftoken & r & Hcookie & _ & _ & _ & Hrun).
  unfold load_requests. rewrite Hcookie.
  unfold try_catch_finally. rewrite Hrun. clear Hrun.
  set (w1 := with_dashboard _ _).
  destruct (updateStats_run w1 rs e1 e2 e3 e4) as (es & Hstats & Htotal & Hes);
    [done..|].
  rewrite bind_run, Hstats. cbv beta iota.
  erewrite applyFilters_run by (subst w1; simpl_world; reflexivity).
  destruct (renderReports_frame
    (with_dashboard
       (CitizenDashboard.set_filteredReports
          (List.filter
             (CitizenDashboard.passes
                (currentFilters
                   (citizenDashboard (with_elements (λ _, es) w1))))
             rs))
       (with_elements (λ _, es) w1))) as (es2 & -> & Hes2).
  rewrite dashboard_hideLoading_run. subst w1. simpl_world.
  simpl_world_in Hes2.
  cbn [reports filteredReports currentFilters
       CitizenDashboard.set_filteredReports CitizenDashboard.set_reports].
  repeat split; try done.
  - apply filter_passes.
  - rewrite lookup_modified by done. rewrite Hes2 by done. exact Htotal.
  - apply hide_element.
Qed.

(** The lookups of a count element past the writes of the others. *)
Ltac count_lookups :=
  rewrite ?(lookup_insert_ne _ "total-reports" "pending-reports"),
    ?(lookup_insert_ne _ "total-reports" "in-progress-reports"),
    ?(lookup_insert_ne _ "total-reports" "resolved-reports"),
    ?(lookup_insert_ne _ "pending-reports" "in-progress-reports"),
    ?(lookup_insert_ne _ "pending-reports" "resolved-reports"),
    ?(lookup_insert_ne _ "in-progress-reports" "resolved-reports") by done.

Ltac count_steps :=
  repeat (progress (run_goal; count_lookups;
                    repeat match goal with
                           | H : elements _ !! _ = _ |- _ => rewrite H
                           end;
                    rewrite ?with_elements_twice)).

Ltac count_ext :=
  f_equal; apply with_elements_ext; cbv beta;
  repeat (count_lookups;
          repeat match goal with
                 | H : elements _ !! _ = _ |- _ => rewrite H
                 end);
  done.

(** Without one of the count elements [updateStats] throws; the counts
    before the missing element are written by then. *)
Lemma updateStats_partial w rs i :
  reports (citizenDashboard w) = DArray rs →
  i ∈ count_ids → elements w !! i = None →
  ∃ es, CitizenDashboard.updateStats w
        = (Throw (mkTypeError
                    "Cannot set properties of null (setting 'textContent')"),
           with_elements (fun _ => es) w)
        ∧ ∀ j, j ∉ count_ids → es !! j = elements w !! j.
Proof.
  intros Hr Hi Hnone. exists (elements (CitizenDashboard.updateStats w).2).
  unfold CitizenDashboard.updateStats, CitizenDashboard.write_count,
    modify_element.
  rewrite bind_run, gets_run. cbv beta iota. rewrite Hr.
  cbn [CitizenDashboard.reports_array lift]. run_goal.
  unfold count_ids in *.
  destruct (elements w !! "total-reports") as [e1|] eqn:H1; count_steps.
  2:{ split; [by rewrite with_elements_id|done]. }
  destruct (elements w !! "pending-reports") as [e2|] eqn:H2; count_steps.
  2:{ split; [count_ext|].
      intros j Hj. rewrite lookup_insert_ne; [done|set_unfold; intuition congruence]. }
  destruct (elements w !! "in-progress-reports") as [e3|] eqn:H3; count_steps.
  2:{ split; [count_ext|]. intros j Hj.
      rewrite !lookup_insert_ne; [done|set_unfold; intuition congruence..]. }
  destruct (elements w !! "resolved-reports") as [e4|] eqn:H4; count_steps.
  { exfalso. set_unfold. intuition congruence. }
  split; [count_ext|]. intros j Hj.
  rewrite !lookup_insert_ne; [done|set_unfold; intuition congruence..].
Qed.

(** X25.  When one of the four count elements is missing, a load that
    received its array still ends as a failure: the array is stored, but the
    filtered list is the old one, the failure toast is shown and the
    container ends hidden. *)
Theorem missing_counter_fails_load (w : World) (rs : list Report)
    (i : string) :
  loaded_body host w = Some (DArray rs) →
  i ∈ count_ids → elements w !! i = None →
  let run := CitizenDashboard.loadReports host w in
  run.1 = Normal tt
  ∧ reports (citizenDashboard run.2) = DArray rs
  ∧ filteredReports (citizenDashboard run.2)
    = filteredReports (citizenDashboard w)
  ∧ toasts run.2
    = toasted (elements w) "Failed to load reports" "error" (toasts w)
  ∧ showing "reports-container" run.2 = false
  ∧ (is_Some (elements w !! "no-reports") → showing "no-reports" run.2 = true).
Proof.
  intros Hbody Hi Hnone. cbv zeta. unfold CitizenDashboard.loadReports.
  destruct (load_stored w (DArray rs)
              (CitizenDashboard.updateStats ;; CitizenDashboard.applyFilters host)
              Hbody) as (csrftoken & r & _ & _ & _ & _ & Hrun).
  set (w1 := with_dashboard (CitizenDashboard.set_reports (DArray rs))
               (with_sent (fun l => l ++ [reports_request csrftoken]) w))
    in *.
  destruct (updateStats_partial w1 rs i) as (es & Hstats & Hes); [done..|].
  match goal with
  | |- context [try_catch_finally ?b ?h ?f w] =>
      destruct (load_caught b w (mkTypeError
                    "Cannot set properties of null (setting 'textContent')")
                  (with_elements (fun _ => es) w1))
        as (H1 & H2 & H3 & H4 & H5 & H6 & H7 & H8); [| |done..|]
  end.
  { rewrite Hrun, bind_run, Hstats. done. }
  { intros j Hj. simpl_world. by rewrite Hes. }
  cbv zeta in *. rewrite H2. by repeat split.
Qed.

(** ** What the fragment carries *)




(** ** Reading a cookie *)

Lemma split_piece sep a b :
  occurs sep a = false →
  split sep (a +:+ String sep b) = a :: split sep b.
Proof.
  induction a as [|x a IH]; intros Ha.
  - change (EmptyString +:+ String sep b) with (String sep b).
    cbn [split]. by rewrite Ascii.eqb_refl.
  - cbn in Ha. apply orb_false_iff in Ha as [Hx Ha].
    rewrite app_cons. cbn [split]. rewrite Hx, IH by done. done.
Qed.

Lemma split_single sep a : occurs sep a = false → split sep a = [a].
Proof.
  induction a as [|x a IH]; intros Ha; [done|].
  cbn in Ha. apply orb_false_iff in Ha as [Hx Ha].
  cbn [split]. by rewrite Hx, IH.
Qed.

Lemma split_cookie_string pieces :
  pieces ≠ [] → Forall (λ piece, occurs ";" piece = false) pieces →
  split ";" (cookie_string pieces) = pieces.
Proof.
  induction pieces as [|piece pieces IH]; intros Hne Hall; [done|].
  apply Forall_cons in Hall as [Hp Hall].
  destruct pieces as [|next pieces]; [by apply split_single|].
  change (cookie_string (piece :: next :: pieces))
    with (piece +:+ String ";" (cookie_string (next :: pieces))).
  rewrite split_piece by done. by rewrite IH.
Qed.

Lemma length_app_s (a b : string) :
  String.length (a +:+ b) = (String.length a + String.length b)%nat.
Proof. induction a as [|x a IH]; [done|]. rewrite app_cons. cbn. by rewrite IH. Qed.

Lemma substring_all n s :
  (String.length s ≤ n)%nat → substring 0 n s = s.
Proof.
  revert n. induction s as [|x s IH]; intros n Hn; [by destruct n|].
  destruct n as [|n]; cbn in *; [lia|]. rewrite IH; [done|lia].
Qed.

Lemma substring_prefix p v : substring 0 (String.length p) (p +:+ v) = p.
Proof. induction p as [|x p IH]; [by destruct v|]. rewrite app_cons. cbn. by rewrite IH. Qed.

Lemma substring_skip p v n :
  substring (String.length p) n (p +:+ v) = substring 0 n v.
Proof. induction p as [|x p IH]; [done|]. rewrite app_cons. cbn. apply IH. Qed.

Lemma substring_from_prefix p v :
  substring_from (String.length p) (p +:+ v) = v.
Proof.
  unfold substring_from. rewrite substring_skip, length_app_s.
  apply substring_all. lia.
Qed.

Lemma prefix_found p s :
  String.eqb (substring 0 (String.length p) s) p = true →
  ∃ rest, s = p +:+ rest.
Proof.
  revert s. induction p as [|x p IH]; intros s H.
  - by exists s.
  - destruct s as [|y s]; [done|]. cbn in H.
    destruct (Ascii.eqb_spec y x) as [->|]; [|done].
    destruct (IH s H) as [rest ->].
    exists rest. by rewrite app_cons.
Qed.

(** The loop of [getCookie] stops at the first pair of the name. *)
Lemma find_cookie_first name value before piece after :
  Forall (λ piece, ¬ names name piece) before →
  trim piece = name +:+ "=" +:+ value →
  CitizenDashboard.find_cookie host name (before ++ piece :: after)
  = match decodeURIComponent host value with
    | inl e => inl e
    | inr v => inr (Some v)
    end.
Proof.
  intros Hbefore Hpiece.
  assert (String.length name + 1 = String.length (name +:+ "="))%nat as Hlen.
  { by rewrite length_app_s. }
  induction before as [|c before IH]; cbn [app CitizenDashboard.find_cookie].
  - rewrite Hpiece, Hlen, <- app_assoc_s, substring_prefix, String.eqb_refl.
    by rewrite substring_from_prefix.
  - apply Forall_cons in Hbefore as [Hc Hbefore].
    destruct (String.eqb _ _) eqn:Heq; [|by apply IH].
    rewrite Hlen in Heq. apply prefix_found in Heq as [rest Hrest].
    exfalso. apply Hc. exists rest. by rewrite Hrest, app_assoc_s.
Qed.

Lemma find_cookie_none name pieces :
  Forall (λ piece, ¬ names name piece) pieces →
  CitizenDashboard.find_cookie host name pieces = inr None.
Proof.
  assert (String.length name + 1 = String.length (name +:+ "="))%nat as Hlen.
  { by rewrite length_app_s. }
  induction pieces as [|c pieces IH]; intros Hall; [done|].
  apply Forall_cons in Hall as [Hc Hall]. cbn [CitizenDashboard.find_cookie].
  destruct (String.eqb _ _) eqn:Heq; [|by apply IH].
  rewrite Hlen in Heq. apply prefix_found in Heq as [rest Hrest].
  exfalso. apply Hc. exists rest. by rewrite Hrest, app_assoc_s.
Qed.

(** X27.  [getCookie] returns the decoded value of the first cookie
    that, white space aside, starts with the name and an equals sign: the
    cookies before it are skipped, the cookies after it are never looked at,
    and a value that does not decode makes the call throw. *)
Theorem getCookie_first_pair (w : World) (name value piece : string)
    (before after : list string) :
  cookie w = cookie_string (before ++ piece :: after) →
  Forall (λ piece, occurs ";" piece = false) (before ++ piece :: after) →
  Forall (λ piece, ¬ names name piece) before →
  trim piece = name +:+ "=" +:+ value →
  CitizenDashboard.getCookie host name w
  = (match decodeURIComponent host value with
     | inl e => Throw e
     | inr v => Normal (Some v)
     end, w).
Proof.
  intros Hcookie Hsemi Hbefore Hpiece.
  unfold CitizenDashboard.getCookie. rewrite bind_run, gets_run.
  cbv beta iota. rewrite Hcookie.
  assert (nonempty (cookie_string (before ++ piece :: after)) = true) as ->.
  { destruct before as [|c before]; cbn [app].
    - destruct piece as [|x piece].
      + exfalso. cbn in Hpiece. by destruct name.
      + by destruct after.
    - destruct (before ++ piece :: after) eqn:Hl; [by destruct before|].
      cbn [cookie_string]. by destruct c. }
  rewrite split_cookie_string by (done || by destruct before).
  rewrite (find_cookie_first name value) by done.
  by destruct (decodeURIComponent host value).
Qed.

(** ** The requests of a load *)

Lemma silent_on_found el i f : silent (CitizenDashboard.on_found el i f).
Proof. destruct el; cbn; auto with silent. Qed.

Lemma silent_write_count i n : silent (CitizenDashboard.write_count i n).
Proof.
  unfold CitizenDashboard.write_count. apply silent_bind; [auto with silent|].
  intros [e|]; auto with silent.
Qed.

Lemma silent_updateStats : silent CitizenDashboard.updateStats.
Proof.
  unfold CitizenDashboard.updateStats.
  repeat first [ apply silent_write_count
               | apply silent_bind; [auto with silent|intros] ].
Qed.

Lemma silent_renderReports : silent (CitizenDashboard.renderReports host).
Proof.
  unfold CitizenDashboard.renderReports.
  apply silent_bind; [auto with silent|]. intros container.
  apply silent_bind; [auto with silent|]. intros noReportsEl.
  destruct container; [|auto with silent].
  apply silent_bind; [auto with silent|]. intros shown.
  destruct (length shown =? 0)%nat;
    repeat (apply silent_bind; [auto using silent_on_found with silent|intros]);
    auto using silent_on_found with silent.
Qed.

Lemma silent_applyFilters : silent (CitizenDashboard.applyFilters host).
Proof.
  unfold CitizenDashboard.applyFilters.
  repeat first [ apply silent_renderReports
               | by apply silent_update
               | apply silent_bind; [auto with silent|intros] ].
Qed.

Lemma silent_showNoReports : silent CitizenDashboard.showNoReports.
Proof.
  unfold CitizenDashboard.showNoReports.
  repeat (apply silent_bind; [auto using silent_on_found with silent|intros]).
  apply silent_on_found.
Qed.

Lemma silent_dashboard_hideLoading : silent CitizenDashboard.hideLoading.
Proof.
  unfold CitizenDashboard.hideLoading.
  apply silent_bind; [auto with silent|]. intros el. apply silent_on_found.
Qed.

(** Whatever comes back, a load sends its one request, or none when the
    cookie does not decode. *)
Lemma load_sent w :
  sent (CitizenDashboard.loadReports host w).2 = sent w ++ load_requests host w.
Proof.
  unfold CitizenDashboard.loadReports.
  rewrite silent_try_catch_finally.
  2:{ intros e.
      repeat first [ apply silent_showNoReports
                   | apply silent_bind; [auto with silent|intros] ]. }
  2:{ apply silent_dashboard_hideLoading. }
  unfold load_requests. rewrite bind_run, getCookie_run.
  destruct (CitizenDashboard.getCookie host "csrftoken" w).1
    as [csrftoken|e]; cbv beta iota.
  2:{ by rewrite app_nil_r. }
  rewrite bind_run, fetch_run.
  change (request_of _ _) with (reports_request csrftoken).
  destruct (network w _) as [r|e]; cbn [settle]; cbv beta iota; [|done].
  assert (∀ k : M unit, silent k →
            sent (k (with_sent (λ l, l ++ [reports_request csrftoken]) w)).2
            = sent w ++ [reports_request csrftoken]) as Hk.
  { intros k Hk. by rewrite Hk. }
  apply Hk. destruct (negb (ok r)); [auto with silent|].
  repeat first [ apply silent_updateStats
               | apply silent_applyFilters
               | by apply silent_update
               | apply silent_bind; [auto with silent|intros] ].
Qed.

(** X28.  Whatever the server answers, [loadReports] sends exactly one
    request, a GET of /api/reports/user/ without a body whose only header is
    X-CSRFToken with the value of the csrftoken cookie, or the text null
    when there is no such cookie; when the cookie does not decode it sends
    nothing. *)
Theorem loadReports_sends_once (w : World) :
  let run := CitizenDashboard.loadReports host w in
  let csrftoken := (CitizenDashboard.getCookie host "csrftoken" w).1 in
  ∃ requests,
    sent run.2 = sent w ++ requests
    ∧ match csrftoken with
      | Throw _ => requests = []
      | Normal value =>
          ∃ request,
            requests = [request]
            ∧ req_url request = "/api/reports/user/"
            ∧ req_method request = Some "GET"
            ∧ req_body request = None
            ∧ req_headers request
              = {[ "X-CSRFToken" := default "null" value ]}
      end.
Proof.
  cbv zeta. exists (load_requests host w). split; [apply load_sent|].
  unfold load_requests.
  destruct (CitizenDashboard.getCookie host "csrftoken" w).1
    as [csrftoken|e]; [|done].
  by exists (reports_request csrftoken).
Qed.

(** X29.  On a page whose cookies do not include csrftoken,
    [getCookie] returns null for it and the load still sends its request,
    with the text null as the CSRF token. *)
Theorem absent_cookie_sends_null (w : World) (pieces : list string) :
  cookie w = cookie_string pieces →
  Forall (λ piece, occurs ";" piece = false) pieces →
  Forall (λ piece, ¬ names "csrftoken" piece) pieces →
  let run := CitizenDashboard.loadReports host w in
  CitizenDashboard.getCookie host "csrftoken" w = (Normal None, w)
  ∧ ∃ request,
      sent run.2 = sent w ++ [request]
      ∧ req_headers request !! "X-CSRFToken" = Some "null".
Proof.
  intros Hcookie Hsemi Hnone. cbv zeta.
  assert (CitizenDashboard.getCookie host "csrftoken" w = (Normal None, w))
    as Hget.
  { unfold CitizenDashboard.getCookie. rewrite bind_run, gets_run.
    cbv beta iota. destruct (nonempty (cookie w)) eqn:Hne; [|done].
    rewrite Hcookie, split_cookie_string;
      [|by destruct pieces; [rewrite Hcookie in Hne|]|done].
    by rewrite find_cookie_none. }
  split; [done|]. exists (reports_request None).
  rewrite load_sent. unfold load_requests. by rewrite Hget.
Qed.

End Views.

(** ** Runs on the sample pages *)

(** With a fresh token the report list is returned as the server sent it,
    after one request. *)
Lemma other_outcomes_pass_through_witness :
  let run := AuthManager.makeAuthenticatedRequest "/api/reports/user/"
               no_options dashboard_page in
  (∃ r, run.1 = Normal (Some r) ∧ resp_status r = 200)
  ∧ localStorage run.2 = full_store
  ∧ length (sent run.2) = 1%nat.
Proof.
  destruct (other_outcomes_pass_through dashboard_page "stale"
              "/api/reports/user/" no_options) as (H1 & H2 & _ & H4).
  - reflexivity.
  - reflexivity.
  - intros r Hr. vm_compute in Hr. injection Hr as <-. discriminate.
  - cbv zeta. rewrite H1, H2, H4. split; [|split; reflexivity].
    eexists. split; reflexivity.
Defined.

(** On the expired session the refresh stores the token fresh after its one
    request; on the session without a refresh token it logs out and sends
    nothing. *)
Lemma refreshToken_result_witness :
  ((AuthManager.refreshToken expired_session).1 = Normal (JString "fresh")
   ∧ localStorage (AuthManager.refreshToken expired_session).2
     = <["authToken" := "fresh"]> full_store
   ∧ map req_url (sent (AuthManager.refreshToken expired_session).2)
     = ["/api/auth/token/refresh/"])
  ∧ ((AuthManager.refreshToken orphan_session).1 = Normal JNull
     ∧ sent (AuthManager.refreshToken orphan_session).2 = []
     ∧ localStorage (AuthManager.refreshToken orphan_session).2 = ∅
     ∧ location_href (AuthManager.refreshToken orphan_session).2 = "/login/").
Proof.
  split.
  - pose proof (refreshToken_result expired_session) as H. cbv zeta in H.
    destruct H as [_ H].
    destruct (H "r1" eq_refl ltac:(done)) as (Hsent & _ & Hv & Hstore).
    split; [exact Hv|]. split; [exact Hstore|]. by rewrite Hsent.
  - pose proof (refreshToken_result orphan_session) as H. cbv zeta in H.
    destruct H as [H _].
    destruct (H eq_refl) as (Hv & Hsent & Hstore & Hloc).
    split; [exact Hv|]. split; [exact Hsent|]. split; [|exact Hloc].
    rewrite Hstore. apply map_eq. intros k. by vm_compute.
Defined.

(** A 401 on the dashboard: the token is dropped and the page leaves for
    the login page without a toast. *)
Lemma apiCall_unauthorized_witness :
  let w := dashboard_with (fixed_server unauthorized) session_cookies
             dashboard_elements in
  let run := Main.apiCall "/reports/" no_options w in
  run.1 = Normal None
  ∧ localStorage run.2 !! "authToken" = None
  ∧ localStorage run.2 !! "refreshToken" = Some "r1"
  ∧ location_href run.2 = "/login/"
  ∧ toasts run.2 = [].
Proof.
  destruct (apiCall_unauthorized
              (dashboard_with (fixed_server unauthorized) session_cookies
                 dashboard_elements)
              "/reports/" no_options unauthorized)
    as (H1 & H2 & H3 & H4 & _); [reflexivity..|].
  cbv zeta. rewrite H1, H2, H3, H4. repeat split; vm_compute; reflexivity.
Defined.

(** A 500 with a message: the message is thrown and shown. *)
Lemma apiCall_error_response_witness :
  let w := dashboard_with (fixed_server server_error) session_cookies
             dashboard_elements in
  let run := Main.apiCall "/reports/" no_options w in
  run.1 = Throw (mkError "Server down")
  ∧ toast_message <$> toasts run.2 = ["Server down"]
  ∧ localStorage run.2 = full_store.
Proof.
  destruct (apiCall_error_response
              (dashboard_with (fixed_server server_error) session_cookies
                 dashboard_elements)
              "/reports/" no_options server_error
              (DObject {[ "message" := JString "Server down" ]})
              JUndefined (JString "Server down"))
    as (H1 & H2 & _ & H4 & _); [try reflexivity; try discriminate..|].
  cbv zeta. rewrite H1, H2, H4. repeat split; vm_compute; reflexivity.
Defined.

(** The report list through [apiCall]: the parsed body comes back and
    nothing is shown. *)
Lemma apiCall_success_witness :
  let run := Main.apiCall "/reports/user/" no_options dashboard_page in
  run.1 = Normal (Some (DArray [pothole_report; trash_report]))
  ∧ toasts run.2 = []
  ∧ length (sent run.2) = 1%nat.
Proof.
  destruct (apiCall_success dashboard_page "/reports/user/" no_options
              {| resp_status := 200;
                 resp_json := inr (DArray [pothole_report; trash_report]) |}
              (DArray [pothole_report; trash_report]))
    as (H1 & H2 & _ & _ & _ & H6); [reflexivity..|].
  cbv zeta. rewrite H1, H2, H6. repeat split; reflexivity.
Defined.

(** A request the network rejects: the error is rethrown after its
    toast. *)
Lemma apiCall_rethrows_failures_witness :
  let run := Main.apiCall "/reports/" no_options dashboard_page in
  run.1 = Throw (mkTypeError "Failed to fetch")
  ∧ toast_message <$> toasts run.2 = ["Failed to fetch"].
Proof.
  destruct (apiCall_rethrows_failures dashboard_page "/reports/" no_options
              (mkTypeError "Failed to fetch")) as (H1 & H2 & _).
  - left. reflexivity.
  - cbv zeta. rewrite H1, H2. split; vm_compute; reflexivity.
Defined.

(** A session login answered 401: the detail of the body is shown, the
    store stays empty and the page stays. *)
Lemma failed_login_changes_nothing_witness :
  let run := AuthForms.handleLogin sample_codec asha_login
               (login_page (fixed_server unauthorized)) in
  run.1 = Normal tt
  ∧ localStorage run.2 = ∅
  ∧ location_href run.2 = "/login/"
  ∧ toast_message <$> toasts run.2 = ["Token expired"].
Proof.
  destruct (failed_login_changes_nothing sample_codec asha_login
              (login_page (fixed_server unauthorized)))
    as (H1 & H2 & H3 & _ & _ & message & H6 & _ & H8); [reflexivity|].
  cbv zeta. rewrite H1, H2, H3, H6.
  rewrite (H8 unauthorized (DObject {[ "detail" := JString "Token expired" ]})
             (JString "Token expired")) by reflexivity.
  repeat split; vm_compute; reflexivity.
Defined.

(** A full login of an administrator: three requests, the three entries
    stored, the admin dashboard next. *)
Lemma login_stores_session_witness :
  let run := AuthForms.handleLogin sample_codec asha_login
               (login_page (auth_server tokens_issued (Resolved profile_sent))) in
  localStorage run.2 !! "authToken" = Some "a1"
  ∧ localStorage run.2 !! "refreshToken" = Some "r1"
  ∧ localStorage run.2 !! "userInfo"
    = Some ("{" +:+ dq +:+ "username" +:+ dq +:+ ":" +:+ dq +:+ "asha" +:+ dq
            +:+ "}")
  ∧ location_href run.2 = "/admin/dashboard/"
  ∧ req_url <$> sent run.2
    = ["/auth/session-login/"; "/api/auth/token/"; "/api/user/profile/"].
Proof.
  destruct (login_stores_session sample_codec asha_login
              (login_page (auth_server tokens_issued (Resolved profile_sent)))
              (DObject {[ "role" := JString "admin" ]}) token_pair
              {| resp_status := 200; resp_json := inr token_pair |}
              profile_sent (JString "a1") (JString "r1") (JString "admin")
              (DObject {[ "username" := JString "asha" ]}))
    as (_ & H2 & H3 & H4 & _); [reflexivity..|].
  cbv zeta. rewrite H2, H3, H4. repeat split; vm_compute; reflexivity.
Defined.

(** The profile request lost on the network: both tokens stay stored, the
    error is shown and the page stays on the login form. *)
Lemma lost_profile_keeps_tokens_witness :
  let run := AuthForms.handleLogin sample_codec asha_login
               (login_page (auth_server tokens_issued
                              (Rejected (mkTypeError "Failed to fetch")))) in
  localStorage run.2 !! "authToken" = Some "a1"
  ∧ location_href run.2 = "/login/"
  ∧ toast_message <$> toasts run.2 = ["Failed to fetch"]
  ∧ (AuthForms.isAuthenticated run.2).1 = Normal true.
Proof.
  destruct (lost_profile_keeps_tokens sample_codec asha_login
              (login_page (auth_server tokens_issued
                             (Rejected (mkTypeError "Failed to fetch"))))
              (DObject {[ "role" := JString "admin" ]}) token_pair
              {| resp_status := 200; resp_json := inr token_pair |}
              (JString "a1") (JString "r1") (mkTypeError "Failed to fetch"))
    as (_ & H2 & H3 & H4 & H5); [reflexivity..|].
  cbv zeta. rewrite H2, H3, H4, H5. repeat split; vm_compute; reflexivity.
Defined.

(** The token endpoint answering 401 with a JSON body after an accepted
    session login: the success toast and the redirect follow, with nothing
    stored.  The same with a 502 whose body is not JSON: the parse error is
    shown and the page stays. *)
Lemma login_with_refused_tokens_witness :
  (let run := AuthForms.handleLogin sample_codec asha_login
                (login_page (auth_server (Resolved unauthorized)
                               (Resolved profile_sent))) in
   localStorage run.2 = ∅
   ∧ location_href run.2 = "/admin/dashboard/"
   ∧ toast_message <$> toasts run.2 = ["Login successful!"])
  ∧ (let run := AuthForms.handleLogin sample_codec asha_login
                  (login_page (auth_server (Resolved bad_gateway)
                                 (Resolved profile_sent))) in
     localStorage run.2 = ∅
     ∧ location_href run.2 = "/login/"
     ∧ toast_message <$> toasts run.2 = ["Unexpected token <"]).
Proof.
  split.
  - destruct (login_with_refused_tokens sample_codec asha_login
                (login_page (auth_server (Resolved unauthorized)
                               (Resolved profile_sent)))
                (DObject {[ "role" := JString "admin" ]}) unauthorized)
      as (_ & H2 & _ & H4 & H5); [reflexivity..|].
    cbv zeta. rewrite H2, H4, H5. repeat split; vm_compute; reflexivity.
  - destruct (login_with_refused_tokens sample_codec asha_login
                (login_page (auth_server (Resolved bad_gateway)
                               (Resolved profile_sent)))
                (DObject {[ "role" := JString "admin" ]}) bad_gateway)
      as (_ & H2 & _ & H4 & H5); [reflexivity..|].
    cbv zeta. rewrite H2, H4, H5. repeat split; vm_compute; reflexivity.
Defined.

(** The sample dashboard with the status selector on submitted shows the
    first report; on a list without submitted reports it shows the
    empty state. *)
Lemma applyFilters_view_witness :
  let w := dashboard_with reports_server session_cookies dashboard_elements in
  let run := CitizenDashboard.applyFilters plain_host w in
  showing "reports-container" run.2 = true
  ∧ showing "no-reports" run.2 = false
  ∧ innerHTML <$> elements run.2 !! "reports-container"
    = Some (CitizenDashboard.renderReportItem plain_host pothole_report).
Proof.
  pose proof (applyFilters_view plain_host
                (dashboard_with reports_server session_cookies dashboard_elements)
                [pothole_report; trash_report] blank blank
                eq_refl eq_refl eq_refl) as H.
  cbv zeta in H. vm_compute filter in H. destruct H as (H1 & H2 & H3).
  cbv zeta. rewrite H1, H2, H3. repeat split.
Defined.

(** On the sample dashboard the four counts read 2, 1, 0 and 1. *)
Lemma updateStats_totals_witness :
  let w := dashboard_with reports_server session_cookies dashboard_elements in
  let run := CitizenDashboard.updateStats w in
  textContent <$> elements run.2 !! "total-reports" = Some "2"
  ∧ textContent <$> elements run.2 !! "pending-reports" = Some "1".
Proof.
  pose proof (updateStats_totals
                (dashboard_with reports_server session_cookies dashboard_elements)
                [pothole_report; trash_report] blank blank blank blank
                eq_refl eq_refl eq_refl eq_refl eq_refl) as H.
  cbv zeta in H.
  destruct H as (pending & started & closed & H1 & H2 & _ & _ & Hp & Hs & Hc).
  cbv zeta. rewrite H1, H2, Hp, Hs, Hc. split; vm_compute; reflexivity.
Defined.

(** A load answered 401: the two reports held before stay, the failure is
    shown and the list gives way to the empty state. *)
Lemma failed_load_shows_empty_state_witness :
  let w := dashboard_with (fixed_server unauthorized) session_cookies
             dashboard_elements in
  let run := CitizenDashboard.loadReports plain_host w in
  reports (citizenDashboard run.2) = DArray [pothole_report; trash_report]
  ∧ toast_message <$> toasts run.2 = ["Failed to load reports"]
  ∧ showing "reports-container" run.2 = false
  ∧ showing "no-reports" run.2 = true.
Proof.
  destruct (failed_load_shows_empty_state plain_host
              (dashboard_with (fixed_server unauthorized) session_cookies
                 dashboard_elements)
              (mkError "Failed to load reports"))
    as (_ & H2 & _ & H4 & _ & _ & H7 & H8); [reflexivity|].
  cbv zeta. rewrite H2, H4, H7, H8 by (eexists; reflexivity).
  repeat split; vm_compute; reflexivity.
Defined.

(** A 2xx body that wraps the list in an object: it is stored, the load
    ends in the failure toast, and the next change of a selector throws. *)
Lemma stored_non_array_breaks_filters_witness :
  let w := dashboard_with (fixed_server paged_response) session_cookies
             dashboard_elements in
  let run := CitizenDashboard.loadReports plain_host w in
  reports (citizenDashboard run.2) = paged_body
  ∧ toast_message <$> toasts run.2 = ["Failed to load reports"]
  ∧ console run.2
    = [("Error loading reports:", "this.reports.filter is not a function")]
  ∧ (CitizenDashboard.on_status_change plain_host "resolved" run.2).1
    = Throw (mkTypeError "this.reports.filter is not a function").
Proof.
  destruct (stored_non_array_breaks_filters plain_host
              (dashboard_with (fixed_server paged_response) session_cookies
                 dashboard_elements)
              paged_body)
    as (_ & H2 & H3 & H4 & _ & H6); [reflexivity|done|].
  cbv zeta. rewrite H2, H3, H4. split; [reflexivity|].
  split; [vm_compute; reflexivity|]. split; [reflexivity|]. apply H6.
Defined.

(** The load of the sample page: both reports are stored and shown, the
    total reads 2 and nothing is reported. *)
Lemma loadReports_shows_reports_witness :
  let run := CitizenDashboard.loadReports plain_host dashboard_page in
  reports (citizenDashboard run.2) = DArray [pothole_report; trash_report]
  ∧ filteredReports (citizenDashboard run.2) = [pothole_report; trash_report]
  ∧ textContent <$> elements run.2 !! "total-reports" = Some "2"
  ∧ toasts run.2 = [].
Proof.
  destruct (loadReports_shows_reports plain_host dashboard_page
              [pothole_report; trash_report] blank blank blank blank)
    as (_ & H2 & H3 & _ & H5 & H6 & _); [reflexivity..|].
  cbv zeta. rewrite H2, H3, H5, H6. repeat split; vm_compute; reflexivity.
Defined.

(** The same load on a page without the resolved count: the reports are
    stored, yet the failure is shown and the list stays hidden. *)
Lemma missing_counter_fails_load_witness :
  let w := dashboard_with reports_server session_cookies
             (delete "resolved-reports" dashboard_elements) in
  let run := CitizenDashboard.loadReports plain_host w in
  reports (citizenDashboard run.2) = DArray [pothole_report; trash_report]
  ∧ filteredReports (citizenDashboard run.2) = []
  ∧ toast_message <$> toasts run.2 = ["Failed to load reports"]
  ∧ showing "reports-container" run.2 = false.
Proof.
  destruct (missing_counter_fails_load plain_host
              (dashboard_with reports_server session_cookies
                 (delete "resolved-reports" dashboard_elements))
              [pothole_report; trash_report] "resolved-reports")
    as (_ & H2 & H3 & H4 & H5 & _).
  - reflexivity.
  - unfold count_ids. repeat constructor.
  - reflexivity.
  - cbv zeta. rewrite H2, H3, H4, H5. repeat split; vm_compute; reflexivity.
Defined.


(** The CSRF cookie is the second pair of the sample cookie string. *)
Lemma getCookie_first_pair_witness :
  CitizenDashboard.getCookie plain_host "csrftoken" dashboard_page
  = (Normal (Some "tok123"), dashboard_page).
Proof.
  apply (getCookie_first_pair plain_host dashboard_page "csrftoken" "tok123"
           " csrftoken=tok123" ["sessionid=abc"] []).
  - reflexivity.
  - repeat constructor.
  - constructor; [|constructor]. intros [value H]. vm_compute in H.
    discriminate H.
  - reflexivity.
Defined.

(** With the session cookie alone the load sends the text null as its
    CSRF token. *)
Lemma absent_cookie_sends_null_witness :
  let w := dashboard_with reports_server "sessionid=abc" dashboard_elements in
  ∃ request,
    sent (CitizenDashboard.loadReports plain_host w).2 = [request]
    ∧ req_headers request !! "X-CSRFToken" = Some "null".
Proof.
  destruct (absent_cookie_sends_null plain_host
              (dashboard_with reports_server "sessionid=abc" dashboard_elements)
              ["sessionid=abc"]) as (_ & request & H1 & H2).
  - reflexivity.
  - repeat constructor.
  - constructor; [|constructor]. intros [value H]. vm_compute in H.
    discriminate H.
  - exists request. split; [exact H1|exact H2].
Defined.

(** A refresh answered 200 with an empty object: the call returns null
    and the text undefined is now the stored access token. *)
Lemma refresh_without_access_witness :
  let run := AuthManager.makeAuthenticatedRequest "/api/reports/user/"
               no_options (page full_store forgetful_server) in
  run.1 = Normal None
  ∧ localStorage run.2 !! "authToken" = Some "undefined"
  ∧ length (sent run.2) = 2%nat.
Proof.
  destruct (refresh_without_access (page full_store forgetful_server)
              "stale" "r1" "/api/reports/user/" no_options
              {| resp_status := 200; resp_json := inr (DObject ∅) |}
              (DObject ∅))
    as (H1 & H2 & H3).
  - reflexivity.
  - reflexivity.
  - exists unauthorized. split; reflexivity.
  - reflexivity.
  - reflexivity.
  - reflexivity.
  - reflexivity.
  - reflexivity.
  - reflexivity.
  - cbv zeta. rewrite H1, H2, H3. repeat split; vm_compute; reflexivity.
Defined.

(** Lengths are counted in UTF-16 code units, not in bytes: a name of two
    accented letters is shorter than three characters. *)
Example validateForm_counts_code_units :
  let run := AppUtils.validateForm (Some (name_form accented_name)) name_rules
               (login_page (fixed_server unauthorized)) in
  (∃ marked, run.1 = Normal (false, Some marked))
  ∧ toast_message <$> toasts run.2 = ["Name must be at least 3 characters"].
Proof. vm_compute. split; [by eexists|done]. Qed.

(** A required field that holds a no-break space is empty once trimmed. *)
Example validateForm_trims_no_break_space :
  let run := AppUtils.validateForm (Some (name_form blank_name)) name_rules
               (login_page (fixed_server unauthorized)) in
  (∃ marked, run.1 = Normal (false, Some marked))
  ∧ toast_message <$> toasts run.2 = ["Name is required"].
Proof. vm_compute. split; [by eexists|done]. Qed.

(** A 2xx body null: the load logs the failed read of length, and the next
    change of a selector throws on the read of filter. *)
Example null_body_errors_name_the_read :
  let w := dashboard_with (fixed_server null_response) session_cookies
             dashboard_elements in
  let run := CitizenDashboard.loadReports plain_host w in
  reports (citizenDashboard run.2) = DNull
  ∧ console run.2
    = [("Error loading reports:",
        "Cannot read properties of null (reading 'length')")]
  ∧ (CitizenDashboard.on_status_change plain_host "resolved" run.2).1
    = Throw (mkTypeError "Cannot read properties of null (reading 'filter')").
Proof. vm_compute. done. Qed.
